(** * Booking assistant: the conversation state machine and its slot extraction

    A shallow embedding of [app/booking_flow.py] ([BookingFlow]), of the
    intent and memory functions of [app/chat_logic.py], of the format
    validators of [app/tools.py] and of the writes and the read by id of
    [db/database.py], together with the pieces of the Python runtime these
    functions rely on ([str] methods, the fragment of [re] the patterns
    use, [datetime.strptime] for the two formats that occur,
    insertion-ordered [dict]s).

    Python [str] values are modelled by [string]: a sequence of 8-bit
    characters.  The character predicates ([isalpha], [isdigit], [\w], [\s],
    [lower], ...) are the ones Python applies to ASCII text; characters
    above 127 are carried through unchanged and belong to no class. *)

From Stdlib Require Import String Ascii List ZArith Bool Arith Lia.
Import ListNotations.
Open Scope string_scope.

(* ================================================================== *)
(** ** Python [str] *)
(* ================================================================== *)

Module Py.

Definition code (c : ascii) : nat := nat_of_ascii c.

Definition between (lo hi : nat) (c : ascii) : bool :=
  (lo <=? code c)%nat && (code c <=? hi)%nat.

Definition is_upper (c : ascii) : bool := between 65 90 c.
Definition is_lower (c : ascii) : bool := between 97 122 c.
Definition is_alpha (c : ascii) : bool := is_upper c || is_lower c.
Definition is_digit (c : ascii) : bool := between 48 57 c.

(** [str.isspace] on one character: TAB, LF, VT, FF, CR, FS, GS, RS, US
    and the space. *)
Definition is_space (c : ascii) : bool :=
  between 9 13 c || between 28 32 c.

(** [\w] of the [re] module. *)
Definition is_word (c : ascii) : bool :=
  is_alpha c || is_digit c || Ascii.eqb c "_".

Definition lower_char (c : ascii) : ascii :=
  if is_upper c then ascii_of_nat (code c + 32) else c.

Definition upper_char (c : ascii) : ascii :=
  if is_lower c then ascii_of_nat (code c - 32) else c.

Fixpoint smap (f : ascii -> ascii) (s : string) : string :=
  match s with
  | EmptyString => EmptyString
  | String c r => String (f c) (smap f r)
  end.

Fixpoint sall (p : ascii -> bool) (s : string) : bool :=
  match s with
  | EmptyString => true
  | String c r => p c && sall p r
  end.

Definition is_empty (s : string) : bool :=
  match s with EmptyString => true | _ => false end.

(** [s.lower()] *)
Definition lower (s : string) : string := smap lower_char s.

(** [s.lstrip(chars)], [s.rstrip(chars)], [s.strip(chars)] with the set of
    characters given as a predicate. *)
Fixpoint lstrip_by (p : ascii -> bool) (s : string) : string :=
  match s with
  | EmptyString => EmptyString
  | String c r => if p c then lstrip_by p r else s
  end.

Fixpoint rstrip_by (p : ascii -> bool) (s : string) : string :=
  match s with
  | EmptyString => EmptyString
  | String c r =>
      let r' := rstrip_by p r in
      if p c && is_empty r' then EmptyString else String c r'
  end.

Definition strip_by (p : ascii -> bool) (s : string) : string :=
  lstrip_by p (rstrip_by p s).

(** [s.strip()] *)
Definition strip (s : string) : string := strip_by is_space s.

(** [s.strip(c)] for a one-character argument. *)
Definition strip_char (c : ascii) (s : string) : string :=
  strip_by (Ascii.eqb c) s.

(** [haystack.startswith(needle)] *)
Fixpoint starts_with (needle haystack : string) : bool :=
  match needle, haystack with
  | EmptyString, _ => true
  | String a n, String b h => Ascii.eqb a b && starts_with n h
  | String _ _, EmptyString => false
  end.

(** [needle in haystack] *)
Fixpoint contains (needle haystack : string) : bool :=
  starts_with needle haystack ||
  match haystack with
  | EmptyString => false
  | String _ r => contains needle r
  end.

(** [any(w in s for w in words)] *)
Definition contains_any (words : list string) (s : string) : bool :=
  existsb (fun w => contains w s) words.

(** [s in words] for a list of strings. *)
Definition mem (s : string) (words : list string) : bool :=
  existsb (String.eqb s) words.

(** [s.replace(c, new)] for a one-character [c]. *)
Fixpoint replace (c : ascii) (new : string) (s : string) : string :=
  match s with
  | EmptyString => EmptyString
  | String a r =>
      if Ascii.eqb a c then new ++ replace c new r
      else String a (replace c new r)
  end.

(** [s.split()]: the maximal runs of non-whitespace characters. *)
Fixpoint split_ws_from (cur : string) (s : string) : list string :=
  match s with
  | EmptyString => if is_empty cur then [] else [cur]
  | String c r =>
      if is_space c then
        if is_empty cur then split_ws_from EmptyString r
        else cur :: split_ws_from EmptyString r
      else split_ws_from (cur ++ String c EmptyString) r
  end.

Definition split_ws (s : string) : list string := split_ws_from EmptyString s.

(** [s.split(c)] for a one-character separator: never the empty list. *)
Fixpoint split (c : ascii) (s : string) : list string :=
  match s with
  | EmptyString => [EmptyString]
  | String a r =>
      if Ascii.eqb a c then EmptyString :: split c r
      else match split c r with
           | h :: t => String a h :: t
           | [] => [String a EmptyString]
           end
  end.

(** [s.isalpha()], [s.isdigit()]: false on the empty string. *)
Definition isalpha (s : string) : bool := negb (is_empty s) && sall is_alpha s.
Definition isdigit (s : string) : bool := negb (is_empty s) && sall is_digit s.

(** [s.title()]: a cased character is upper-cased when the character
    before it is not cased, lower-cased otherwise. *)
Fixpoint title_from (prev_cased : bool) (s : string) : string :=
  match s with
  | EmptyString => EmptyString
  | String c r =>
      if is_alpha c then
        String (if prev_cased then lower_char c else upper_char c)
               (title_from true r)
      else String c (title_from false r)
  end.

Definition title (s : string) : string := title_from false s.

Definition digit_val (c : ascii) : Z := Z.of_nat (code c - 48).

(** The digits of [int(s)]: decimal digits, single underscores allowed
    between two digits. *)
Fixpoint int_digits (acc : Z) (prev_digit : bool) (s : string) : option Z :=
  match s with
  | EmptyString => if prev_digit then Some acc else None
  | String c r =>
      if is_digit c then int_digits (10 * acc + digit_val c) true r
      else if Ascii.eqb c "_" && prev_digit then
        match r with
        | EmptyString => None
        | _ => int_digits acc false r
        end
      else None
  end.

(** The blanks [int] skips at either end: TAB, LF, VT, FF, CR and the
    space, fewer than [str.strip] removes. *)
Definition is_int_space (c : ascii) : bool :=
  between 9 13 c || Ascii.eqb c " ".

(** The number of decimal digits of a literal. *)
Fixpoint count_digits (s : string) : nat :=
  match s with
  | EmptyString => O
  | String c r => if is_digit c then S (count_digits r) else count_digits r
  end.

(** [sys.int_info.default_max_str_digits] *)
Definition MAX_STR_DIGITS : nat := 4300.

(** [int(s)]; [None] stands for [ValueError], which a literal of more than
    [MAX_STR_DIGITS] digits raises too. *)
Definition int (s : string) : option Z :=
  let digits (r : string) :=
    if (MAX_STR_DIGITS <? count_digits r)%nat then None
    else int_digits 0 false r in
  match strip_by is_int_space s with
  | String "+" r => digits r
  | String "-" r => option_map Z.opp (digits r)
  | t => digits t
  end.

Definition digit_char (d : Z) : ascii := ascii_of_nat (48 + Z.to_nat d).

(** The decimal digits of a natural number, last digit first onto [acc];
    [fuel] bounds their number. *)
Fixpoint digits_onto (fuel : nat) (n : Z) (acc : string) : string :=
  match fuel with
  | O => acc
  | S f =>
      let acc' := String (digit_char (n mod 10)) acc in
      if (n <? 10)%Z then acc' else digits_onto f (n / 10) acc'
  end.

(** [str(n)] for an integer; a number has no more decimal than binary
    digits. *)
Definition str_of_Z (n : Z) : string :=
  let digits (m : Z) :=
    digits_onto (S (Z.to_nat (Z.log2 m))) m EmptyString in
  if (n <? 0)%Z then String "-" (digits (- n)%Z) else digits n.

(** [f"{n:02d}"] *)
Definition fmt_02d (n : Z) : string :=
  let s := str_of_Z n in
  if (String.length s <? 2)%nat then "0" ++ s else s.

(** [f"{n:04d}"] as [strftime('%Y')] prints a year. *)
Definition fmt_04d (n : Z) : string :=
  let s := str_of_Z n in
  (fix pad (k : nat) (t : string) : string :=
     match k with
     | O => t
     | S k' => pad k' ("0" ++ t)
     end) (4 - String.length s)%nat s.

Definition nl : string := String (ascii_of_nat 10) EmptyString.

Fixpoint join (sep : string) (l : list string) : string :=
  match l with
  | [] => EmptyString
  | [x] => x
  | x :: r => x ++ sep ++ join sep r
  end.

End Py.

(* ================================================================== *)
(** ** The fragment of [re] used by the patterns of the program *)
(* ================================================================== *)

Module Re.

(** Every pattern in the program is a sequence of greedy repetitions of a
    single character class, of word boundaries and of anchors. *)
Inductive item : Type :=
| Rep (cls : ascii -> bool) (lo : nat) (hi : option nat)
| Bnd
| Bol
| Eol.

Definition Plus (cls : ascii -> bool) : item := Rep cls 1 None.
Definition Lit (c : ascii) : item := Rep (Ascii.eqb c) 1 (Some 1%nat).
Definition Times (cls : ascii -> bool) (n : nat) : item := Rep cls n (Some n).

Definition head (s : string) : option ascii :=
  match s with EmptyString => None | String c _ => Some c end.

Definition word_at (o : option ascii) : bool :=
  match o with Some c => Py.is_word c | None => false end.

Fixpoint drop (k : nat) (s : string) : string :=
  match k, s with
  | S k', String _ r => drop k' r
  | _, _ => s
  end.

Fixpoint take (k : nat) (s : string) : string :=
  match k, s with
  | S k', String c r => String c (take k' r)
  | _, _ => EmptyString
  end.

(** The character just before position [k] of [s], [prev] for [k = 0]. *)
Fixpoint before (k : nat) (prev : option ascii) (s : string) : option ascii :=
  match k, s with
  | S k', String c r => before k' (Some c) r
  | _, _ => prev
  end.

(** How many leading characters of [s] belong to [cls], at most [hi]. *)
Fixpoint run (cls : ascii -> bool) (hi : option nat) (s : string) : nat :=
  match s with
  | EmptyString => O
  | String c r =>
      match hi with
      | Some O => O
      | Some (S h) => if cls c then S (run cls (Some h) r) else O
      | None => if cls c then S (run cls None r) else O
      end
  end.

(** Greedy choice with backtracking: the longest count first, down to [lo]. *)
Fixpoint backtrack (f : nat -> option nat) (lo k : nat) : option nat :=
  if (k <? lo)%nat then None
  else match f k with
       | Some m => Some m
       | None => match k with
                 | O => None
                 | S k' => backtrack f lo k'
                 end
       end.

Definition at_end (s : string) : bool :=
  match s with
  | EmptyString => true
  | String c EmptyString => Ascii.eqb c (ascii_of_nat 10)
  | _ => false
  end.

(** [match_at its prev s]: the pattern matched at the head of [s] where
    [prev] is the character before it; the result is the length of the
    match. *)
Fixpoint match_at (its : list item) (prev : option ascii) (s : string)
  : option nat :=
  match its with
  | [] => Some O
  | Bnd :: r =>
      if xorb (word_at prev) (word_at (head s)) then match_at r prev s
      else None
  | Bol :: r =>
      match prev with
      | None => match_at r prev s
      | Some _ => None
      end
  | Eol :: r => if at_end s then match_at r prev s else None
  | Rep cls lo hi :: r =>
      backtrack
        (fun k => option_map (Nat.add k)
                    (match_at r (before k prev s) (drop k s)))
        lo (run cls hi s)
  end.

(** [re.findall(pattern, s)]: scanning left to right, matches do not
    overlap.  [skip] counts the characters of the last match that are still
    to be passed.  (All patterns of the program consume at least one
    character.) *)
Fixpoint findall_from (its : list item) (prev : option ascii) (skip : nat)
    (s : string) : list string :=
  match s with
  | EmptyString => []
  | String c r =>
      match skip with
      | S k => findall_from its (Some c) k r
      | O =>
          match match_at its prev s with
          | Some n => take n s :: findall_from its (Some c) (n - 1) r
          | None => findall_from its (Some c) O r
          end
      end
  end.

Definition findall (its : list item) (s : string) : list string :=
  findall_from its None O s.

(** [re.match(pattern, s)] as a truth value. *)
Definition matches (its : list item) (s : string) : bool :=
  match match_at its None s with Some _ => true | None => false end.

(** [re.sub(r'[cls]', '', s)] *)
Fixpoint remove (cls : ascii -> bool) (s : string) : string :=
  match s with
  | EmptyString => EmptyString
  | String c r => if cls c then remove cls r else String c (remove cls r)
  end.

End Re.

(* ================================================================== *)
(** ** Insertion-ordered [dict] with string keys and string values *)
(* ================================================================== *)

Module Dict.

(** The order of insertion is observable (the first key of the error
    mapping is the field asked for again), so a dictionary is the list of
    its entries in that order. *)
Definition t : Type := list (string * string).

Definition empty : t := [].

(** [d.get(k)] *)
Fixpoint get (k : string) (d : t) : option string :=
  match d with
  | [] => None
  | (k', v) :: r => if String.eqb k' k then Some v else get k r
  end.

(** [k in d] *)
Definition mem (k : string) (d : t) : bool :=
  match get k d with Some _ => true | None => false end.

(** [d[k] = v]: an existing key keeps its position, a new key goes last. *)
Fixpoint set (k v : string) (d : t) : t :=
  match d with
  | [] => [(k, v)]
  | (k', v') :: r =>
      if String.eqb k' k then (k, v) :: r else (k', v') :: set k v r
  end.

(** [d.update(e)] *)
Definition update (d e : t) : t :=
  fold_left (fun acc kv => set (fst kv) (snd kv) acc) e d.

(** [list(d.keys())] *)
Definition keys (d : t) : list string := map fst d.

(** [k in d and d[k]]: present with a non-empty value. *)
Definition filled (k : string) (d : t) : bool :=
  match get k d with
  | Some v => negb (Py.is_empty v)
  | None => false
  end.

(** [str(d.get(k))] as an f-string prints it. *)
Definition show (k : string) (d : t) : string :=
  match get k d with Some v => v | None => "None" end.

(** Unique keys, as every Python [dict] has them. *)
Definition wf (d : t) : Prop := NoDup (keys d).

End Dict.

(* ================================================================== *)
(** ** [datetime] *)
(* ================================================================== *)

Module Datetime.

Open Scope Z_scope.

(** A [datetime] is held as its proleptic Gregorian ordinal
    ([toordinal()], day 1 is 0001-01-01) and its time of day. *)
Record datetime : Type := mk_datetime {
  ordinal : Z;
  hour : Z;
  minute : Z;
  second : Z;
  microsecond : Z
}.

Definition MAXORDINAL : Z := 3652059.

Definition is_leap (y : Z) : bool :=
  (y mod 4 =? 0) && (negb (y mod 100 =? 0) || (y mod 400 =? 0)).

Definition days_in_month (y m : Z) : Z :=
  if m =? 2 then (if is_leap y then 29 else 28)
  else if (m =? 4) || (m =? 6) || (m =? 9) || (m =? 11) then 30
  else 31.

Definition days_before_year (y : Z) : Z :=
  let p := y - 1 in p * 365 + p / 4 - p / 100 + p / 400.

Definition DAYS_BEFORE_MONTH (m : Z) : Z :=
  nth (Z.to_nat m) [0; 0; 31; 59; 90; 120; 151; 181; 212; 243; 273; 304; 334] 0.

Definition days_before_month (y m : Z) : Z :=
  DAYS_BEFORE_MONTH m + (if (2 <? m) && is_leap y then 1 else 0).

Definition ymd2ord (y m d : Z) : Z :=
  days_before_year y + days_before_month y m + d.

(** The last lines of [_ord2ymd]: month and day of the [n]-th day (from
    0) of a year, with an estimate of the month that is at most one too
    large. *)
Definition month_day (n : Z) (leapyear : bool) : Z * Z :=
  let month := Z.shiftr (n + 50) 5 in
  let preceding :=
    DAYS_BEFORE_MONTH month + (if (2 <? month) && leapyear then 1 else 0) in
  if n <? preceding then
    let month' := month - 1 in
    let preceding' :=
      preceding - (days_in_month 1 month'
                   + (if (month' =? 2) && leapyear then 1 else 0)) in
    (month', n - preceding' + 1)
  else (month, n - preceding + 1).

(** [_ord2ymd]: ordinal to (year, month, day). *)
Definition ord2ymd (n0 : Z) : Z * Z * Z :=
  let n := n0 - 1 in
  let n400 := n / 146097 in
  let n := n mod 146097 in
  let n100 := n / 36524 in
  let n := n mod 36524 in
  let n4 := n / 1461 in
  let n := n mod 1461 in
  let n1 := n / 365 in
  let n := n mod 365 in
  let year := n400 * 400 + 1 + n100 * 100 + n4 * 4 + n1 in
  if (n1 =? 4) || (n100 =? 4) then (year - 1, 12, 31)
  else
    let leapyear := (n1 =? 3) && (negb (n4 =? 24) || (n100 =? 3)) in
    let '(month, day) := month_day n leapyear in
    (year, month, day).

(** The text [YYYY-MM-DD] of a year, a month and a day. *)
Definition text_Ymd (y m d : Z) : string :=
  (Py.fmt_04d y ++ "-" ++ Py.fmt_02d m ++ "-" ++ Py.fmt_02d d)%string.

(** [dt.strftime('%Y-%m-%d')].  (For a year before 1000 the padding of
    [%Y] is left to the C library; the text here is the four-digit one.) *)
Definition strftime_Ymd (dt : datetime) : string :=
  let '(y, m, d) := ord2ymd (ordinal dt) in text_Ymd y m d.

(** The arguments [datetime(year, month, day)] accepts. *)
Definition valid_date (y m d : Z) : Prop :=
  1 <= y <= 9999 /\ 1 <= m <= 12 /\ 1 <= d <= days_in_month y m.

(** *** [strptime]

    [_strptime] turns every directive into a regex group made of
    alternatives; an alternative here is the list of the character classes
    it matches in sequence. *)
Definition alt : Type := list (ascii -> bool).

Definition rng (lo hi : string) : ascii -> bool :=
  fun c => match lo, hi with
           | String a _, String b _ => Py.between (Py.code a) (Py.code b) c
           | _, _ => false
           end.

Definition one (c : string) : ascii -> bool := rng c c.

Fixpoint match_alt (a : alt) (s : string) : option (string * string) :=
  match a with
  | [] => Some (EmptyString, s)
  | p :: a' =>
      match s with
      | String c r =>
          if p c then
            match match_alt a' r with
            | Some (txt, rest) => Some (String c txt, rest)
            | None => None
            end
          else None
      | EmptyString => None
      end
  end.

(** A group followed by the rest of the pattern [k]: the first alternative
    after which the rest matches. *)
Fixpoint group {A : Type} (alts : list alt) (k : string -> string -> option A)
    (s : string) : option A :=
  match alts with
  | [] => None
  | a :: alts' =>
      match match_alt a s with
      | Some (txt, rest) =>
          match k txt rest with
          | Some x => Some x
          | None => group alts' k s
          end
      | None => group alts' k s
      end
  end.

Definition lit {A : Type} (c : string) (k : string -> option A) (s : string)
  : option A :=
  match s with
  | String a r => if one c a then k r else None
  | EmptyString => None
  end.

Definition re_Y : list alt :=
  [[Py.is_digit; Py.is_digit; Py.is_digit; Py.is_digit]].
Definition re_m : list alt :=
  [[one "1"; rng "0" "2"]; [one "0"; rng "1" "9"]; [rng "1" "9"]].
Definition re_d : list alt :=
  [[one "3"; rng "0" "1"]; [rng "1" "2"; Py.is_digit]; [one "0"; rng "1" "9"];
   [rng "1" "9"]; [one " "; rng "1" "9"]].
Definition re_H : list alt :=
  [[one "2"; rng "0" "3"]; [rng "0" "1"; Py.is_digit]; [Py.is_digit]].
Definition re_M : list alt :=
  [[rng "0" "5"; Py.is_digit]; [Py.is_digit]].

Definition midnight (ord : Z) : datetime := mk_datetime ord 0 0 0 0.

(** [datetime.strptime(s, '%Y-%m-%d')]; [None] stands for [ValueError]:
    no match, unconverted data left, or a day that does not exist. *)
Definition strptime_Ymd (s : string) : option datetime :=
  match
    group re_Y (fun y r1 =>
    lit "-" (fun r2 =>
    group re_m (fun m r3 =>
    lit "-" (fun r4 =>
    group re_d (fun d r5 => Some (y, m, d, r5)) r4) r3) r2) r1) s
  with
  | Some (y, m, d, rest) =>
      if Py.is_empty rest then
        match Py.int y, Py.int m, Py.int d with
        | Some year, Some month, Some day =>
            if (1 <=? year) && (year <=? 9999)
               && (1 <=? month) && (month <=? 12)
               && (1 <=? day) && (day <=? days_in_month year month)
            then Some (midnight (ymd2ord year month day))
            else None
        | _, _, _ => None
        end
      else None
  | None => None
  end.

(** [datetime.strptime(s, '%H:%M')]: the date part is 1900-01-01. *)
Definition strptime_HM (s : string) : option datetime :=
  match
    group re_H (fun h r1 =>
    lit ":" (fun r2 =>
    group re_M (fun m r3 => Some (h, m, r3)) r2) r1) s
  with
  | Some (h, m, rest) =>
      if Py.is_empty rest then
        match Py.int h, Py.int m with
        | Some hh, Some mm =>
            Some (mk_datetime (ymd2ord 1900 1 1) hh mm 0 0)
        | _, _ => None
        end
      else None
  | None => None
  end.

(** [a < b] on two datetimes. *)
Definition lt (a b : datetime) : bool :=
  let key (x : datetime) :=
    ((hour x * 60 + minute x) * 60 + second x) * 1000000 + microsecond x in
  (ordinal a <? ordinal b) || ((ordinal a =? ordinal b) && (key a <? key b)).

(** [a.time() < b.time()] *)
Definition time_lt (a b : datetime) : bool :=
  let key (x : datetime) :=
    ((hour x * 60 + minute x) * 60 + second x) * 1000000 + microsecond x in
  key a <? key b.

(** [dt + timedelta(days=n)], within the supported range of dates. *)
Definition add_days (dt : datetime) (n : Z) : datetime :=
  mk_datetime (ordinal dt + n) (hour dt) (minute dt) (second dt)
              (microsecond dt).

(** The readings of the wall clock the program can obtain: every field in
    its range, and a year of headroom before [datetime.max] so that
    [today + timedelta(days=365)] exists. *)
Definition clock_ok (now : datetime) : Prop :=
  1 <= ordinal now /\ ordinal now + 365 <= MAXORDINAL /\
  0 <= hour now < 24 /\ 0 <= minute now < 60 /\
  0 <= second now < 60 /\ 0 <= microsecond now < 1000000.

End Datetime.

(* ================================================================== *)
(** ** Collaborators of the booking flow *)
(* ================================================================== *)

(** [self.llm.invoke([SystemMessage(system), HumanMessage(prompt)])]: the
    content of the reply, or [None] when the call raises. *)
Definition LLM : Type := string -> string -> option string.

(** [tools.send_booking_email(booking_data, booking_id)]: it catches its own
    failures and answers with a boolean. *)
Definition Notifier : Type := Dict.t -> Z -> bool.

(** [self.db]: what [BookingFlow] needs of [BookingDatabase].  The answer
    is the new booking's id, or the text of the exception raised. *)
Class BookingStore (S : Type) : Type := {
  create_booking :
    S -> forall (name email phone booking_type date time : string),
    (string + Z) * S
}.

(** [db/database.py]: the two tables and [create_booking], as the SQL
    statements act on them. *)
Module Database.

Record customer : Type := mk_customer {
  customer_id : Z;
  c_name : string;
  c_email : string;
  c_phone : string
}.

Record booking : Type := mk_booking {
  id : Z;
  b_customer_id : Z;
  b_booking_type : string;
  b_date : string;
  b_time : string;
  b_status : string
}.

(** The [next_*] fields are the AUTOINCREMENT sequences. *)
Record t : Type := mk {
  customers : list customer;
  bookings : list booking;
  next_customer : Z;
  next_booking : Z
}.

Definition empty : t := mk [] [] 1 1.

(** [SELECT customer_id FROM customers WHERE email = ?] *)
Definition find_customer (email : string) (db : t) : option customer :=
  find (fun c => String.eqb (c_email c) email) (customers db).

(** [UPDATE customers SET name = ?, phone = ? WHERE customer_id = ?] *)
Definition update_customer (cid : Z) (name phone : string) (db : t) : t :=
  mk (map (fun c => if Z.eqb (customer_id c) cid
                    then mk_customer cid name (c_email c) phone else c)
          (customers db))
     (bookings db) (next_customer db) (next_booking db).

Definition create_booking (db : t)
    (name email phone booking_type date time : string) : (string + Z) * t :=
  let '(cid, db1) :=
    match find_customer email db with
    | Some c => (customer_id c, update_customer (customer_id c) name phone db)
    | None =>
        let cid := next_customer db in
        (cid, mk (customers db ++ [mk_customer cid name email phone])%list
                 (bookings db) (cid + 1)%Z (next_booking db))
    end in
  let bid := next_booking db1 in
  (inr bid,
   mk (customers db1)
      (bookings db1 ++ [mk_booking bid cid booking_type date time "confirmed"])%list
      (next_customer db1) (bid + 1)%Z).

(** One row of the join of the two tables, as the read functions return
    it (without the [created_at] stamp, which SQLite fills in). *)
Record row : Type := mk_row {
  r_id : Z;
  r_name : string;
  r_email : string;
  r_phone : string;
  r_booking_type : string;
  r_date : string;
  r_time : string;
  r_status : string
}.

(** [FROM bookings b JOIN customers c ON b.customer_id = c.customer_id] *)
Definition joined (db : t) : list row :=
  flat_map
    (fun b =>
       map (fun c => mk_row (id b) (c_name c) (c_email c) (c_phone c)
                            (b_booking_type b) (b_date b) (b_time b)
                            (b_status b))
           (filter (fun c => Z.eqb (customer_id c) (b_customer_id b))
                   (customers db)))
    (bookings db).

(** [get_booking_by_id]: [WHERE b.id = ?], then [fetchone()]. *)
Definition get_booking_by_id (booking_id : Z) (db : t) : option row :=
  hd_error (filter (fun r => Z.eqb (r_id r) booking_id) (joined db)).

(** [update_booking_status]: [UPDATE bookings SET status = ? WHERE id = ?];
    the answer is [cursor.rowcount > 0]. *)
Definition update_booking_status (booking_id : Z) (status : string) (db : t)
  : bool * t :=
  (existsb (fun b => Z.eqb (id b) booking_id) (bookings db),
   mk (customers db)
      (map (fun b => if Z.eqb (id b) booking_id
                     then mk_booking (id b) (b_customer_id b)
                                     (b_booking_type b) (b_date b) (b_time b)
                                     status
                     else b) (bookings db))
      (next_customer db) (next_booking db)).

(** [delete_booking]: [DELETE FROM bookings WHERE id = ?]; the answer is
    [cursor.rowcount > 0]. *)
Definition delete_booking (booking_id : Z) (db : t) : bool * t :=
  (existsb (fun b => Z.eqb (id b) booking_id) (bookings db),
   mk (customers db)
      (filter (fun b => negb (Z.eqb (id b) booking_id)) (bookings db))
      (next_customer db) (next_booking db)).

End Database.

#[export] Instance Database_store : BookingStore Database.t :=
  {| create_booking := Database.create_booking |}.

(** A store whose every write fails, as a database that cannot be opened. *)
Inductive Unavailable : Type := unavailable.

#[export] Instance Unavailable_store : BookingStore Unavailable :=
  {| create_booking := fun s _ _ _ _ _ _ =>
       (inl "Error creating booking: unable to open database file", s) |}.

(** What one turn can touch outside its arguments: the store, and a record
    of the calls made to the persistence step and to the notifier.  The two
    logs are observations only; the program never reads them. *)
Record World (S : Type) : Type := mk_world {
  store : S;
  save_calls : list Dict.t;
  mail_calls : list (Dict.t * Z)
}.

Arguments mk_world {S} _ _ _.
Arguments store {S} _.
Arguments save_calls {S} _.
Arguments mail_calls {S} _.

(** State passing over [World]. *)
Definition M (S A : Type) : Type := World S -> A * World S.

Definition ret {S A : Type} (a : A) : M S A := fun w => (a, w).

Definition bind {S A B : Type} (m : M S A) (f : A -> M S B) : M S B :=
  fun w => let '(a, w') := m w in f a w'.

Declare Scope flow_scope.
Delimit Scope flow_scope with flow.
Notation "x <- m ;; k" := (bind m (fun x => k))
  (at level 61, m at next level, right associativity) : flow_scope.

(* ================================================================== *)
(** ** [app/booking_flow.py]: class [BookingFlow] *)
(* ================================================================== *)

Module BookingFlow.

Import Py.

Definition dq : string := String (ascii_of_nat 34) EmptyString.
Definition sq : string := "'".

Definition required_fields : list string :=
  ["name"; "email"; "phone"; "booking_type"; "date"; "time"].

Record service_info : Type := mk_info {
  price : Z;
  icon : string;
  message : string
}.

Definition service_pricing : list (string * service_info) :=
  [ ("Doctor Appointment", mk_info 100 "🏥" "Your health is our priority!");
    ("Salon Service", mk_info 50 "💇" "Get ready to look fabulous!");
    ("Hotel Reservation", mk_info 150 "🏨" "Enjoy your comfortable stay!");
    ("Event Booking", mk_info 200 "🎉" "Let's make your event memorable!");
    ("Fitness Class", mk_info 30 "💪" "Time to get fit and healthy!");
    ("Restaurant Reservation", mk_info 0 "🍽️" "Bon appétit! Enjoy your meal!");
    ("Travel Booking", mk_info 500 "✈️" "Have an amazing journey!");
    ("Spa Treatment", mk_info 120 "🧖" "Relax and rejuvenate!");
    ("Consultation", mk_info 80 "📋" "We look forward to helping you!") ].

(** [self.service_pricing.get(name, {})] *)
Definition service_get (name : string) : option service_info :=
  option_map snd (find (fun e => String.eqb (fst e) name) service_pricing).

(** [service_info.get('price', 0)], [.get('icon', '🎯')],
    [.get('message', 'Thank you for booking!')] *)
Definition price_of (name : string) : Z :=
  match service_get name with Some i => price i | None => 0%Z end.

Definition icon_of (name : string) : string :=
  match service_get name with Some i => icon i | None => "🎯" end.

Definition message_of (name : string) : string :=
  match service_get name with
  | Some i => message i
  | None => "Thank you for booking!"
  end.

(** [f"${price}" if price > 0 else "Free"] *)
Definition price_label (p : Z) : string :=
  if (0 <? p)%Z then "$" ++ str_of_Z p else "Free".

(** *** Patterns *)

Definition email_local (c : ascii) : bool :=
  is_alpha c || is_digit c || mem (String c EmptyString) ["."; "_"; "%"; "+"; "-"].
Definition email_domain (c : ascii) : bool :=
  is_alpha c || is_digit c || mem (String c EmptyString) ["."; "-"].
(** [[A-Z|a-z]]: the bar is a member of the class. *)
Definition email_tld (c : ascii) : bool :=
  is_alpha c || Ascii.eqb c "|".

(** [^[A-Za-z0-9._%+-]+@[A-Za-z0-9.-]+\.[A-Z|a-z]{2,}$] *)
Definition email_re_anchored : list Re.item :=
  [Re.Bol; Re.Plus email_local; Re.Lit "@"; Re.Plus email_domain; Re.Lit ".";
   Re.Rep email_tld 2 None; Re.Eol].

(** [\b[A-Za-z0-9._%+-]+@[A-Za-z0-9.-]+\.[A-Z|a-z]{2,}\b] *)
Definition email_pattern : list Re.item :=
  [Re.Bnd; Re.Plus email_local; Re.Lit "@"; Re.Plus email_domain; Re.Lit ".";
   Re.Rep email_tld 2 None; Re.Bnd].

(** [\b\d{10,15}\b] *)
Definition phone_pattern : list Re.item :=
  [Re.Bnd; Re.Rep is_digit 10 (Some 15%nat); Re.Bnd].

(** [\b\d{4}-\d{2}-\d{2}\b] *)
Definition date_pattern : list Re.item :=
  [Re.Bnd; Re.Times is_digit 4; Re.Lit "-"; Re.Times is_digit 2; Re.Lit "-";
   Re.Times is_digit 2; Re.Bnd].

(** [\b\d{1,2}:\d{2}\b] *)
Definition time_pattern : list Re.item :=
  [Re.Bnd; Re.Rep is_digit 1 (Some 2%nat); Re.Lit ":"; Re.Times is_digit 2;
   Re.Bnd].

(** [[\s\-\(\)\+]] *)
Definition phone_noise (c : ascii) : bool :=
  is_space c || mem (String c EmptyString) ["-"; "("; ")"; "+"].

(** *** [_extract_with_llm] and [_extract_booking_type] *)

Definition service_keywords : list (string * list string) :=
  [ ("Doctor Appointment",
     ["doctor"; "medical"; "physician"; "healthcare"; "clinic"; "checkup";
      "consultation"; "appointment"]);
    ("Salon Service",
     ["salon"; "haircut"; "hair"; "beauty"; "manicure"; "pedicure"; "styling"]);
    ("Hotel Reservation",
     ["hotel"; "room"; "accommodation"; "stay"; "resort"; "lodge"]);
    ("Event Booking",
     ["event"; "party"; "celebration"; "wedding"; "conference"; "meeting"]);
    ("Fitness Class",
     ["fitness"; "gym"; "workout"; "exercise"; "yoga"; "training"; "class"]);
    ("Restaurant Reservation",
     ["restaurant"; "dining"; "dinner"; "lunch"; "table"; "food"; "eat"]);
    ("Travel Booking",
     ["travel"; "trip"; "tour"; "vacation"; "flight"; "ticket"; "journey"]);
    ("Spa Treatment",
     ["spa"; "massage"; "treatment"; "therapy"; "relaxation"; "wellness"]);
    ("Consultation", ["consult"; "advice"; "guidance"; "counseling"]) ].

Definition llm_system : string := "You are a data extraction assistant.".

Definition llm_prompt (text field : string) : string :=
  if String.eqb field "booking_type" then
    "Extract service type from: " ++ dq ++ text ++ dq ++ nl ++
    "Available: " ++ join ", " (map fst service_pricing) ++ nl ++
    "Reply with ONLY the exact service name or " ++ dq ++ "NOT_FOUND" ++ dq
    ++ "." ++ nl ++ "Service:"
  else
    "Extract " ++ field ++ " from: " ++ dq ++ text ++ dq ++ nl ++
    "Reply ONLY the value or " ++ dq ++ "NOT_FOUND" ++ dq ++ "." ++ nl ++
    field ++ ":".

(** [response.content.strip()], then [.strip] of the double quote, then
    [.strip] of the single quote. *)
Definition clean_reply (content : string) : string :=
  strip_char "'" (strip_char (ascii_of_nat 34) (strip content)).

Definition _extract_with_llm (llm : LLM) (text field : string)
  : option string :=
  match llm llm_system (llm_prompt text field) with
  | Some content =>
      let result := clean_reply content in
      if negb (is_empty result) && negb (String.eqb result "NOT_FOUND")
         && (String.length result <? 100)%nat
      then Some result else None
  | None => None
  end.

(** The first service of the table one of whose keywords occurs in the
    text. *)
Definition keyword_service (text_lower : string) : option string :=
  option_map fst
    (find (fun e => contains_any (snd e) text_lower) service_keywords).

Definition _extract_booking_type (llm : LLM) (text : string) : option string :=
  let text_lower := strip (lower text) in
  match keyword_service text_lower with
  | Some service_type => Some service_type
  | None => _extract_with_llm llm text "booking_type"
  end.

(** *** [_extract_booking_info] *)

(** [f"{int(time_parts[0]):02d}:{time_parts[1]}"] on a match of
    [time_pattern]; a match always has two parts and a numeric first part,
    so the two fall-back branches are never taken. *)
Definition pad_hour (t : string) : string :=
  match split ":" t with
  | h :: m :: _ =>
      match int h with
      | Some n => fmt_02d n ++ ":" ++ m
      | None => t
      end
  | _ => t
  end.

Definition name_blockers : list string :=
  ["@"; ".com"; ":"; "-"; "0"; "1"; "2"; "3"; "4"; "5"; "6"; "7"; "8"; "9"].

Definition booking_phrases : list string :=
  ["book"; "appointment"; "reservation"; "schedule"; "want"; "need";
   "service"].

(** The value the name heuristic proposes for an utterance, if any. *)
Definition name_candidate (user_message : string) : option string :=
  if (List.length (split_ws user_message) <=? 5)%nat then
    let clean_msg := strip user_message in
    if negb (is_empty clean_msg)
       && negb (contains_any name_blockers clean_msg) then
      if negb (contains_any booking_phrases (lower clean_msg)) then
        if (String.length clean_msg <? 50)%nat
           && isalpha (replace "-" "" (replace " " "" clean_msg))
        then Some (title clean_msg) else None
      else None
    else None
  else None.

(** Each block of the function adds at most one entry to [extracted]. *)
Definition take_email (user_message : string) (existing_data : Dict.t)
    (extracted : Dict.t) : Dict.t :=
  match Re.findall email_pattern user_message with
  | e :: _ =>
      if negb (Dict.mem "email" existing_data)
      then Dict.set "email" e extracted else extracted
  | [] => extracted
  end.

Definition take_phone (user_message : string) (existing_data : Dict.t)
    (extracted : Dict.t) : Dict.t :=
  match Re.findall phone_pattern user_message with
  | p :: _ =>
      if negb (Dict.mem "phone" existing_data)
      then Dict.set "phone" p extracted else extracted
  | [] => extracted
  end.

Definition take_date (user_message : string) (existing_data : Dict.t)
    (extracted : Dict.t) : Dict.t :=
  match Re.findall date_pattern user_message with
  | d :: _ =>
      if negb (Dict.mem "date" existing_data)
      then Dict.set "date" d extracted else extracted
  | [] => extracted
  end.

Definition take_time (user_message : string) (existing_data : Dict.t)
    (extracted : Dict.t) : Dict.t :=
  match Re.findall time_pattern user_message with
  | t :: _ =>
      if negb (Dict.mem "time" existing_data)
      then Dict.set "time" (pad_hour t) extracted else extracted
  | [] => extracted
  end.

Definition take_name (user_message : string) (existing_data : Dict.t)
    (extracted : Dict.t) : Dict.t :=
  if negb (Dict.mem "name" existing_data) then
    match name_candidate user_message with
    | Some n => Dict.set "name" n extracted
    | None => extracted
    end
  else extracted.

Definition take_booking_type (llm : LLM) (user_message : string)
    (existing_data : Dict.t) (extracted : Dict.t) : Dict.t :=
  if negb (Dict.mem "booking_type" existing_data) then
    match _extract_booking_type llm user_message with
    | Some booking_type =>
        if is_empty booking_type then extracted
        else Dict.set "booking_type" booking_type extracted
    | None => extracted
    end
  else extracted.

Definition _extract_booking_info (llm : LLM) (user_message : string)
    (existing_data : Dict.t) : Dict.t :=
  take_booking_type llm user_message existing_data
    (take_name user_message existing_data
      (take_time user_message existing_data
        (take_date user_message existing_data
          (take_phone user_message existing_data
            (take_email user_message existing_data Dict.empty))))).

(** *** [_validate_extracted_data] *)

Definition msg_email (email : string) : string :=
  "'" ++ email ++ "' is not valid. Use format: name@example.com".
Definition msg_phone (phone : string) : string :=
  "'" ++ phone ++ "' is not valid. Provide 10-15 digits".
Definition msg_date_past (date_str : string) (days_past : Z) : string :=
  "'" ++ date_str ++ "' is " ++ str_of_Z days_past
  ++ " day(s) in the past. Choose a future date".
Definition msg_date_far (date_str : string) : string :=
  "'" ++ date_str ++ "' is too far ahead. Book within the next year".
Definition msg_date_invalid (date_str : string) : string :=
  "'" ++ date_str ++ "' is invalid. Use YYYY-MM-DD (e.g., 2025-01-25)".
Definition msg_time_hours (time_str : string) : string :=
  "'" ++ time_str ++ "' has invalid hours. Use 00-23".
Definition msg_time_minutes (time_str : string) : string :=
  "'" ++ time_str ++ "' has invalid minutes. Use 00-59".
Definition msg_time_passed (time_str : string) : string :=
  "'" ++ time_str ++ "' has passed. Choose a future time".
Definition msg_time_shape (time_str : string) : string :=
  "'" ++ time_str ++ "' is invalid. Use HH:MM (e.g., 14:30)".
Definition msg_time_format (time_str : string) : string :=
  "'" ++ time_str ++ "' is invalid. Use HH:MM format (e.g., 14:30)".
Definition msg_name_short : string :=
  "Name is too short. Provide your full name".
Definition msg_name_long : string := "Name is too long".

(** Each block of the function acts on the pair of the error mapping and
    the extracted fields (the time block rewrites the extracted time in
    place). *)
Definition vstate : Type := (Dict.t * Dict.t)%type.

Definition check_email (st : vstate) : vstate :=
  let '(errors, extracted_data) := st in
  match Dict.get "email" extracted_data with
  | Some email =>
      if negb (Re.matches email_re_anchored email)
      then (Dict.set "email" (msg_email email) errors, extracted_data)
      else st
  | None => st
  end.

Definition check_phone (st : vstate) : vstate :=
  let '(errors, extracted_data) := st in
  match Dict.get "phone" extracted_data with
  | Some raw =>
      let phone := Re.remove phone_noise raw in
      if negb (isdigit phone) || (String.length phone <? 10)%nat
         || (15 <? String.length phone)%nat
      then (Dict.set "phone" (msg_phone raw) errors, extracted_data)
      else st
  | None => st
  end.

Definition check_date (now : Datetime.datetime) (st : vstate) : vstate :=
  let '(errors, extracted_data) := st in
  match Dict.get "date" extracted_data with
  | Some date_str =>
      match Datetime.strptime_Ymd date_str with
      | Some booking_date =>
          let today := Datetime.midnight (Datetime.ordinal now) in
          let errors :=
            if Datetime.lt booking_date today then
              let days_past :=
                (Datetime.ordinal today - Datetime.ordinal booking_date)%Z in
              Dict.set "date" (msg_date_past date_str days_past) errors
            else errors in
          let max_future := Datetime.add_days today 365 in
          let errors :=
            if Datetime.lt max_future booking_date then
              Dict.set "date" (msg_date_far date_str) errors
            else errors in
          (errors, extracted_data)
      | None => (Dict.set "date" (msg_date_invalid date_str) errors,
                 extracted_data)
      end
  | None => st
  end.

(** [extracted_data.get('date') or existing_data.get('date')] *)
Definition known_date (extracted_data existing_data : Dict.t)
  : option string :=
  match Dict.get "date" extracted_data with
  | Some d => if is_empty d then Dict.get "date" existing_data else Some d
  | None => Dict.get "date" existing_data
  end.

Definition check_time (now : Datetime.datetime) (existing_data : Dict.t)
    (st : vstate) : vstate :=
  let '(errors, extracted_data) := st in
  match Dict.get "time" extracted_data with
  | Some time_str =>
      if contains ":" time_str then
        match split ":" time_str with
        | p0 :: p1 :: _ =>
            match int p0, int p1 with
            | Some hours, Some mins =>
                if (hours <? 0)%Z || (23 <? hours)%Z then
                  (Dict.set "time" (msg_time_hours time_str) errors,
                   extracted_data)
                else if (mins <? 0)%Z || (59 <? mins)%Z then
                  (Dict.set "time" (msg_time_minutes time_str) errors,
                   extracted_data)
                else
                  let canonical := fmt_02d hours ++ ":" ++ fmt_02d mins in
                  let extracted_data :=
                    Dict.set "time" canonical extracted_data in
                  match Datetime.strptime_HM canonical with
                  | Some booking_time =>
                      if Dict.mem "date" extracted_data
                         || Dict.mem "date" existing_data then
                        match known_date extracted_data existing_data with
                        | Some date_str =>
                            match Datetime.strptime_Ymd date_str with
                            | Some booking_date =>
                                if (Datetime.ordinal booking_date
                                    =? Datetime.ordinal now)%Z
                                   && Datetime.time_lt booking_time now
                                then
                                  (Dict.set "time" (msg_time_passed canonical)
                                            errors, extracted_data)
                                else (errors, extracted_data)
                            | None => (errors, extracted_data)
                            end
                        | None => (errors, extracted_data)
                        end
                      else (errors, extracted_data)
                  | None =>
                      (Dict.set "time" (msg_time_format time_str) errors,
                       extracted_data)
                  end
            | _, _ =>
                (Dict.set "time" (msg_time_format time_str) errors,
                 extracted_data)
            end
        | _ =>
            (Dict.set "time" (msg_time_format time_str) errors,
             extracted_data)
        end
      else (Dict.set "time" (msg_time_shape time_str) errors, extracted_data)
  | None => st
  end.

Definition check_name (st : vstate) : vstate :=
  let '(errors, extracted_data) := st in
  match Dict.get "name" extracted_data with
  | Some raw =>
      let name := strip raw in
      if (String.length name <? 2)%nat
      then (Dict.set "name" msg_name_short errors, extracted_data)
      else if (100 <? String.length name)%nat
      then (Dict.set "name" msg_name_long errors, extracted_data)
      else st
  | None => st
  end.

(** The result is the error mapping and the extracted fields as the call
    leaves them. *)
Definition _validate_extracted_data (now : Datetime.datetime)
    (extracted_data existing_data : Dict.t) : vstate :=
  check_name
    (check_time now existing_data
      (check_date now
        (check_phone
          (check_email (Dict.empty, extracted_data))))).

(** *** [_ask_for_missing_info] and [_generate_confirmation_message] *)

Definition rule : string := "━━━━━━━━━━━━━━━━━━━━━━━━━━".

(** [f.replace('_', ' ')] *)
Definition spaced (f : string) : string := replace "_" " " f.

Definition emoji_of (f : string) : string :=
  if String.eqb f "name" then "👤"
  else if String.eqb f "email" then "📧"
  else if String.eqb f "phone" then "📱"
  else if String.eqb f "booking_type" then "🎯"
  else if String.eqb f "date" then "📅"
  else if String.eqb f "time" then "⏰"
  else if String.eqb f "pricing" then "💰"
  else "•".

Definition summary_of (booking_data : Dict.t) : string :=
  let collected :=
    filter (fun f => Dict.filled f booking_data
                     && negb (String.eqb f "pricing")) required_fields in
  match collected with
  | [] => EmptyString
  | _ =>
      "✅ **Information collected:**" ++ nl ++
      String.concat EmptyString (map (fun f => emoji_of f ++ " " ++ title (spaced f) ++ ": **"
                            ++ Dict.show f booking_data ++ "**" ++ nl)
                  collected)
      ++ nl
  end.

Definition service_menu : string :=
  String.concat EmptyString (map (fun e => icon (snd e) ++ " **" ++ fst e ++ "** - "
                        ++ price_label (price (snd e)) ++ nl)
              service_pricing).

(** The question for one field.  (The date and time branches also draw a
    picker in the sidebar; that is display only and leaves the returned
    text as it is.) *)
Definition question_for (now : Datetime.datetime) (field : string) : string :=
  if String.eqb field "name" then "What's your name?"
  else if String.eqb field "email" then
    "What's your email address?" ++ nl ++ "📧 *Example: john.doe@gmail.com*"
  else if String.eqb field "phone" then
    "What's your phone number?" ++ nl ++ "📱 *Example: 9876543210*"
  else if String.eqb field "booking_type" then
    "What service would you like?" ++ nl ++ nl ++ "**Available Services:**"
    ++ nl ++ service_menu ++ nl
    ++ "💡 *Type the service name (e.g., 'Doctor', 'Salon')*"
  else if String.eqb field "date" then
    let tomorrow := Datetime.add_days now 1 in
    "What date?" ++ nl ++ nl ++ "📅 **Format:** YYYY-MM-DD" ++ nl
    ++ "**Quick picks:**" ++ nl ++ "• Today: `" ++ Datetime.strftime_Ymd now
    ++ "`" ++ nl ++ "• Tomorrow: `" ++ Datetime.strftime_Ymd tomorrow ++ "`"
    ++ nl
  else if String.eqb field "time" then
    "What time?" ++ nl ++ nl ++ "⏰ **Format:** HH:MM (24-hour)" ++ nl
    ++ "**Examples:** `09:00`, `14:30`, `18:00`" ++ nl
  else "Please provide " ++ spaced field ++ ".".

Definition opening_line : string :=
  "Great! Let's make a booking. What's your name?".

(** The function past its test for the auto-filled [pricing] field.  (On
    the empty list the source fails with [IndexError]; no caller passes
    it.) *)
Definition ask_first (now : Datetime.datetime) (missing_fields : list string)
    (booking_data : Dict.t) : string :=
  if (List.length missing_fields =? List.length required_fields)%nat
  then opening_line
  else match missing_fields with
       | field :: _ => summary_of booking_data ++ question_for now field
       | [] => EmptyString
       end.

(** A leading [pricing] makes the function call itself on the list without
    it, whose head then is another field. *)
Definition _ask_for_missing_info (now : Datetime.datetime)
    (missing_fields : list string) (booking_data : Dict.t) : string :=
  if (List.length missing_fields =? List.length required_fields)%nat
  then opening_line
  else match missing_fields with
       | field :: _ =>
           if String.eqb field "pricing" then
             ask_first now
               (filter (fun f => negb (String.eqb f "pricing")) missing_fields)
               booking_data
           else ask_first now missing_fields booking_data
       | [] => EmptyString
       end.

Definition _generate_confirmation_message (booking_data : Dict.t) : string :=
  let ic :=
    icon_of (match Dict.get "booking_type" booking_data with
             | Some b => b | None => EmptyString end) in
  ic ++ " **Perfect! Confirm your booking:**" ++ nl ++ nl
  ++ rule ++ nl ++ nl
  ++ "👤 **Name:** " ++ Dict.show "name" booking_data ++ nl
  ++ "📧 **Email:** " ++ Dict.show "email" booking_data ++ nl
  ++ "📱 **Phone:** " ++ Dict.show "phone" booking_data ++ nl
  ++ ic ++ " **Service:** " ++ Dict.show "booking_type" booking_data ++ nl
  ++ "💰 **Price:** " ++ Dict.show "pricing" booking_data ++ nl
  ++ "📅 **Date:** " ++ Dict.show "date" booking_data ++ nl
  ++ "⏰ **Time:** " ++ Dict.show "time" booking_data ++ nl ++ nl
  ++ rule ++ nl ++ nl
  ++ "✅ Reply **'yes'** to confirm" ++ nl
  ++ "❌ Reply **'no'** to restart".

(** *** [_save_booking] and [_handle_confirmation] *)

Section Confirmation.

Context {S : Type} `{BookingStore S}.
Variable send_booking_email : Notifier.

Local Open Scope flow_scope.

(** [booking_data[k]] for a key known to be present. *)
Definition item (k : string) (d : Dict.t) : string :=
  match Dict.get k d with Some v => v | None => EmptyString end.

Definition note_save (booking_data : Dict.t) : M S unit :=
  fun w => (tt, mk_world (store w) (save_calls w ++ [booking_data])%list
                         (mail_calls w)).

Definition db_create_booking (name email phone booking_type date time : string)
  : M S (string + Z) :=
  fun w =>
    let '(r, s') :=
      create_booking (store w) name email phone booking_type date time in
    (r, mk_world s' (save_calls w) (mail_calls w)).

Definition notify (booking_data : Dict.t) (booking_id : Z) : M S bool :=
  fun w =>
    (send_booking_email booking_data booking_id,
     mk_world (store w) (save_calls w)
              (mail_calls w ++ [(booking_data, booking_id)])%list).

(** [inr booking_id] is the pair [(True, booking_id)], [inl text] the pair
    [(False, text)]. *)
Definition _save_booking (booking_data : Dict.t) : M S (string + Z) :=
  _ <- note_save booking_data ;;
  match find (fun field => negb (Dict.filled field booking_data))
             ["name"; "email"; "phone"; "booking_type"; "date"; "time"] with
  | Some field => ret (inl ("Missing: " ++ field))
  | None =>
      if negb (Re.matches email_re_anchored (item "email" booking_data))
      then ret (inl "Invalid email")
      else
        match Datetime.strptime_Ymd (item "date" booking_data) with
        | None => ret (inl "Invalid date")
        | Some _ =>
            db_create_booking
              (item "name" booking_data) (item "email" booking_data)
              (item "phone" booking_data) (item "booking_type" booking_data)
              (item "date" booking_data) (item "time" booking_data)
        end
  end.

Definition affirmative : list string :=
  ["yes"; "confirm"; "correct"; "ok"; "okay"; "sure"; "yep"; "yeah"].

Definition negative : list string :=
  ["no"; "cancel"; "stop"; "restart"; "nope"].

Definition restart_prompt : string :=
  "No problem! Let's start fresh. What service would you like to book?".

Definition yes_no_prompt : string :=
  "Please reply **'yes'** to confirm or **'no'** to restart.".

Definition confirmed_message (booking_data : Dict.t) (booking_id : Z)
    (email_sent : bool) : string :=
  let service_type :=
    match Dict.get "booking_type" booking_data with
    | Some b => b | None => EmptyString end in
  "🎉 **BOOKING CONFIRMED!**" ++ nl ++ nl
  ++ rule ++ nl ++ nl
  ++ "📋 **Booking ID:** `" ++ str_of_Z booking_id ++ "`" ++ nl
  ++ icon_of service_type ++ " **Service:** " ++ service_type ++ nl
  ++ "📅 **Date:** " ++ Dict.show "date" booking_data ++ " at "
  ++ Dict.show "time" booking_data ++ nl
  ++ "💰 **Total:** " ++ Dict.show "pricing" booking_data ++ nl ++ nl
  ++ rule ++ nl ++ nl
  ++ (if email_sent
      then "✅ **Confirmation email sent to:**" ++ nl ++ "   "
           ++ Dict.show "email" booking_data ++ nl ++ nl
      else "⚠️ *Email could not be sent, but booking is saved*" ++ nl ++ nl)
  ++ "💫 **" ++ message_of service_type ++ "**" ++ nl ++ nl
  ++ "🌟 *Your booking is confirmed. You're all set! No hassle, everything handled.*"
  ++ nl ++ nl
  ++ "Need anything else? Just ask! 😊".

Definition failed_message (result : string) : string :=
  "❌ Error: " ++ result ++ nl ++ nl ++ "Please try again.".

(** The four components returned: the response, the booking data, the
    awaiting-confirmation flag and the completed flag. *)
Definition outcome : Type := (string * Dict.t * bool * bool)%type.

Definition _handle_confirmation (user_message : string)
    (booking_data : Dict.t) : M S outcome :=
  let user_lower := strip (lower user_message) in
  if contains_any affirmative user_lower then
    r <- _save_booking booking_data ;;
    match r with
    | inr booking_id =>
        email_sent <- notify booking_data booking_id ;;
        ret (confirmed_message booking_data booking_id email_sent,
             Dict.empty, false, true)
    | inl result => ret (failed_message result, Dict.empty, false, true)
    end
  else if contains_any negative user_lower then
    ret (restart_prompt, Dict.empty, false, false)
  else ret (yes_no_prompt, booking_data, true, false).

(** *** [handle_booking_intent] *)

Variable llm : LLM.
Variable now : Datetime.datetime.

Definition error_response (validation_errors : Dict.t) : string :=
  "⚠️ I found some issues:" ++ nl ++ nl
  ++ String.concat EmptyString (map (fun fe => "• **" ++ title (spaced (fst fe)) ++ "**: "
                            ++ snd fe ++ nl) validation_errors)
  ++ nl ++ "Please provide the correct "
  ++ spaced (hd EmptyString (Dict.keys validation_errors)) ++ ".".

(** The auto-filled price. *)
Definition fill_pricing (booking_data : Dict.t) : Dict.t :=
  match Dict.get "booking_type" booking_data with
  | Some booking_type =>
      if negb (Dict.mem "pricing" booking_data)
      then Dict.set "pricing" (price_label (price_of booking_type))
                    booking_data
      else booking_data
  | None => booking_data
  end.

Definition handle_booking_intent (user_message : string)
    (booking_data : Dict.t) (awaiting_confirmation : bool) : M S outcome :=
  if awaiting_confirmation then _handle_confirmation user_message booking_data
  else
    let extracted_data := _extract_booking_info llm user_message booking_data in
    let '(validation_errors, extracted_data) :=
      _validate_extracted_data now extracted_data booking_data in
    match validation_errors with
    | _ :: _ => ret (error_response validation_errors, booking_data, false, false)
    | [] =>
        let booking_data := Dict.update booking_data extracted_data in
        let booking_data := fill_pricing booking_data in
        let missing_fields :=
          filter (fun field => negb (Dict.filled field booking_data))
                 required_fields in
        match missing_fields with
        | _ :: _ =>
            ret (_ask_for_missing_info now missing_fields booking_data,
                 booking_data, false, false)
        | [] =>
            ret (_generate_confirmation_message booking_data,
                 booking_data, true, false)
        end
    end.

End Confirmation.

End BookingFlow.

(* ================================================================== *)
(** ** [app/tools.py]: the format validators *)
(* ================================================================== *)

Module Tools.

Import Py.

(** [[a-zA-Z]]: letters only. *)
Definition email_tld (c : ascii) : bool := is_alpha c.

(** [^[a-zA-Z0-9._%+-]+@[a-zA-Z0-9.-]+\.[a-zA-Z]{2,}$] *)
Definition email_pattern : list Re.item :=
  [Re.Bol; Re.Plus BookingFlow.email_local; Re.Lit "@";
   Re.Plus BookingFlow.email_domain; Re.Lit "."; Re.Rep email_tld 2 None;
   Re.Eol].

Definition validate_email_format (email : string) : bool :=
  Re.matches email_pattern email.

Definition validate_phone_format (phone : string) : bool :=
  let cleaned := Re.remove BookingFlow.phone_noise phone in
  isdigit cleaned
  && ((10 <=? String.length cleaned)%nat && (String.length cleaned <=? 15)%nat).

Definition validate_date_format (date_str : string) : bool :=
  match Datetime.strptime_Ymd date_str with
  | Some _ => true
  | None => false
  end.

Definition validate_time_format (time_str : string) : bool :=
  match Datetime.strptime_HM time_str with
  | Some _ => true
  | None => false
  end.

End Tools.

(* ================================================================== *)
(** ** [app/chat_logic.py]: [ChatLogic.detect_intent] *)
(* ================================================================== *)

Module ChatLogic.

Import Py.

(** One entry of the conversation history: [{'role': ..., 'content': ...}]. *)
Record turn : Type := mk_turn {
  role : string;
  content : string
}.

(** The three answers: ['booking'], ['query'] and ['general']. *)
Inductive intent : Type :=
| booking
| query
| general.

Definition non_booking_phrases : list string :=
  ["upload"; "uploaded"; "document"; "pdf"; "file";
   "hi"; "hello"; "hey"; "good morning"; "good afternoon";
   "how are you"; "what can you do"; "help";
   "thank"; "thanks"; "bye"; "goodbye"].

Definition asked_markers : list string :=
  ["your name"; "your email"; "your phone"; "what date"; "what time";
   "type of service"; "confirm your booking"; "is this correct"].

Definition widget_phrases : list string :=
  ["use selected date"; "use selected time"; "selected date"; "selected time"].

Definition booking_keywords : list string :=
  ["book a"; "make a booking"; "make an appointment";
   "schedule a"; "reserve a"; "i want to book";
   "i need to book"; "i would like to book";
   "book appointment"; "make reservation";
   "can i book"; "can i schedule"].

Definition progress_indicators : list string :=
  ["information collected so far"; "your name?"; "your email"; "your phone";
   "what date"; "what time"; "type of service"; "confirm your booking"].

(** [history[-3:]] *)
Definition last3 (history : list turn) : list turn :=
  skipn (List.length history - 3) history.

(** The lower-cased content of the latest assistant turn among the last
    three. *)
Definition recent_assistant_msg (history : list turn) : option string :=
  option_map (fun m => lower (content m))
    (find (fun m => String.eqb (role m) "assistant") (rev (last3 history))).

Definition detect_intent (user_message : string)
    (conversation_history : list turn) : intent :=
  let user_message_lower := strip (lower user_message) in
  if contains_any non_booking_phrases user_message_lower then
    let in_flow :=
      match conversation_history with
      | [] => false
      | _ :: _ =>
          match recent_assistant_msg conversation_history with
          | Some m => negb (is_empty m) && contains_any asked_markers m
          | None => false
          end
      end in
    if in_flow then booking
    else if mem user_message_lower ["hi"; "hello"; "hey"] then general
    else query
  else if contains_any widget_phrases user_message_lower then booking
  else if contains_any booking_keywords user_message_lower then booking
  else if existsb
            (fun m => String.eqb (role m) "assistant"
                      && contains_any progress_indicators (lower (content m)))
            (last3 conversation_history)
  then booking
  else query.

(** [app/config.py] *)
Definition MAX_MEMORY_MESSAGES : nat := 25.

(** [messages[-n:]] for a positive [n]. *)
Definition last_n (n : nat) (messages : list turn) : list turn :=
  skipn (List.length messages - n) messages.

(** [manage_memory] *)
Definition manage_memory (messages : list turn) : list turn :=
  if (MAX_MEMORY_MESSAGES <? List.length messages)%nat
  then last_n MAX_MEMORY_MESSAGES messages
  else messages.

(** [s[:200]] *)
Definition first_200 (s : string) : string := Re.take 200 s.

(** [_build_memory_context] *)
Definition _build_memory_context (conversation_history : list turn) : string :=
  match conversation_history with
  | [] => "No previous conversation."
  | _ :: _ =>
      join nl
        (map (fun msg =>
                (if String.eqb (role msg) "user" then "User" else "Assistant")
                ++ ": " ++ first_200 (content msg))
             (last_n MAX_MEMORY_MESSAGES conversation_history))
  end.

End ChatLogic.

(* ================================================================== *)
(** ** Sample collaborators and session data *)
(* ================================================================== *)

Module Samples.

(** A completion service that is down. *)
Definition no_llm : LLM := fun _ _ => None.

(** A completion service that names a service outside the catalog. *)
Definition dog_llm : LLM := fun _ _ => Some " 'Dog Walking' ".

Definition mail_ok : Notifier := fun _ _ => true.

(** 2026-11-03, 10:30. *)
Definition clock : Datetime.datetime :=
  Datetime.mk_datetime (Datetime.ymd2ord 2026 11 3) 10 30 0 0.

Definition fresh : World Database.t := mk_world Database.empty [] [].

Definition offline : World Unavailable := mk_world unavailable [] [].

Definition full_draft : Dict.t :=
  [("name", "John Smith"); ("email", "john@example.com");
   ("phone", "9876543210"); ("booking_type", "Spa Treatment");
   ("pricing", "$120"); ("date", "2026-12-01"); ("time", "09:30")].

Definition email_question : ChatLogic.turn :=
  ChatLogic.mk_turn "assistant" "What's your email address?".

(** A draft with every field, in the order two turns fill it. *)
Definition ready_draft : Dict.t :=
  [("name", "John Smith"); ("email", "john@example.com");
   ("phone", "9876543210"); ("date", "2026-12-01"); ("time", "14:30");
   ("booking_type", "Salon Service"); ("pricing", "$50")].

End Samples.

(* ================================================================== *)
(** ** Vocabulary of the statements *)
(* ================================================================== *)

(** A keyword that is in lower case and has no blank at either end. *)
Definition plain (w : string) : bool :=
  String.eqb (Py.lower w) w && String.eqb (Py.rstrip_by Py.is_space w) w
  && match w with
     | EmptyString => false
     | String c _ => negb (Py.is_space c)
     end.

(** What the affirmative branch does, in terms of the outcome of the one
    call to [_save_booking]. *)
Definition after_save {S : Type} (notifier : Notifier) (d : Dict.t)
    (r : string + Z) (w1 : World S) : BookingFlow.outcome * World S :=
  match r with
  | inr booking_id =>
      ((BookingFlow.confirmed_message d booking_id (notifier d booking_id),
        Dict.empty, false, true),
       mk_world (store w1) (save_calls w1)
                (mail_calls w1 ++ [(d, booking_id)])%list)
  | inl result => ((BookingFlow.failed_message result, Dict.empty, false, true), w1)
  end.

(** What each block reports about its own field, starting from an empty
    error mapping. *)
Definition email_verdict (ex : Dict.t) : option string :=
  Dict.get "email" (fst (BookingFlow.check_email (Dict.empty, ex))).
Definition phone_verdict (ex : Dict.t) : option string :=
  Dict.get "phone" (fst (BookingFlow.check_phone (Dict.empty, ex))).
Definition date_verdict (now : Datetime.datetime) (ex : Dict.t)
  : option string :=
  Dict.get "date" (fst (BookingFlow.check_date now (Dict.empty, ex))).
Definition time_verdict (now : Datetime.datetime) (known ex : Dict.t)
  : option string :=
  Dict.get "time" (fst (BookingFlow.check_time now known (Dict.empty, ex))).
Definition name_verdict (ex : Dict.t) : option string :=
  Dict.get "name" (fst (BookingFlow.check_name (Dict.empty, ex))).

Definition entry (k : string) (o : option string) : Dict.t :=
  match o with Some m => [(k, m)] | None => [] end.

Definition record (k : string) (o : option string) (errors : Dict.t)
  : Dict.t :=
  match o with Some m => Dict.set k m errors | None => errors end.

(** [P] holds of [count] consecutive integers from [start] on. *)
Fixpoint all_from (P : Z -> bool) (count : nat) (start : Z) : bool :=
  match count with
  | O => true
  | S c => P start && all_from P c (start + 1)%Z
  end.


(** [f"{n:04d}"] of a year is four digits that [int] reads back. *)
Definition four_digits (n : Z) : bool :=
  match Py.fmt_04d n with
  | String a (String b (String c (String e EmptyString))) =>
      Py.is_digit a && Py.is_digit b && Py.is_digit c && Py.is_digit e
      && match Py.int (Py.fmt_04d n) with
         | Some v => (v =? n)%Z
         | None => false
         end
  | _ => false
  end.

(** The check of [month_day] on one day of a common or of a leap year. *)
Definition month_day_ok (leap : bool) (n : Z) : bool :=
  let '(m, d) := Datetime.month_day n leap in
  let y := (if leap then 4 else 1)%Z in
  ((1 <=? m) && (m <=? 12) && (1 <=? d)
   && (d <=? Datetime.days_in_month y m)
   && (Datetime.days_before_month y m + d =? n + 1))%Z.


(** The fields an extraction may produce for a draft [known]: keys of the
    six fields only, none of them already in [known], each at most once. *)
Definition fresh_fields (known e : Dict.t) : Prop :=
  Dict.wf e /\
  (forall k, Dict.mem k known = true -> Dict.mem k e = false) /\
  (forall k, Dict.mem k e = true -> In k BookingFlow.required_fields) /\
  (forall v, Dict.get "booking_type" e = Some v -> v <> EmptyString).

(** [app/main.py], [generate_response]: the session keeps the returned
    draft and flag, or starts afresh when the turn reports completion. *)
Definition next_session (out : BookingFlow.outcome) : Dict.t * bool :=
  let '(_, updated_data, awaiting, complete) := out in
  if complete then (Dict.empty, false) else (updated_data, awaiting).

(** The sessions the state machine can be in: the empty one, and the one
    after any turn taken from a reachable session, whatever the utterance,
    the collaborators and the clock. *)
Inductive reachable : Dict.t -> bool -> Prop :=
| reach_start : reachable Dict.empty false
| reach_turn (S : Type) (St : BookingStore S) (notifier : Notifier)
    (llm : LLM) (now : Datetime.datetime) (u : string) (d : Dict.t)
    (a : bool) (w : World S) :
    reachable d a ->
    Datetime.clock_ok now ->
    let out := fst (BookingFlow.handle_booking_intent notifier llm now u d a w) in
    reachable (fst (next_session out)) (snd (next_session out)).

(** The price goes with the service: both keys present or both absent, and
    the price is the label of the catalog price of the service. *)
Definition priced (d : Dict.t) : Prop :=
  Dict.mem "pricing" d = Dict.mem "booking_type" d /\
  forall booking_type,
    Dict.get "booking_type" d = Some booking_type ->
    booking_type <> EmptyString /\
    Dict.get "pricing" d
    = Some (BookingFlow.price_label (BookingFlow.price_of booking_type)).

(** The draft after a turn in which validation found nothing. *)
Definition merged (llm : LLM) (now : Datetime.datetime) (u : string)
    (d : Dict.t) : Dict.t :=
  BookingFlow.fill_pricing
    (Dict.update d
       (snd (BookingFlow._validate_extracted_data now (BookingFlow._extract_booking_info llm u d) d))).

(** A draft that [_save_booking] hands to the store: the six fields
    non-empty, the email of the expected shape, the date readable. *)
Definition persistable (d : Dict.t) : Prop :=
  (forall f, In f BookingFlow.required_fields -> Dict.filled f d = true) /\
  Re.matches BookingFlow.email_re_anchored (BookingFlow.item "email" d) = true
  /\ Datetime.strptime_Ymd (BookingFlow.item "date" d) <> None.

(** A draft whose email and date, when present, pass their checks. *)
Definition validated (d : Dict.t) : Prop :=
  (forall e, Dict.get "email" d = Some e ->
     Re.matches BookingFlow.email_re_anchored e = true) /\
  (forall s, Dict.get "date" d = Some s ->
     Datetime.strptime_Ymd s <> None).

(** Every required field has a non-empty value. *)
Definition complete (d : Dict.t) : bool :=
  forallb (fun f => Dict.filled f d) BookingFlow.required_fields.

(** The tables as the code keeps them: customer ids and emails unique,
    booking ids unique, every id below its sequence, and every booking
    linked to a customer that exists. *)
Definition db_consistent (db : Database.t) : Prop :=
  NoDup (map Database.customer_id (Database.customers db)) /\
  NoDup (map Database.c_email (Database.customers db)) /\
  NoDup (map Database.id (Database.bookings db)) /\
  (forall c, In c (Database.customers db) ->
     (Database.customer_id c < Database.next_customer db)%Z) /\
  (forall b, In b (Database.bookings db) ->
     (Database.id b < Database.next_booking db)%Z) /\
  (forall b, In b (Database.bookings db) ->
     exists c, In c (Database.customers db) /\
               Database.customer_id c = Database.b_customer_id b).

(** The calls made on the store: by the booking flow ([create_booking])
    and by the dashboard ([update_booking_status], [delete_booking]). *)
Inductive db_op : Type :=
| op_create (name email phone booking_type date time : string)
| op_status (booking_id : Z) (status : string)
| op_delete (booking_id : Z).

Definition db_step (db : Database.t) (op : db_op) : Database.t :=
  match op with
  | op_create n e p t d tm => snd (Database.create_booking db n e p t d tm)
  | op_status i s => snd (Database.update_booking_status i s db)
  | op_delete i => snd (Database.delete_booking i db)
  end.

Definition db_run (ops : list db_op) (db : Database.t) : Database.t :=
  fold_left db_step ops db.

(** What it means for a pattern to match [n] characters at the head of [s]
    when [prev] is the character before it. *)
Fixpoint denotes (its : list Re.item) (prev : option ascii) (s : string)
    (n : nat) : Prop :=
  match its with
  | [] => n = O
  | Re.Bnd :: r =>
      xorb (Re.word_at prev) (Re.word_at (Re.head s)) = true /\
      denotes r prev s n
  | Re.Bol :: r => prev = None /\ denotes r prev s n
  | Re.Eol :: r => Re.at_end s = true /\ denotes r prev s n
  | Re.Rep cls lo hi :: r =>
      exists k m,
        n = (k + m)%nat /\ (lo <= k)%nat /\ (k <= Re.run cls hi s)%nat /\
        denotes r (Re.before k prev s) (Re.drop k s) m
  end.

(** Patterns made of repetitions only: no anchor and no word boundary. *)
Definition reps_only (its : list Re.item) : bool :=
  forallb (fun i => match i with Re.Rep _ _ _ => true | _ => false end) its.

(** The call [_save_booking] makes to the store for a draft. *)
Definition store_call {S : Type} `{BookingStore S} (d : Dict.t) (s : S)
  : (string + Z) * S :=
  create_booking s (BookingFlow.item "name" d) (BookingFlow.item "email" d)
                 (BookingFlow.item "phone" d)
                 (BookingFlow.item "booking_type" d)
                 (BookingFlow.item "date" d) (BookingFlow.item "time" d).

(** The row the reads return for a booking and its customer. *)
Definition row_of (b : Database.booking) (c : Database.customer)
  : Database.row :=
  Database.mk_row (Database.id b) (Database.c_name c) (Database.c_email c)
                  (Database.c_phone c) (Database.b_booking_type b)
                  (Database.b_date b) (Database.b_time b)
                  (Database.b_status b).

(** A row with the status replaced when it is the row of booking [i]. *)
Definition with_status (i : Z) (status : string) (r : Database.row)
  : Database.row :=
  if Z.eqb (Database.r_id r) i
  then Database.mk_row (Database.r_id r) (Database.r_name r)
                       (Database.r_email r) (Database.r_phone r)
                       (Database.r_booking_type r) (Database.r_date r)
                       (Database.r_time r) status
  else r.

(** The row under which a draft is read back once booked as [booking_id]. *)
Definition draft_row (booking_id : Z) (d : Dict.t) : Database.row :=
  Database.mk_row booking_id (BookingFlow.item "name" d)
                  (BookingFlow.item "email" d) (BookingFlow.item "phone" d)
                  (BookingFlow.item "booking_type" d)
                  (BookingFlow.item "date" d) (BookingFlow.item "time" d)
                  "confirmed".


(** Case analysis on every scrutinee of the goal. *)
Ltac break_match :=
  repeat match goal with
         | |- context [match ?x with _ => _ end] => destruct x eqn:?
         end.

(* ================================================================== *)
(** ** Facts about dictionaries *)
(* ================================================================== *)

Section DictFacts.

Import Dict.

Lemma get_set_same (k v : string) (d : Dict.t) :
  get k (set k v d) = Some v.
Proof.
  induction d as [|[k' v'] d IH]; simpl.
  - now rewrite String.eqb_refl.
  - destruct (String.eqb_spec k' k) as [->|Hne]; simpl.
    + now rewrite String.eqb_refl.
    + apply String.eqb_neq in Hne. now rewrite Hne.
Qed.

Lemma get_set_other (k k' v : string) (d : Dict.t) :
  k' <> k -> get k (set k' v d) = get k d.
Proof.
  intros Hne. induction d as [|[k0 v0] d IH]; simpl.
  - apply String.eqb_neq in Hne. now rewrite Hne.
  - destruct (String.eqb_spec k0 k') as [->|H0]; simpl.
    + apply String.eqb_neq in Hne. now rewrite Hne.
    + destruct (String.eqb k0 k); [reflexivity | exact IH].
Qed.

Lemma mem_set (k k' v : string) (d : Dict.t) :
  mem k (set k' v d) = String.eqb k' k || mem k d.
Proof.
  unfold mem. destruct (String.eqb_spec k' k) as [->|Hne]; simpl.
  - now rewrite get_set_same.
  - now rewrite get_set_other.
Qed.

Lemma set_set (k v v' : string) (d : Dict.t) :
  set k v (set k v' d) = set k v d.
Proof.
  induction d as [|[k0 v0] d IH]; simpl.
  - now rewrite String.eqb_refl.
  - destruct (String.eqb_spec k0 k) as [->|H0]; simpl.
    + now rewrite String.eqb_refl.
    + apply String.eqb_neq in H0. rewrite H0. now rewrite IH.
Qed.

Lemma keys_set_old (k v : string) (d : Dict.t) :
  mem k d = true -> keys (set k v d) = keys d.
Proof.
  unfold mem. induction d as [|[k0 v0] d IH]; simpl; [discriminate|].
  destruct (String.eqb_spec k0 k) as [->|H0]; simpl; intros Hm.
  - reflexivity.
  - f_equal. now apply IH.
Qed.

Lemma keys_set_new (k v : string) (d : Dict.t) :
  mem k d = false -> keys (set k v d) = (keys d ++ [k])%list.
Proof.
  unfold mem. induction d as [|[k0 v0] d IH]; simpl; [reflexivity|].
  destruct (String.eqb_spec k0 k) as [->|H0]; simpl; intros Hm.
  - discriminate.
  - f_equal. now apply IH.
Qed.

Lemma mem_In_keys (k : string) (d : Dict.t) :
  mem k d = true <-> In k (keys d).
Proof.
  unfold mem. induction d as [|[k0 v0] d IH]; simpl.
  - split; [discriminate | tauto].
  - destruct (String.eqb_spec k0 k) as [->|H0].
    + split; auto.
    + rewrite IH. split; [auto | intros [E|E]; [contradiction | exact E]].
Qed.

Lemma wf_empty : wf empty.
Proof. constructor. Qed.

Lemma wf_set (k v : string) (d : Dict.t) : wf d -> wf (set k v d).
Proof.
  unfold wf. intros Hd. destruct (mem k d) eqn:Hm.
  - now rewrite keys_set_old.
  - rewrite keys_set_new by assumption.
    apply NoDup_app; [exact Hd | repeat constructor; simpl; tauto |].
    intros x Hx [<-|[]]. apply mem_In_keys in Hx. congruence.
Qed.

Lemma get_update_none (k : string) (e d : Dict.t) :
  get k e = None -> get k (update d e) = get k d.
Proof.
  unfold update. revert d.
  induction e as [|[k0 v0] e IH]; simpl; intros d He; [reflexivity|].
  destruct (String.eqb_spec k0 k) as [->|H0]; [discriminate|].
  rewrite IH by assumption. now apply get_set_other.
Qed.

Lemma mem_update (k : string) (e d : Dict.t) :
  mem k (update d e) = mem k d || mem k e.
Proof.
  unfold update. revert d.
  induction e as [|[k0 v0] e IH]; simpl; intros d.
  - now rewrite orb_false_r.
  - rewrite IH, mem_set. unfold mem. simpl.
    destruct (String.eqb k0 k); simpl.
    + now rewrite orb_true_r.
    + reflexivity.
Qed.

Lemma get_update_some (k v : string) (e d : Dict.t) :
  wf e -> get k e = Some v -> get k (update d e) = Some v.
Proof.
  unfold update, wf. revert d.
  induction e as [|[k0 v0] e IH]; simpl; intros d Hnd He; [discriminate|].
  inversion Hnd as [|x l Hnotin Hnd']; subst.
  destruct (String.eqb_spec k0 k) as [->|H0].
  - injection He as <-.
    assert (Hn : get k e = None).
    { destruct (get k e) eqn:G; [|reflexivity].
      exfalso. apply Hnotin. apply mem_In_keys. unfold mem. now rewrite G. }
    pose proof (get_update_none k e (set k v0 d) Hn) as Hu.
    unfold update in Hu. rewrite Hu. apply get_set_same.
  - now apply IH.
Qed.

End DictFacts.

(* ================================================================== *)
(** ** Facts about substrings, [lower] and [strip] *)
(* ================================================================== *)

Section StringFacts.

Import Py.

Lemma starts_with_app (n b : string) : starts_with n (n ++ b) = true.
Proof.
  induction n as [|c n IH]; simpl; [reflexivity|].
  now rewrite Ascii.eqb_refl.
Qed.

Lemma starts_with_split (n h : string) :
  starts_with n h = true -> exists b, h = n ++ b.
Proof.
  revert h. induction n as [|c n IH]; simpl; intros h Hp.
  - now exists h.
  - destruct h as [|c' h]; [discriminate|].
    apply andb_true_iff in Hp as [Hc Hp]. apply Ascii.eqb_eq in Hc as ->.
    destruct (IH h Hp) as [b ->]. now exists b.
Qed.

Lemma contains_app (a n b : string) : contains n (a ++ n ++ b) = true.
Proof.
  induction a as [|c a IH].
  - change (EmptyString ++ n ++ b) with (n ++ b).
    destruct (n ++ b) eqn:E; simpl.
    + destruct n; [reflexivity | discriminate].
    + rewrite <- E, starts_with_app. reflexivity.
  - simpl. rewrite IH. apply orb_true_r.
Qed.

Lemma contains_split (n h : string) :
  contains n h = true -> exists a b, h = a ++ n ++ b.
Proof.
  induction h as [|c h IH]; simpl; intros Hc.
  - rewrite orb_false_r in Hc. apply starts_with_split in Hc as [b Hb].
    exists EmptyString, b. exact Hb.
  - apply orb_true_iff in Hc as [Hp|Hc].
    + apply starts_with_split in Hp as [b Hb].
      exists EmptyString, b. exact Hb.
    + destruct (IH Hc) as (a & b & ->). now exists (String c a), b.
Qed.

Lemma smap_app (f : ascii -> ascii) (a b : string) :
  smap f (a ++ b) = smap f a ++ smap f b.
Proof. induction a as [|c a IH]; simpl; [reflexivity | now rewrite IH]. Qed.

Lemma rstrip_app (p : ascii -> bool) (x y : string) :
  is_empty (rstrip_by p y) = false ->
  rstrip_by p (x ++ y) = x ++ rstrip_by p y.
Proof.
  intros Hy. induction x as [|c x IH]; simpl; [reflexivity|].
  rewrite IH. destruct (x ++ rstrip_by p y) eqn:E.
  - destruct x; simpl in E; [rewrite E in Hy; discriminate | discriminate].
  - simpl. now rewrite andb_false_r.
Qed.

Lemma rstrip_keep (p : ascii -> bool) (n b : string) :
  rstrip_by p n = n -> n <> EmptyString ->
  rstrip_by p (n ++ b) = n ++ rstrip_by p b.
Proof.
  induction n as [|c n IH]; intros Hn Hne; [contradiction|].
  simpl in Hn. simpl.
  destruct (p c && is_empty (rstrip_by p n)) eqn:E; [discriminate|].
  injection Hn as Hn.
  destruct n as [|c' n].
  - simpl in *. rewrite andb_true_r in E. now rewrite E.
  - rewrite IH by (assumption || discriminate).
    simpl. now rewrite andb_false_r.
Qed.

Lemma lstrip_app (p : ascii -> bool) (a : string) (c : ascii) (t : string) :
  p c = false ->
  lstrip_by p (a ++ String c t) = lstrip_by p a ++ String c t.
Proof.
  intros Hc. induction a as [|x a IH]; simpl.
  - now rewrite Hc.
  - destruct (p x); [exact IH | reflexivity].
Qed.

Lemma contains_normalised (w u : string) :
  plain w = true -> contains w u = true ->
  contains w (strip (lower u)) = true.
Proof.
  unfold plain. intros Hw Hc.
  apply andb_true_iff in Hw as [Hw Hhd].
  apply andb_true_iff in Hw as [Hlow Hr].
  apply String.eqb_eq in Hlow. apply String.eqb_eq in Hr.
  destruct w as [|c w]; [discriminate|].
  apply negb_true_iff in Hhd.
  apply contains_split in Hc as (a & b & ->).
  unfold strip, strip_by, lower in *.
  rewrite !smap_app, Hlow.
  assert (Hk : rstrip_by is_space (String c w ++ smap lower_char b)
               = String c w ++ rstrip_by is_space (smap lower_char b))
    by (apply rstrip_keep; [exact Hr | discriminate]).
  rewrite rstrip_app.
  - rewrite Hk. simpl. rewrite lstrip_app by exact Hhd.
    apply (contains_app _ (String c w)).
  - rewrite Hk. reflexivity.
Qed.

Lemma contains_any_normalised (words : list string) (u : string) :
  forallb plain words = true -> contains_any words u = true ->
  contains_any words (strip (lower u)) = true.
Proof.
  unfold contains_any. intros Hp Hc.
  apply existsb_exists in Hc as (w & Hin & Hw).
  apply existsb_exists. exists w. split; [exact Hin|].
  apply contains_normalised; [|exact Hw].
  rewrite forallb_forall in Hp. now apply Hp.
Qed.

End StringFacts.

(* ================================================================== *)
(** ** Intent classification *)
(* ================================================================== *)

Section IntentFacts.

Import ChatLogic Py.

Lemma last3_suffix (h t : list turn) :
  (List.length t <= 3)%nat -> exists pre, last3 (h ++ t) = (pre ++ t)%list.
Proof.
  intros Ht. unfold last3. rewrite length_app, skipn_app.
  replace (List.length h + List.length t - 3 - List.length h)%nat with O
    by lia.
  simpl. now eexists.
Qed.

Lemma progress_after_question (h t : list turn) (q : turn) :
  (List.length (q :: t) <= 3)%nat ->
  role q = "assistant" ->
  contains_any progress_indicators (lower (content q)) = true ->
  existsb (fun m => String.eqb (role m) "assistant"
                    && contains_any progress_indicators (lower (content m)))
          (last3 (h ++ q :: t)) = true.
Proof.
  intros Hlen Hr Hc. destruct (last3_suffix h (q :: t) Hlen) as [pre ->].
  rewrite existsb_app. cbn [existsb]. rewrite Hr, Hc.
  cbn [String.eqb Ascii.eqb Bool.eqb andb orb]. now rewrite orb_true_r.
Qed.

(** C8. The greeting "hi" on an empty history is general chat; "book a
    doctor appointment" is a booking whatever the history; the reply
    "john@example.com" is a booking when the assistant's question for the
    email address is the latest turn, with or without the reply itself
    already appended to the history. *)
Theorem C8_detect_intent_examples :
  detect_intent "hi" [] = general /\
  (forall h, detect_intent "book a doctor appointment" h = booking) /\
  (forall h,
     detect_intent "john@example.com" (h ++ [Samples.email_question])
     = booking) /\
  (forall h,
     detect_intent "john@example.com"
       (h ++ [Samples.email_question; mk_turn "user" "john@example.com"])
     = booking).
Proof.
  split; [reflexivity|]. split; [intros h; reflexivity|].
  assert (E1 : contains_any non_booking_phrases
                 (strip (lower "john@example.com")) = false) by reflexivity.
  assert (E2 : contains_any widget_phrases
                 (strip (lower "john@example.com")) = false) by reflexivity.
  assert (E3 : contains_any booking_keywords
                 (strip (lower "john@example.com")) = false) by reflexivity.
  split; intros h; unfold detect_intent; cbv zeta; rewrite E1, E2, E3.
  - rewrite (progress_after_question h [] Samples.email_question);
      [reflexivity | simpl; lia | reflexivity | reflexivity].
  - rewrite (progress_after_question h [mk_turn "user" "john@example.com"]
               Samples.email_question);
      [reflexivity | simpl; lia | reflexivity | reflexivity].
Qed.

End IntentFacts.

(* ================================================================== *)
(** ** The confirmation step *)
(* ================================================================== *)

Section ConfirmationFacts.

Import BookingFlow Py.

Context {S : Type} `{BookingStore S}.
Variable notifier : Notifier.
Variable llm : LLM.
Variable now : Datetime.datetime.

(** [_save_booking] leaves exactly one entry in the log, and nothing in
    the mail log. *)
Lemma save_booking_logged (d : Dict.t) (w : World S) :
  exists r s',
    _save_booking d w
    = (r, mk_world s' (save_calls w ++ [d])%list (mail_calls w)).
Proof.
  unfold _save_booking, bind, note_save, ret, db_create_booking.
  cbv beta iota zeta.
  destruct (find _ _); [now eexists; eexists|].
  destruct (negb _); [now eexists; eexists|].
  destruct (Datetime.strptime_Ymd _); [|now eexists; eexists].
  cbn [store save_calls mail_calls].
  destruct (create_booking _ _ _ _ _ _ _) as [r s']. now eexists; eexists.
Qed.

Lemma keywords_plain : forallb plain (affirmative ++ negative) = true.
Proof. reflexivity. Qed.

Lemma affirmative_normalised (u : string) :
  contains_any affirmative u = true ->
  contains_any affirmative (strip (lower u)) = true.
Proof.
  apply contains_any_normalised.
  pose proof keywords_plain as K. rewrite forallb_app in K.
  now apply andb_true_iff in K.
Qed.

Lemma negative_normalised (u : string) :
  contains_any negative u = true ->
  contains_any negative (strip (lower u)) = true.
Proof.
  apply contains_any_normalised.
  pose proof keywords_plain as K. rewrite forallb_app in K.
  now apply andb_true_iff in K.
Qed.

Lemma affirmative_branch (u : string) (d : Dict.t) (w : World S) :
  contains_any affirmative (strip (lower u)) = true ->
  _handle_confirmation notifier u d w
  = after_save notifier d (fst (_save_booking d w))
               (snd (_save_booking d w)).
Proof.
  intros Ha. unfold _handle_confirmation. cbv zeta. rewrite Ha.
  unfold bind at 1. destruct (_save_booking d w) as [r w1]. simpl.
  destruct r; reflexivity.
Qed.

Lemma after_save_not_restart (d : Dict.t) (r : string + Z) (w1 : World S) :
  fst (fst (fst (fst (after_save notifier d r w1)))) <> restart_prompt.
Proof. destruct r; simpl; discriminate. Qed.

(** C10. An utterance that contains an affirmative keyword, as typed or
    after lower-casing and trimming, is answered by one attempt to persist
    the draft, whatever else it contains: the outcome is the one built from
    the result of [_save_booking], the call is logged exactly once, the turn
    is reported as completed, and the answer is never the restart prompt of
    the cancellation branch. *)
Theorem C10_affirmative_checked_first (u : string) (d : Dict.t) (w : World S) :
  contains_any affirmative u = true \/
  contains_any affirmative (strip (lower u)) = true ->
  let res := handle_booking_intent notifier llm now u d true w in
  res = after_save notifier d (fst (_save_booking d w))
                   (snd (_save_booking d w)) /\
  save_calls (snd res) = (save_calls w ++ [d])%list /\
  snd (fst res) = true /\
  fst (fst (fst (fst res))) <> restart_prompt.
Proof.
  intros Hu res.
  assert (Ha : contains_any affirmative (strip (lower u)) = true)
    by (destruct Hu; [now apply affirmative_normalised | assumption]).
  assert (E : res = after_save notifier d (fst (_save_booking d w))
                                 (snd (_save_booking d w)))
    by (subst res; simpl; now apply affirmative_branch).
  split; [exact E|]. rewrite E.
  destruct (save_booking_logged d w) as (r & s' & ->). simpl.
  split; [|split].
  - destruct r; reflexivity.
  - destruct r; reflexivity.
  - destruct r; simpl; discriminate.
Qed.

(** C1, as the code has it.  On "yes" the persistence step runs exactly
    once, and when it succeeds the session comes back with an empty draft
    and no confirmation pending.  An utterance with a negative keyword and
    no affirmative one clears the draft, leaves the confirmation state and
    gets the restart prompt, without touching the store or the logs.  An
    utterance with neither kind of keyword gets the yes/no prompt, the draft
    unchanged, the confirmation still pending, and no persistence. *)
Theorem C1_confirmation_step (u : string) (d : Dict.t) (w : World S) :
  (let res := handle_booking_intent notifier llm now "yes" d true w in
   save_calls (snd res) = (save_calls w ++ [d])%list /\
   (forall booking_id w1,
      _save_booking d w = (inr booking_id, w1) ->
      snd (fst (fst (fst res))) = Dict.empty /\
      snd (fst (fst res)) = false)) /\
  (contains_any negative (strip (lower u)) = true ->
   contains_any affirmative (strip (lower u)) = false ->
   handle_booking_intent notifier llm now u d true w
   = ((restart_prompt, Dict.empty, false, false), w)) /\
  (contains_any negative (strip (lower u)) = false ->
   contains_any affirmative (strip (lower u)) = false ->
   handle_booking_intent notifier llm now u d true w
   = ((yes_no_prompt, d, true, false), w)).
Proof.
  split; [|split].
  - cbv zeta.
    assert (E : handle_booking_intent notifier llm now "yes" d true w
                = after_save notifier d (fst (_save_booking d w))
                             (snd (_save_booking d w)))
      by (simpl; now apply affirmative_branch).
    rewrite E. destruct (save_booking_logged d w) as (r & s' & Hs).
    rewrite Hs. simpl. split.
    + destruct r; reflexivity.
    + intros booking_id w1 Hr. injection Hr as -> <-. now split.
  - intros Hn Ha. simpl. unfold _handle_confirmation. cbv zeta.
    now rewrite Ha, Hn.
  - intros Hn Ha. simpl. unfold _handle_confirmation. cbv zeta.
    now rewrite Ha, Hn.
Qed.

End ConfirmationFacts.

Lemma C10_affirmative_checked_first_witness :
  (Py.contains_any BookingFlow.affirmative "not okay" = true \/
   Py.contains_any BookingFlow.affirmative (Py.strip (Py.lower "not okay"))
   = true) /\
  Py.contains_any BookingFlow.negative (Py.strip (Py.lower "not okay")) = true /\
  let res :=
    BookingFlow.handle_booking_intent Samples.mail_ok Samples.no_llm
      Samples.clock "not okay" Samples.full_draft true Samples.fresh in
  save_calls (snd res) = [Samples.full_draft] /\
  snd (fst res) = true /\
  fst (fst (fst (fst res))) <> BookingFlow.restart_prompt.
Proof.
  split; [left; reflexivity|]. split; [reflexivity|].
  destruct (C10_affirmative_checked_first Samples.mail_ok Samples.no_llm
              Samples.clock "not okay" Samples.full_draft Samples.fresh
              (or_introl eq_refl)) as (_ & H1 & H2 & H3).
  split; [exact H1|]. split; [exact H2 | exact H3].
Defined.

(** C1 at "not okay": the utterance contains the negative keyword "no", yet
    the draft is sent to the persistence step and the answer is not the
    restart prompt. *)
Lemma C1_counterexample :
  Py.contains_any BookingFlow.negative (Py.strip (Py.lower "not okay")) = true /\
  BookingFlow.handle_booking_intent Samples.mail_ok Samples.no_llm
    Samples.clock "not okay" Samples.full_draft true Samples.fresh
  <> ((BookingFlow.restart_prompt, Dict.empty, false, false), Samples.fresh).
Proof.
  split; [reflexivity|].
  intros E. apply (f_equal (fun x => save_calls (snd x))) in E.
  vm_compute in E. discriminate E.
Qed.

Lemma C1_confirmation_step_witness :
  (Py.contains_any BookingFlow.negative (Py.strip (Py.lower "No, cancel")) = true /\
   Py.contains_any BookingFlow.affirmative (Py.strip (Py.lower "No, cancel")) = false /\
   BookingFlow.handle_booking_intent Samples.mail_ok Samples.no_llm
     Samples.clock "No, cancel" Samples.full_draft true Samples.fresh
   = ((BookingFlow.restart_prompt, Dict.empty, false, false), Samples.fresh)) /\
  save_calls
    (snd (BookingFlow.handle_booking_intent Samples.mail_ok Samples.no_llm
            Samples.clock "yes" Samples.full_draft true Samples.fresh))
  = [Samples.full_draft].
Proof.
  destruct (C1_confirmation_step Samples.mail_ok Samples.no_llm Samples.clock
              "No, cancel" Samples.full_draft Samples.fresh)
    as ((Hyes & _) & Hneg & _).
  split; [|exact Hyes].
  split; [reflexivity|]. split; [reflexivity|].
  apply Hneg; reflexivity.
Defined.

(* ================================================================== *)
(** ** Validation *)
(* ================================================================== *)

Section ValidationFacts.

Import BookingFlow Py.

Lemma check_email_spec (errors ex : Dict.t) :
  check_email (errors, ex) = (record "email" (email_verdict ex) errors, ex).
Proof.
  unfold email_verdict, check_email.
  destruct (Dict.get "email" ex); [|reflexivity].
  destruct (negb _); reflexivity.
Qed.

Lemma check_phone_spec (errors ex : Dict.t) :
  check_phone (errors, ex) = (record "phone" (phone_verdict ex) errors, ex).
Proof.
  unfold phone_verdict, check_phone.
  destruct (Dict.get "phone" ex); [|reflexivity].
  cbv zeta. destruct (_ || _); reflexivity.
Qed.

Lemma check_date_spec (now : Datetime.datetime) (errors ex : Dict.t) :
  check_date now (errors, ex)
  = (record "date" (date_verdict now ex) errors, ex).
Proof.
  unfold date_verdict, check_date.
  destruct (Dict.get "date" ex); [|reflexivity].
  destruct (Datetime.strptime_Ymd _); [|reflexivity].
  cbv zeta. destruct (Datetime.lt _ _); destruct (Datetime.lt _ _);
    cbn [fst record Dict.get Dict.set Dict.empty String.eqb Ascii.eqb Bool.eqb];
    try reflexivity.
  now rewrite set_set.
Qed.

Lemma check_time_spec (now : Datetime.datetime) (known errors ex : Dict.t) :
  check_time now known (errors, ex)
  = (record "time" (time_verdict now known ex) errors,
     snd (check_time now known (Dict.empty, ex))).
Proof.
  unfold time_verdict, check_time.
  break_match; reflexivity.
Qed.

Lemma check_name_spec (errors ex : Dict.t) :
  check_name (errors, ex) = (record "name" (name_verdict ex) errors, ex).
Proof.
  unfold name_verdict, check_name.
  destruct (Dict.get "name" ex); [|reflexivity].
  cbv zeta. destruct (_ <? _)%nat; [reflexivity|].
  destruct (_ <? _)%nat; reflexivity.
Qed.

(** The time block rewrites at most the extracted time. *)
Lemma check_time_frame (now : Datetime.datetime) (known ex : Dict.t)
    (k : string) :
  k <> "time" ->
  Dict.get k (snd (check_time now known (Dict.empty, ex))) = Dict.get k ex.
Proof.
  intros Hk. unfold check_time.
  break_match; cbn [snd]; try reflexivity;
    apply get_set_other; congruence.
Qed.

Lemma check_time_mem (now : Datetime.datetime) (known ex : Dict.t)
    (k : string) :
  Dict.mem k (snd (check_time now known (Dict.empty, ex))) = Dict.mem k ex.
Proof.
  destruct (String.eqb_spec k "time") as [->|Hk].
  - unfold check_time, Dict.mem at 2.
    destruct (Dict.get "time" ex) eqn:G;
      [|cbn [snd]; unfold Dict.mem; now rewrite G].
    break_match; cbn [snd]; unfold Dict.mem;
      rewrite ?get_set_same, ?G; reflexivity.
  - unfold Dict.mem. now rewrite check_time_frame.
Qed.

Lemma check_time_wf (now : Datetime.datetime) (known ex : Dict.t) :
  Dict.wf ex -> Dict.wf (snd (check_time now known (Dict.empty, ex))).
Proof.
  intros Hw. unfold check_time.
  break_match; cbn [snd]; try assumption; now apply wf_set.
Qed.

Lemma name_verdict_ext (ex ex' : Dict.t) :
  Dict.get "name" ex' = Dict.get "name" ex ->
  name_verdict ex' = name_verdict ex.
Proof.
  intros E. unfold name_verdict, check_name. cbv beta iota. rewrite E.
  destruct (Dict.get "name" ex); [|reflexivity].
  cbv zeta. destruct (_ <? _)%nat; [reflexivity|].
  destruct (_ <? _)%nat; reflexivity.
Qed.

(** The extracted fields as validation leaves them. *)
Lemma validate_snd (now : Datetime.datetime) (ex known : Dict.t) :
  snd (_validate_extracted_data now ex known)
  = snd (check_time now known (Dict.empty, ex)).
Proof.
  unfold _validate_extracted_data.
  rewrite check_email_spec, check_phone_spec, check_date_spec.
  rewrite check_time_spec, check_name_spec. reflexivity.
Qed.

(** The error mapping holds one entry for each field whose own check
    fails, in the order email, phone, date, time, name: no check is skipped
    because an earlier one failed. *)
Theorem validate_collects_all (now : Datetime.datetime) (ex known : Dict.t) :
  fst (_validate_extracted_data now ex known)
  = (entry "email" (email_verdict ex) ++ entry "phone" (phone_verdict ex)
     ++ entry "date" (date_verdict now ex)
     ++ entry "time" (time_verdict now known ex)
     ++ entry "name" (name_verdict ex))%list.
Proof.
  unfold _validate_extracted_data.
  rewrite check_email_spec, check_phone_spec, check_date_spec.
  rewrite check_time_spec, check_name_spec. cbn [fst].
  rewrite (name_verdict_ext ex)
    by (apply check_time_frame; discriminate).
  destruct (email_verdict ex), (phone_verdict ex), (date_verdict now ex),
    (time_verdict now known ex), (name_verdict ex); reflexivity.
Qed.

Lemma validate_get (now : Datetime.datetime) (ex known : Dict.t) :
  let errors := fst (_validate_extracted_data now ex known) in
  Dict.get "email" errors = email_verdict ex /\
  Dict.get "phone" errors = phone_verdict ex /\
  Dict.get "date" errors = date_verdict now ex /\
  Dict.get "time" errors = time_verdict now known ex /\
  Dict.get "name" errors = name_verdict ex.
Proof.
  cbv zeta. rewrite validate_collects_all.
  destruct (email_verdict ex), (phone_verdict ex), (date_verdict now ex),
    (time_verdict now known ex), (name_verdict ex); repeat split; reflexivity.
Qed.

Lemma validate_keys (now : Datetime.datetime) (ex known : Dict.t) :
  let errors := fst (_validate_extracted_data now ex known) in
  Dict.keys errors
  = filter (fun f => Dict.mem f errors)
           ["email"; "phone"; "date"; "time"; "name"].
Proof.
  cbv zeta. rewrite validate_collects_all.
  destruct (email_verdict ex), (phone_verdict ex), (date_verdict now ex),
    (time_verdict now known ex), (name_verdict ex); reflexivity.
Qed.

End ValidationFacts.

(* ================================================================== *)
(** ** Phone, time and date validation *)
(* ================================================================== *)

Section FieldFacts.

Import BookingFlow Py.

Lemma all_from_spec (P : Z -> bool) (count : nat) (start : Z) :
  all_from P count start = true ->
  forall z, (start <= z < start + Z.of_nat count)%Z -> P z = true.
Proof.
  revert start. induction count as [|c IH]; intros start Hall z Hz; [lia|].
  cbn [all_from] in Hall. apply andb_true_iff in Hall as [H0 Hrest].
  destruct (Z.eq_dec z start) as [->|Hne]; [exact H0|].
  apply (IH (start + 1)%Z Hrest). lia.
Qed.

Lemma Z_range_forallb (P : Z -> bool) (n : Z) :
  all_from P (Z.to_nat n) 0 = true ->
  forall z, (0 <= z < n)%Z -> P z = true.
Proof.
  intros Hall z Hz. apply (all_from_spec P (Z.to_nat n) 0%Z Hall). lia.
Qed.



Lemma phone_noise_chars (c : ascii) :
  phone_noise c
  = is_space c || Ascii.eqb c "-" || Ascii.eqb c "(" || Ascii.eqb c ")"
    || Ascii.eqb c "+".
Proof.
  destruct c as [[] [] [] [] [] [] [] []]; reflexivity.
Qed.

Lemma remove_clean (p : ascii -> bool) (s : string) :
  sall (fun c => negb (p c)) (Re.remove p s) = true.
Proof.
  induction s as [|c s IH]; simpl; [reflexivity|].
  destruct (p c) eqn:E; simpl; [exact IH | now rewrite E].
Qed.

(** C6, as the code has it.  The phone check removes every whitespace
    character, hyphen, parenthesis and plus sign from the value and passes
    exactly when what remains is all digits and 10 to 15 characters long;
    when it fails, the message quotes the value as it was given. *)
Theorem C6_phone_validation (now : Datetime.datetime) (ex known : Dict.t)
    (raw : string) :
  Dict.get "phone" ex = Some raw ->
  let stripped := Re.remove phone_noise raw in
  let err := Dict.get "phone" (fst (_validate_extracted_data now ex known)) in
  (err = None <->
   isdigit stripped = true /\ (10 <= String.length stripped <= 15)%nat) /\
  (err <> None -> err = Some (msg_phone raw)) /\
  sall (fun c => negb (is_space c || Ascii.eqb c "-" || Ascii.eqb c "("
                       || Ascii.eqb c ")" || Ascii.eqb c "+")) stripped
  = true.
Proof.
  intros Hraw stripped err.
  assert (E : err = if negb (isdigit stripped)
                       || (String.length stripped <? 10)%nat
                       || (15 <? String.length stripped)%nat
                    then Some (msg_phone raw) else None).
  { subst err. destruct (validate_get now ex known) as (_ & -> & _).
    unfold phone_verdict, check_phone. rewrite Hraw. cbv zeta.
    fold stripped. destruct (_ || _); reflexivity. }
  split; [|split].
  - rewrite E. destruct (isdigit stripped); simpl.
    + destruct (Nat.ltb_spec (String.length stripped) 10); simpl.
      * split; [discriminate | intros [_ ?]; lia].
      * destruct (Nat.ltb_spec 15 (String.length stripped)).
        -- split; [discriminate | intros [_ ?]; lia].
        -- split; [intros _; split; [reflexivity | lia] | reflexivity].
    + split; [discriminate | intros [? _]; discriminate].
  - rewrite E. destruct (_ || _); [reflexivity | contradiction].
  - subst stripped.
    rewrite <- (remove_clean phone_noise raw) at 1.
    clear. induction (Re.remove phone_noise raw) as [|c s IH]; simpl;
      [reflexivity|].
    now rewrite IH, phone_noise_chars.
Qed.

Lemma C6_phone_validation_witness :
  Dict.get "phone" [("phone", "+1 (555) 010-9999")]
  = Some "+1 (555) 010-9999" /\
  Dict.get "phone"
    (fst (_validate_extracted_data Samples.clock
            [("phone", "+1 (555) 010-9999")] Dict.empty)) = None.
Proof.
  split; [reflexivity|].
  apply (proj1 (C6_phone_validation Samples.clock
                  [("phone", "+1 (555) 010-9999")] Dict.empty
                  "+1 (555) 010-9999" eq_refl)).
  split; [reflexivity | simpl; lia].
Defined.

(** C6 at "12-34": the value fails, and the message quotes "12-34", not the
    stripped "1234", which occurs nowhere in it. *)
Lemma C6_counterexample :
  Dict.get "phone"
    (fst (_validate_extracted_data Samples.clock [("phone", "12-34")]
            Dict.empty))
  = Some (msg_phone "12-34") /\
  Re.remove phone_noise "12-34" = "1234" /\
  msg_phone "12-34" <> msg_phone (Re.remove phone_noise "12-34") /\
  contains (Re.remove phone_noise "12-34") (msg_phone "12-34") = false.
Proof.
  repeat split; try reflexivity. vm_compute. discriminate.
Qed.












End FieldFacts.

Section DateFacts.

Import BookingFlow Py.
Open Scope Z_scope.

(** A parsed date is a midnight. *)
Lemma strptime_Ymd_midnight (s : string) (dt : Datetime.datetime) :
  Datetime.strptime_Ymd s = Some dt ->
  dt = Datetime.midnight (Datetime.ordinal dt).
Proof.
  unfold Datetime.strptime_Ymd.
  destruct (Datetime.group _ _ _) as [[[[y m] d] rest]|]; [|discriminate].
  destruct (is_empty rest); [|discriminate].
  destruct (int y); [|discriminate].
  destruct (int m); [|discriminate].
  destruct (int d); [|discriminate].
  destruct (_ && _); [|discriminate].
  intros E. injection E as <-. reflexivity.
Qed.

Lemma lt_midnight (a b : Z) :
  Datetime.lt (Datetime.midnight a) (Datetime.midnight b) = (a <? b).
Proof.
  unfold Datetime.lt, Datetime.midnight. cbn.
  now rewrite andb_false_r, orb_false_r.
Qed.

(** The verdict of the date block on a value [s]. *)
Lemma date_verdict_spec (now : Datetime.datetime) (ex : Dict.t) (s : string) :
  Dict.get "date" ex = Some s ->
  date_verdict now ex
  = match Datetime.strptime_Ymd s with
    | None => Some (msg_date_invalid s)
    | Some dt =>
        if Datetime.ordinal now + 365 <? Datetime.ordinal dt
        then Some (msg_date_far s)
        else if Datetime.ordinal dt <? Datetime.ordinal now
             then Some (msg_date_past s
                          (Datetime.ordinal now - Datetime.ordinal dt))
             else None
    end.
Proof.
  intros Hs. unfold date_verdict, check_date. rewrite Hs.
  destruct (Datetime.strptime_Ymd s) as [dt|] eqn:E; [|reflexivity].
  rewrite (strptime_Ymd_midnight s dt E). cbv zeta.
  unfold Datetime.add_days. cbn [Datetime.ordinal Datetime.hour
    Datetime.minute Datetime.second Datetime.microsecond Datetime.midnight].
  fold (Datetime.midnight (Datetime.ordinal dt)).
  fold (Datetime.midnight (Datetime.ordinal now)).
  fold (Datetime.midnight (Datetime.ordinal now + 365)).
  rewrite !lt_midnight.
  destruct (Datetime.ordinal dt <? Datetime.ordinal now);
    destruct (Datetime.ordinal now + 365 <? Datetime.ordinal dt);
    reflexivity.
Qed.

(** *** Reading back a printed date *)

Lemma year_printed (y : Z) :
  1 <= y <= 9999 ->
  exists a b c e,
    fmt_04d y = String a (String b (String c (String e EmptyString))) /\
    is_digit a = true /\ is_digit b = true /\
    is_digit c = true /\ is_digit e = true /\
    int (fmt_04d y) = Some y.
Proof.
  intros Hy.
  pose proof (Z_range_forallb four_digits 10000
                ltac:(vm_compute; reflexivity) y ltac:(lia)) as F.
  unfold four_digits in F.
  destruct (fmt_04d y) as [|a [|b [|c [|e [|]]]]]; try discriminate F.
  apply andb_true_iff in F as [F Hi].
  apply andb_true_iff in F as [F He]. apply andb_true_iff in F as [F Hc].
  apply andb_true_iff in F as [Ha Hb].
  exists a, b, c, e. repeat split; try assumption.
  destruct (int _) as [v|]; [|discriminate Hi].
  apply Z.eqb_eq in Hi. now subst.
Qed.

Lemma group_Y_printed (A : Type) (k : string -> string -> option A)
    (y : Z) (rest : string) :
  1 <= y <= 9999 ->
  Datetime.group Datetime.re_Y k (fmt_04d y ++ rest) = k (fmt_04d y) rest.
Proof.
  intros Hy.
  destruct (year_printed y Hy) as (a & b & c & e & -> & Ha & Hb & Hc & He & _).
  cbn [Datetime.group Datetime.re_Y Datetime.match_alt append].
  rewrite Ha, Hb, Hc, He. now destruct (k _ rest).
Qed.

Lemma lit_same (A : Type) (k : string -> option A) (c : ascii) (r : string) :
  Datetime.lit (String c EmptyString) k (String c r) = k r.
Proof.
  unfold Datetime.lit, Datetime.one, Datetime.rng, between.
  now rewrite Nat.leb_refl.
Qed.

Lemma append_empty (s : string) : s ++ EmptyString = s.
Proof. induction s as [|c s IH]; simpl; [reflexivity | now rewrite IH]. Qed.

Ltac printed n :=
  let v := eval vm_compute in (fmt_02d n) in
  change (fmt_02d n) with v.

Lemma group_m_printed (A : Type) (k : string -> string -> option A)
    (m : Z) (rest : string) (x : A) :
  1 <= m <= 12 ->
  k (fmt_02d m) rest = Some x ->
  Datetime.group Datetime.re_m k (fmt_02d m ++ rest) = Some x.
Proof.
  intros Hm.
  assert (C : m = 1 \/ m = 2 \/ m = 3 \/ m = 4 \/ m = 5 \/ m = 6 \/ m = 7
              \/ m = 8 \/ m = 9 \/ m = 10 \/ m = 11 \/ m = 12) by lia.
  repeat (destruct C as [->|C]); try subst m;
    match goal with |- context [fmt_02d ?n] => printed n end;
    intros Hk; cbv; now rewrite Hk.
Qed.

Lemma group_d_printed (A : Type) (k : string -> string -> option A)
    (d : Z) (rest : string) (x : A) :
  1 <= d <= 31 ->
  k (fmt_02d d) rest = Some x ->
  Datetime.group Datetime.re_d k (fmt_02d d ++ rest) = Some x.
Proof.
  intros Hd.
  assert (C : d = 1 \/ d = 2 \/ d = 3 \/ d = 4 \/ d = 5 \/ d = 6 \/ d = 7
              \/ d = 8 \/ d = 9 \/ d = 10 \/ d = 11 \/ d = 12 \/ d = 13
              \/ d = 14 \/ d = 15 \/ d = 16 \/ d = 17 \/ d = 18 \/ d = 19
              \/ d = 20 \/ d = 21 \/ d = 22 \/ d = 23 \/ d = 24 \/ d = 25
              \/ d = 26 \/ d = 27 \/ d = 28 \/ d = 29 \/ d = 30 \/ d = 31)
    by lia.
  repeat (destruct C as [->|C]); try subst d;
    match goal with |- context [fmt_02d ?n] => printed n end;
    intros Hk; cbv; now rewrite Hk.
Qed.

Lemma int_printed (n : Z) : 0 <= n < 100 -> int (fmt_02d n) = Some n.
Proof.
  intros Hn.
  pose proof (Z_range_forallb
                (fun n => match int (fmt_02d n) with
                          | Some v => (v =? n)%Z
                          | None => false
                          end)
                100 ltac:(vm_compute; reflexivity) n Hn) as F.
  cbv beta in F. destruct (int _) as [v|]; [|discriminate F].
  apply Z.eqb_eq in F. now subst.
Qed.

Lemma days_in_month_le (y m : Z) : Datetime.days_in_month y m <= 31.
Proof.
  unfold Datetime.days_in_month.
  destruct (m =? 2); [destruct (Datetime.is_leap y); lia|].
  destruct (_ || _); lia.
Qed.

(** [strptime] reads the text of a valid date back as that date. *)
Lemma strptime_Ymd_printed (y m d : Z) :
  Datetime.valid_date y m d ->
  Datetime.strptime_Ymd (Datetime.text_Ymd y m d)
  = Some (Datetime.midnight (Datetime.ymd2ord y m d)).
Proof.
  intros (Hy & Hm & Hd).
  pose proof (days_in_month_le y m) as Hle.
  destruct (year_printed y Hy) as (_ & _ & _ & _ & _ & _ & _ & _ & _ & Hiy).
  unfold Datetime.strptime_Ymd, Datetime.text_Ymd.
  rewrite <- (append_empty (fmt_02d d)).
  rewrite group_Y_printed by exact Hy.
  cbn [append]. rewrite lit_same.
  rewrite (group_m_printed _ _ m _ (fmt_04d y, fmt_02d m, fmt_02d d, "") Hm).
  - cbv beta iota. cbn [is_empty]. rewrite Hiy, !int_printed by lia.
    destruct (Z.leb_spec 1 y); [|lia]. destruct (Z.leb_spec y 9999); [|lia].
    destruct (Z.leb_spec 1 m); [|lia]. destruct (Z.leb_spec m 12); [|lia].
    destruct (Z.leb_spec 1 d); [|lia].
    destruct (Z.leb_spec d (Datetime.days_in_month y m)); [|lia].
    reflexivity.
  - cbn [append]. rewrite lit_same.
    apply group_d_printed; [lia | reflexivity].
Qed.

(** *** [_ord2ymd] is the inverse of [_ymd2ord] *)

Lemma month_day_spec (y n : Z) :
  0 <= n < 365 ->
  let '(m, d) := Datetime.month_day n (Datetime.is_leap y) in
  1 <= m <= 12 /\ 1 <= d <= Datetime.days_in_month y m /\
  Datetime.days_before_month y m + d = n + 1.
Proof.
  intros Hn.
  assert (F : month_day_ok (Datetime.is_leap y) n = true).
  { destruct (Datetime.is_leap y);
      apply (Z_range_forallb _ 365); [vm_compute; reflexivity | exact Hn
                                     | vm_compute; reflexivity | exact Hn]. }
  unfold month_day_ok in F.
  destruct (Datetime.month_day n (Datetime.is_leap y)) as [m d].
  assert (E : forall y', Datetime.is_leap y' = Datetime.is_leap y ->
     Datetime.days_in_month y' m = Datetime.days_in_month y m /\
     Datetime.days_before_month y' m = Datetime.days_before_month y m)
    by (intros y' E; unfold Datetime.days_in_month,
          Datetime.days_before_month; now rewrite E).
  destruct (Datetime.is_leap y) eqn:L;
    [destruct (E 4 eq_refl) as [E1 E2] | destruct (E 1 eq_refl) as [E1 E2]];
    rewrite E1, E2 in F;
    repeat (apply andb_true_iff in F as [F ?]);
    lia.
Qed.

Lemma ord2ymd_spec (n : Z) :
  1 <= n <= Datetime.MAXORDINAL ->
  let '(y, m, d) := Datetime.ord2ymd n in
  Datetime.valid_date y m d /\ Datetime.ymd2ord y m d = n.
Proof.
  intros Hn. unfold Datetime.ord2ymd, Datetime.MAXORDINAL in *. cbv zeta.
  set (n400 := (n - 1) / 146097).
  set (r1 := (n - 1) mod 146097).
  set (n100 := r1 / 36524). set (r2 := r1 mod 36524).
  set (n4 := r2 / 1461). set (r3 := r2 mod 1461).
  set (n1 := r3 / 365). set (r4 := r3 mod 365).
  assert (H1 : n - 1 = 146097 * n400 + r1 /\ 0 <= r1 < 146097)
    by (subst n400 r1; split; [apply Z.div_mod; lia
                              | apply Z.mod_pos_bound; lia]).
  assert (H2 : r1 = 36524 * n100 + r2 /\ 0 <= r2 < 36524)
    by (subst n100 r2; split; [apply Z.div_mod; lia
                              | apply Z.mod_pos_bound; lia]).
  assert (H3 : r2 = 1461 * n4 + r3 /\ 0 <= r3 < 1461)
    by (subst n4 r3; split; [apply Z.div_mod; lia
                            | apply Z.mod_pos_bound; lia]).
  assert (H4 : r3 = 365 * n1 + r4 /\ 0 <= r4 < 365)
    by (subst n1 r4; split; [apply Z.div_mod; lia
                            | apply Z.mod_pos_bound; lia]).
  clearbody n400 r1 n100 r2 n4 r3 n1 r4.
  assert (B : 0 <= n400 <= 24 /\ 0 <= n100 <= 4 /\ 0 <= n4 <= 24
              /\ 0 <= n1 <= 4) by lia.
  set (year := n400 * 400 + 1 + n100 * 100 + n4 * 4 + n1).
  destruct ((n1 =? 4) || (n100 =? 4)) eqn:Last.
  - (* the last day of a leap year *)
    assert (Hcase : (n100 = 4 /\ r2 = 0 /\ n4 = 0 /\ n1 = 0 /\ r4 = 0)
                    \/ (n100 <= 3 /\ n1 = 4 /\ r4 = 0 /\ n4 <= 23)).
    { apply orb_true_iff in Last.
      destruct (Z.eq_dec n100 4) as [E|E]; [left; lia|].
      destruct Last as [L|L]; [|lia]. apply Z.eqb_eq in L. right. lia. }
    assert (Leap : Datetime.is_leap (year - 1) = true).
    { unfold Datetime.is_leap. subst year.
      repeat match goal with
             | |- context [(?a mod ?b =? 0)] =>
                 destruct (Z.eqb_spec (a mod b) 0)
             end; cbn [negb andb orb]; try reflexivity; exfalso;
        Z.to_euclidean_division_equations; lia. }
    assert (D1 : Datetime.days_in_month (year - 1) 12 = 31) by reflexivity.
    assert (D2 : Datetime.days_before_month (year - 1) 12 = 335)
      by (unfold Datetime.days_before_month; rewrite Leap; reflexivity).
    unfold Datetime.valid_date, Datetime.ymd2ord. rewrite D1, D2.
    unfold Datetime.days_before_year. subst year.
    split; [lia|]. Z.to_euclidean_division_equations. lia.
  - apply orb_false_iff in Last as [L1 L100].
    apply Z.eqb_neq in L1. apply Z.eqb_neq in L100.
    assert (Leap : Datetime.is_leap year
                   = (n1 =? 3) && (negb (n4 =? 24) || (n100 =? 3))).
    { unfold Datetime.is_leap. subst year.
      destruct (Z.eqb_spec n1 3) as [E3|E3];
        destruct (Z.eqb_spec n4 24) as [E24|E24];
        destruct (Z.eqb_spec n100 3) as [E100|E100]; cbn [negb andb orb];
        repeat match goal with
               | |- context [(?a mod ?b =? 0)] =>
                   destruct (Z.eqb_spec (a mod b) 0)
               end; cbn [negb andb orb]; try reflexivity; exfalso;
          Z.to_euclidean_division_equations; lia. }
    rewrite <- Leap.
    pose proof (month_day_spec year r4 ltac:(lia)) as MD.
    destruct (Datetime.month_day r4 (Datetime.is_leap year)) as [m d].
    destruct MD as (Hm & Hd & Hsum).
    unfold Datetime.valid_date, Datetime.ymd2ord.
    split; [subst year; lia|].
    unfold Datetime.days_before_year. subst year.
    Z.to_euclidean_division_equations. lia.
Qed.

(** [strptime] reads back what [strftime] prints. *)
Lemma strptime_strftime (dt : Datetime.datetime) :
  1 <= Datetime.ordinal dt <= Datetime.MAXORDINAL ->
  Datetime.strptime_Ymd (Datetime.strftime_Ymd dt)
  = Some (Datetime.midnight (Datetime.ordinal dt)).
Proof.
  intros Hr. unfold Datetime.strftime_Ymd.
  pose proof (ord2ymd_spec (Datetime.ordinal dt) Hr) as Hs.
  destruct (Datetime.ord2ymd (Datetime.ordinal dt)) as [[y m] d].
  destruct Hs as [Hv <-]. now apply strptime_Ymd_printed.
Qed.

(** C4. On a clock in range, the date check passes exactly for a value that
    [strptime] reads as a date from today up to 365 days ahead.  An earlier
    date gets the message with the number of days in the past, a later one
    the too-far-ahead message, a value [strptime] rejects the format
    message.  In particular the day after today passes, whether given as
    what [strftime] prints for today plus one day (from the year 1000 on,
    where the print has four digits), as the YYYY-MM-DD text
    of its year, month and day, or as any text [strptime] reads as that
    day; "2020-01-01" is reported as past on any later day,
    and "2099-01-01" as too far ahead as long as it is more than 365 days
    away. *)
Theorem C4_date_validation (now : Datetime.datetime) (ex known : Dict.t)
    (s : string) :
  Datetime.clock_ok now ->
  Dict.get "date" ex = Some s ->
  let today := Datetime.ordinal now in
  let err := Dict.get "date" (fst (_validate_extracted_data now ex known)) in
  (err = None <->
   exists dt, Datetime.strptime_Ymd s = Some dt /\
              today <= Datetime.ordinal dt <= today + 365) /\
  (forall dt, Datetime.strptime_Ymd s = Some dt ->
     Datetime.ordinal dt < today ->
     err = Some (msg_date_past s (today - Datetime.ordinal dt))) /\
  (forall dt, Datetime.strptime_Ymd s = Some dt ->
     today + 365 < Datetime.ordinal dt ->
     err = Some (msg_date_far s)) /\
  (Datetime.strptime_Ymd s = None -> err = Some (msg_date_invalid s)) /\
  (forall dt, Datetime.strptime_Ymd s = Some dt ->
     Datetime.ordinal dt = today + 1 -> err = None) /\
  (Datetime.ymd2ord 1000 1 1 <= today + 1 ->
   s = Datetime.strftime_Ymd
         (Datetime.add_days (Datetime.midnight today) 1) -> err = None) /\
  (forall y m d, Datetime.valid_date y m d ->
     Datetime.ymd2ord y m d = today + 1 ->
     s = Datetime.text_Ymd y m d -> err = None) /\
  (s = "2020-01-01" -> Datetime.ymd2ord 2020 1 1 < today ->
   err = Some (msg_date_past "2020-01-01"
                 (today - Datetime.ymd2ord 2020 1 1))) /\
  (s = "2099-01-01" -> today + 365 < Datetime.ymd2ord 2099 1 1 ->
   err = Some (msg_date_far "2099-01-01")).
Proof.
  intros Hclock Hs today err.
  assert (E : err = date_verdict now ex)
    by (subst err; now destruct (validate_get now ex known) as (_ & _ & -> & _)).
  rewrite E, (date_verdict_spec now ex s Hs). fold today. clear E err.
  assert (P : forall dt, Datetime.strptime_Ymd s = Some dt ->
     Datetime.ordinal dt < today ->
     match Datetime.strptime_Ymd s with
     | Some dt0 =>
         if today + 365 <? Datetime.ordinal dt0 then Some (msg_date_far s)
         else if Datetime.ordinal dt0 <? today
              then Some (msg_date_past s (today - Datetime.ordinal dt0))
              else None
     | None => Some (msg_date_invalid s)
     end = Some (msg_date_past s (today - Datetime.ordinal dt))).
  { intros dt -> Hlt.
    destruct (Z.ltb_spec (today + 365) (Datetime.ordinal dt)); [lia|].
    destruct (Z.ltb_spec (Datetime.ordinal dt) today); [reflexivity | lia]. }
  assert (F : forall dt, Datetime.strptime_Ymd s = Some dt ->
     today + 365 < Datetime.ordinal dt ->
     match Datetime.strptime_Ymd s with
     | Some dt0 =>
         if today + 365 <? Datetime.ordinal dt0 then Some (msg_date_far s)
         else if Datetime.ordinal dt0 <? today
              then Some (msg_date_past s (today - Datetime.ordinal dt0))
              else None
     | None => Some (msg_date_invalid s)
     end = Some (msg_date_far s)).
  { intros dt -> Hlt.
    destruct (Z.ltb_spec (today + 365) (Datetime.ordinal dt));
      [reflexivity | lia]. }
  assert (T : forall dt, Datetime.strptime_Ymd s = Some dt ->
     Datetime.ordinal dt = today + 1 ->
     match Datetime.strptime_Ymd s with
     | Some dt0 =>
         if today + 365 <? Datetime.ordinal dt0 then Some (msg_date_far s)
         else if Datetime.ordinal dt0 <? today
              then Some (msg_date_past s (today - Datetime.ordinal dt0))
              else None
     | None => Some (msg_date_invalid s)
     end = None).
  { intros dt -> Hdt.
    destruct (Z.ltb_spec (today + 365) (Datetime.ordinal dt)); [lia|].
    destruct (Z.ltb_spec (Datetime.ordinal dt) today); [lia | reflexivity]. }
  split; [|split; [exact P | split; [exact F | split; [|split; [exact T|
    split; [|split; [|split]]]]]]].
  - destruct (Datetime.strptime_Ymd s) as [dt|].
    + destruct (Z.ltb_spec (today + 365) (Datetime.ordinal dt)).
      * split; [discriminate|]. intros (dt' & Hdt & Hr).
        injection Hdt as <-. lia.
      * destruct (Z.ltb_spec (Datetime.ordinal dt) today).
        -- split; [discriminate|]. intros (dt' & Hdt & Hr).
           injection Hdt as <-. lia.
        -- split; [|reflexivity]. intros _. exists dt. split; [reflexivity|lia].
    + split; [discriminate|]. intros (dt' & Hdt & _). discriminate.
  - now intros ->.
  - intros _ Hs'.
    apply (T (Datetime.midnight (today + 1))); [|reflexivity].
    subst s. rewrite strptime_strftime; [reflexivity|].
    destruct Hclock as (H1 & H2 & _). cbn [Datetime.ordinal
      Datetime.add_days Datetime.midnight]. unfold today. lia.
  - intros y m d Hv Ho Hs'.
    apply (T (Datetime.midnight (Datetime.ymd2ord y m d)));
      [subst s; now apply strptime_Ymd_printed | exact Ho].
  - intros -> Hlt. apply (P (Datetime.midnight (Datetime.ymd2ord 2020 1 1)));
      [reflexivity | exact Hlt].
  - intros -> Hlt. apply (F (Datetime.midnight (Datetime.ymd2ord 2099 1 1)));
      [reflexivity | exact Hlt].
Qed.

Lemma sample_clock_ok : Datetime.clock_ok Samples.clock.
Proof.
  unfold Datetime.clock_ok. repeat split; vm_compute;
    (reflexivity || discriminate).
Qed.

Lemma C4_date_validation_witness :
  Datetime.clock_ok Samples.clock /\
  Dict.get "date" [("date", "2020-01-01")] = Some "2020-01-01" /\
  Dict.get "date"
    (fst (_validate_extracted_data Samples.clock [("date", "2020-01-01")]
            Dict.empty))
  = Some "'2020-01-01' is 2498 day(s) in the past. Choose a future date".
Proof.
  split; [exact sample_clock_ok|]. split; [reflexivity|].
  destruct (C4_date_validation Samples.clock [("date", "2020-01-01")]
              Dict.empty "2020-01-01" sample_clock_ok eq_refl)
    as (_ & _ & _ & _ & _ & _ & _ & Hpast & _).
  rewrite (Hpast eq_refl ltac:(vm_compute; reflexivity)). reflexivity.
Defined.

(** The three dates of the specification on 2026-11-03. *)
Example date_examples :
  let v s := fst (_validate_extracted_data Samples.clock [("date", s)]
                    Dict.empty) in
  v "2020-01-01" = [("date", msg_date_past "2020-01-01" 2498)] /\
  v "2099-01-01" = [("date", msg_date_far "2099-01-01")] /\
  v "2026-11-04" = [] /\
  v "2026-11-03" = [] /\
  v "2026-12-1" = [] /\
  v "2027-11-03" = [] /\
  v "2027-11-04" = [("date", msg_date_far "2027-11-04")] /\
  v "04/11/2026" = [("date", msg_date_invalid "04/11/2026")] /\
  v "2026-02-30" = [("date", msg_date_invalid "2026-02-30")].
Proof. cbv zeta. repeat split; vm_compute; reflexivity. Qed.

End DateFacts.

(* ================================================================== *)
(** ** Extraction *)
(* ================================================================== *)

Section ExtractionFacts.

Import BookingFlow Py.

Lemma fresh_empty (known : Dict.t) : fresh_fields known Dict.empty.
Proof.
  split; [exact wf_empty|]. split; [reflexivity|].
  split; discriminate.
Qed.

Lemma fresh_set (known e : Dict.t) (f v : string) :
  fresh_fields known e -> Dict.mem f known = false -> In f required_fields ->
  (f = "booking_type" -> v <> EmptyString) ->
  fresh_fields known (Dict.set f v e).
Proof.
  intros (Hw & Ha & Hk & Hb) Hf Hin Hv. split; [now apply wf_set|].
  split; [|split].
  - intros k Hknown. rewrite mem_set, (Ha k Hknown), orb_false_r.
    destruct (String.eqb_spec f k) as [->|]; [congruence | reflexivity].
  - intros k. rewrite mem_set.
    destruct (String.eqb_spec f k) as [->|]; [intros _; exact Hin|].
    simpl. apply Hk.
  - intros v0. destruct (String.eqb_spec f "booking_type") as [->|Hne].
    + rewrite get_set_same. intros E. injection E as <-. now apply Hv.
    + rewrite get_set_other by exact Hne. apply Hb.
Qed.

Ltac fresh_step :=
  match goal with
  | |- fresh_fields _ (Dict.set _ _ _) =>
      apply fresh_set;
      [assumption
      | match goal with
        | E : negb (Dict.mem _ _) = true |- _ =>
            now apply negb_true_iff in E
        end
      | simpl; tauto
      | let Q := fresh in
        first [ intros Q; discriminate Q
              | intros _ Q; subst;
                match goal with
                | X : is_empty EmptyString = false |- _ => discriminate X
                end ]]
  | _ => assumption
  end.

Lemma take_email_fresh (u : string) (known e : Dict.t) :
  fresh_fields known e -> fresh_fields known (take_email u known e).
Proof.
  intros He. unfold take_email.
  destruct (Re.findall _ _); [assumption|].
  destruct (negb _) eqn:E; fresh_step.
Qed.

Lemma take_phone_fresh (u : string) (known e : Dict.t) :
  fresh_fields known e -> fresh_fields known (take_phone u known e).
Proof.
  intros He. unfold take_phone.
  destruct (Re.findall _ _); [assumption|].
  destruct (negb _) eqn:E; fresh_step.
Qed.

Lemma take_date_fresh (u : string) (known e : Dict.t) :
  fresh_fields known e -> fresh_fields known (take_date u known e).
Proof.
  intros He. unfold take_date.
  destruct (Re.findall _ _); [assumption|].
  destruct (negb _) eqn:E; fresh_step.
Qed.

Lemma take_time_fresh (u : string) (known e : Dict.t) :
  fresh_fields known e -> fresh_fields known (take_time u known e).
Proof.
  intros He. unfold take_time.
  destruct (Re.findall _ _); [assumption|].
  destruct (negb _) eqn:E; fresh_step.
Qed.

Lemma take_name_fresh (u : string) (known e : Dict.t) :
  fresh_fields known e -> fresh_fields known (take_name u known e).
Proof.
  intros He. unfold take_name.
  destruct (negb _) eqn:E; [|assumption].
  destruct (name_candidate u); fresh_step.
Qed.

Lemma take_booking_type_fresh (llm : LLM) (u : string) (known e : Dict.t) :
  fresh_fields known e -> fresh_fields known (take_booking_type llm u known e).
Proof.
  intros He. unfold take_booking_type.
  destruct (negb _) eqn:E; [|assumption].
  destruct (_extract_booking_type llm u); [|assumption].
  destruct (is_empty _) eqn:Hv; fresh_step.
Qed.

Lemma extract_fresh (llm : LLM) (u : string) (known : Dict.t) :
  fresh_fields known (_extract_booking_info llm u known).
Proof.
  unfold _extract_booking_info.
  apply take_booking_type_fresh, take_name_fresh, take_time_fresh,
    take_date_fresh, take_phone_fresh, take_email_fresh, fresh_empty.
Qed.

(** C3. No key of the draft comes back from extraction, whatever the
    utterance and the completion service; so merging the extracted fields
    leaves every value of the draft as it was, and this holds for each of
    the six fields. *)
Theorem C3_extraction_is_additive (llm : LLM) (u : string) (known : Dict.t)
    (k : string) :
  Dict.mem k known = true ->
  Dict.mem k (_extract_booking_info llm u known) = false /\
  Dict.get k (Dict.update known (_extract_booking_info llm u known))
  = Dict.get k known.
Proof.
  intros Hk. destruct (extract_fresh llm u known) as (_ & Ha & _ & _).
  pose proof (Ha k Hk) as Hn. split; [exact Hn|].
  apply get_update_none. unfold Dict.mem in Hn.
  destruct (Dict.get k _); [discriminate | reflexivity].
Qed.

Lemma C3_extraction_is_additive_witness :
  let known := [("email", "old@example.org"); ("booking_type", "Consultation")] in
  let u := "I am john@example.com and I want a haircut at 9:30" in
  Dict.mem "email" known = true /\
  _extract_booking_info Samples.no_llm u Dict.empty
  = [("email", "john@example.com"); ("time", "09:30");
     ("booking_type", "Salon Service")] /\
  _extract_booking_info Samples.no_llm u known = [("time", "09:30")] /\
  Dict.get "email" (Dict.update known (_extract_booking_info Samples.no_llm u known))
  = Some "old@example.org".
Proof.
  cbv zeta. split; [reflexivity|]. split; [vm_compute; reflexivity|].
  split; [vm_compute; reflexivity|].
  rewrite (proj2 (C3_extraction_is_additive Samples.no_llm
                    "I am john@example.com and I want a haircut at 9:30"
                    [("email", "old@example.org");
                     ("booking_type", "Consultation")] "email" eq_refl)).
  reflexivity.
Defined.

End ExtractionFacts.

(* ================================================================== *)
(** ** The collecting step and the reachable drafts *)
(* ================================================================== *)

Section CollectingFacts.

Import BookingFlow Py.

Context {S : Type} `{BookingStore S}.
Variable notifier : Notifier.
Variable llm : LLM.
Variable now : Datetime.datetime.

Lemma collecting_ok (u : string) (d : Dict.t) (w : World S) :
  fst (_validate_extracted_data now (_extract_booking_info llm u d) d) = [] ->
  exists resp awaiting,
    handle_booking_intent notifier llm now u d false w
    = ((resp, merged llm now u d, awaiting, false), w).
Proof.
  intros He. unfold handle_booking_intent, merged.
  destruct (_validate_extracted_data now _ d) as [errors ex'].
  cbn [fst snd] in *. subst errors. cbv zeta.
  destruct (filter _ required_fields); unfold ret; now eexists; eexists.
Qed.

Lemma collecting_failed (u : string) (d : Dict.t) (w : World S) :
  let errors :=
    fst (_validate_extracted_data now (_extract_booking_info llm u d) d) in
  errors <> [] ->
  handle_booking_intent notifier llm now u d false w
  = ((error_response errors, d, false, false), w).
Proof.
  cbv zeta. intros He. unfold handle_booking_intent.
  destruct (_validate_extracted_data now _ d) as [errors ex'].
  cbn [fst snd] in *. destruct errors; [contradiction | reflexivity].
Qed.

(** The extracted fields after validation are still fresh for the draft. *)
Lemma validated_fresh (u : string) (d : Dict.t) :
  fresh_fields d
    (snd (_validate_extracted_data now (_extract_booking_info llm u d) d)).
Proof.
  rewrite validate_snd.
  destruct (extract_fresh llm u d) as (Hw & Ha & Hk & Hb).
  split; [now apply check_time_wf|].
  split; [|split]; intros k.
  - rewrite check_time_mem. apply Ha.
  - rewrite check_time_mem. apply Hk.
  - rewrite check_time_frame by discriminate. apply Hb.
Qed.

Lemma merged_priced (u : string) (d : Dict.t) :
  priced d -> priced (merged llm now u d).
Proof.
  intros [Hmem Hval]. unfold merged.
  destruct (validated_fresh u d) as (Hw & Ha & Hk & Hb).
  set (ex := snd (_validate_extracted_data now _ d)) in *.
  assert (Hp : Dict.mem "pricing" ex = false).
  { destruct (Dict.mem "pricing" ex) eqn:E; [|reflexivity].
    apply Hk in E. simpl in E.
    repeat (destruct E as [E|E]; [discriminate E|]). contradiction. }
  assert (Gp : Dict.get "pricing" (Dict.update d ex) = Dict.get "pricing" d).
  { apply get_update_none. unfold Dict.mem in Hp.
    destruct (Dict.get "pricing" ex); [discriminate | reflexivity]. }
  assert (Mp : Dict.mem "pricing" (Dict.update d ex) = Dict.mem "pricing" d)
    by (rewrite mem_update, Hp; apply orb_false_r).
  unfold fill_pricing.
  destruct (Dict.get "booking_type" (Dict.update d ex)) as [bt|] eqn:Gb.
  - destruct (Dict.mem "pricing" (Dict.update d ex)) eqn:Mp'; cbn [negb].
    + assert (Mb : Dict.mem "booking_type" d = true) by congruence.
      pose proof (Ha _ Mb) as Hex. unfold Dict.mem in Hex.
      assert (Gb' : Dict.get "booking_type" (Dict.update d ex)
                    = Dict.get "booking_type" d).
      { apply get_update_none.
        destruct (Dict.get "booking_type" ex); [discriminate | reflexivity]. }
      split.
      * rewrite Mp'. unfold Dict.mem. now rewrite Gb.
      * intros bt0 Hbt0. rewrite Gp. apply Hval. congruence.
    + assert (Hne : bt <> EmptyString).
      { destruct (Dict.get "booking_type" ex) as [v|] eqn:Gx.
        - rewrite (get_update_some _ _ _ d Hw Gx) in Gb.
          injection Gb as <-. now apply Hb.
        - rewrite (get_update_none _ _ d Gx) in Gb. now apply Hval. }
      split.
      * rewrite !mem_set. simpl. unfold Dict.mem. now rewrite Gb.
      * intros bt0. rewrite get_set_other by discriminate.
        rewrite Gb. intros E. injection E as <-.
        split; [exact Hne | apply get_set_same].
  - assert (Mb : Dict.mem "booking_type" (Dict.update d ex) = false)
      by (unfold Dict.mem; now rewrite Gb).
    split.
    + rewrite Mp, Hmem, Mb. rewrite mem_update in Mb.
      now apply orb_false_iff in Mb as [-> _].
    + intros bt0 Hbt0. congruence.
Qed.

(** One turn keeps the price with the service. *)
Lemma turn_priced (u : string) (d : Dict.t) (a : bool) (w : World S) :
  priced d ->
  priced (fst (next_session
                 (fst (handle_booking_intent notifier llm now u d a w)))).
Proof.
  intros Hd.
  assert (Hempty : priced Dict.empty)
    by (split; [reflexivity | discriminate]).
  destruct a.
  - simpl. unfold _handle_confirmation. cbv zeta.
    destruct (contains_any affirmative _).
    + unfold bind at 1. destruct (_save_booking d w) as [r w1].
      destruct r; exact Hempty.
    + destruct (contains_any negative _); [exact Hempty | exact Hd].
  - destruct (fst (_validate_extracted_data now
                     (_extract_booking_info llm u d) d)) eqn:E.
    + destruct (collecting_ok u d w E) as (resp & aw & ->).
      simpl. now apply merged_priced.
    + rewrite collecting_failed by (rewrite E; discriminate).
      exact Hd.
Qed.

(** C2. When validation of the extracted fields reports anything, the turn
    returns the draft it was given, stays in the collecting state, leaves
    the store and the logs alone, and answers with the heading, one bullet
    per error and a request for the first failing field.  The errors are
    one entry for every field whose own check fails, in the order email,
    phone, date, time, name, so the field asked for is the first of these
    that failed. *)
Theorem C2_validation_failure (u : string) (d : Dict.t) (w : World S) :
  Datetime.clock_ok now ->
  let ex := _extract_booking_info llm u d in
  let errors := fst (_validate_extracted_data now ex d) in
  errors <> [] ->
  handle_booking_intent notifier llm now u d false w
  = (("⚠️ I found some issues:" ++ nl ++ nl
      ++ String.concat EmptyString
           (map (fun fe => "• **" ++ title (replace "_" " " (fst fe)) ++ "**: "
                           ++ snd fe ++ nl) errors)
      ++ nl ++ "Please provide the correct "
      ++ replace "_" " " (hd EmptyString (Dict.keys errors)) ++ ".",
      d, false, false), w) /\
  errors
  = (entry "email" (email_verdict ex) ++ entry "phone" (phone_verdict ex)
     ++ entry "date" (date_verdict now ex)
     ++ entry "time" (time_verdict now d ex)
     ++ entry "name" (name_verdict ex))%list /\
  find (fun f => Dict.mem f errors) ["email"; "phone"; "date"; "time"; "name"]
  = Some (hd EmptyString (Dict.keys errors)).
Proof.
  intros _ ex errors He. split; [|split].
  - exact (collecting_failed u d w He).
  - apply validate_collects_all.
  - subst errors. revert He. rewrite validate_collects_all.
    destruct (email_verdict ex), (phone_verdict ex), (date_verdict now ex),
      (time_verdict now d ex), (name_verdict ex); intros He;
      try reflexivity.
    now contradiction He.
Qed.

(** C9. When the draft has no service yet, no keyword of the table occurs
    in the utterance, and the completion service answers with a text that,
    once trimmed and unquoted, is non-empty, is not NOT_FOUND and is shorter
    than 100 characters, then (validation passing) that text becomes the
    service of the draft, catalog or not, and the price is the label of its
    catalog price: "Free" for a text that is no catalog service. *)
Theorem C9_llm_service_accepted (u : string) (d : Dict.t) (w : World S)
    (content : string) :
  Datetime.clock_ok now ->
  Dict.mem "booking_type" d = false ->
  Dict.mem "pricing" d = false ->
  keyword_service (strip (lower u)) = None ->
  llm llm_system (llm_prompt u "booking_type") = Some content ->
  let r := clean_reply content in
  r <> EmptyString -> r <> "NOT_FOUND" -> (String.length r < 100)%nat ->
  fst (_validate_extracted_data now (_extract_booking_info llm u d) d) = [] ->
  let d' :=
    snd (fst (fst (fst (handle_booking_intent notifier llm now u d false w)))) in
  _extract_with_llm llm u "booking_type" = Some r /\
  Dict.get "booking_type" d' = Some r /\
  Dict.get "pricing" d' = Some (price_label (price_of r)) /\
  (service_get r = None -> Dict.get "pricing" d' = Some "Free").
Proof.
  intros _ Hb Hp Hkw Hllm r Hr1 Hr2 Hr3 Hval d'.
  assert (Hl : _extract_with_llm llm u "booking_type" = Some r).
  { unfold _extract_with_llm. rewrite Hllm. cbv zeta. fold r.
    destruct r as [|c r']; [contradiction|]. cbn [is_empty negb andb].
    apply String.eqb_neq in Hr2. rewrite Hr2. cbn [negb andb].
    apply Nat.ltb_lt in Hr3. now rewrite Hr3. }
  split; [exact Hl|].
  assert (Ht : _extract_booking_type llm u = Some r)
    by (unfold _extract_booking_type; cbv zeta; now rewrite Hkw).
  assert (Hex : Dict.get "booking_type" (_extract_booking_info llm u d)
                = Some r).
  { unfold _extract_booking_info, take_booking_type.
    rewrite Hb, Ht. cbn [negb].
    destruct r; [contradiction|]. cbn [is_empty]. apply get_set_same. }
  destruct (collecting_ok u d w Hval) as (resp & aw & Hh).
  subst d'. rewrite Hh. cbn [fst snd]. unfold merged.
  destruct (validated_fresh u d) as (Hw & _ & Hk & _).
  set (ex := snd (_validate_extracted_data now _ d)) in *.
  assert (Gex : Dict.get "booking_type" ex = Some r).
  { subst ex. rewrite validate_snd, check_time_frame by discriminate.
    exact Hex. }
  assert (Gb : Dict.get "booking_type" (Dict.update d ex) = Some r)
    by now apply get_update_some.
  assert (Mp : Dict.mem "pricing" (Dict.update d ex) = false).
  { rewrite mem_update, Hp. simpl.
    destruct (Dict.mem "pricing" ex) eqn:E; [|reflexivity].
    apply Hk in E. simpl in E.
    repeat (destruct E as [E|E]; [discriminate E|]). contradiction. }
  unfold fill_pricing. rewrite Gb, Mp. cbn [negb].
  split; [|split].
  - rewrite get_set_other by discriminate. exact Gb.
  - apply get_set_same.
  - intros Hnone. rewrite get_set_same. unfold price_of. now rewrite Hnone.
Qed.

End CollectingFacts.

Lemma priced_filled (d : Dict.t) :
  priced d -> Dict.filled "pricing" d = Dict.filled "booking_type" d.
Proof.
  intros [Hmem Hval]. unfold Dict.filled, Dict.mem in *.
  destruct (Dict.get "booking_type" d) as [bt|].
  - destruct (Hval bt eq_refl) as [Hne ->].
    destruct bt; [contradiction|]. unfold BookingFlow.price_label.
    destruct (0 <? _)%Z; reflexivity.
  - destruct (Dict.get "pricing" d); [discriminate | reflexivity].
Qed.

(** The price the code looks up is the one the table holds for the
    service, and zero for a service the table does not list. *)
Lemma price_of_table (booking_type : string) :
  (forall info, In (booking_type, info) BookingFlow.service_pricing ->
     BookingFlow.price_of booking_type = BookingFlow.price info) /\
  (~ In booking_type (map fst BookingFlow.service_pricing) ->
   BookingFlow.price_of booking_type = 0%Z).
Proof.
  split.
  - intros info Hin. cbn [In BookingFlow.service_pricing] in Hin.
    repeat (destruct Hin as [E|Hin];
            [injection E as <- <-; reflexivity|]).
    destruct Hin.
  - intros Hn. unfold BookingFlow.price_of, BookingFlow.service_get.
    destruct (find _ BookingFlow.service_pricing) as [e|] eqn:F;
      [|reflexivity].
    apply find_some in F as [Hin He]. apply String.eqb_eq in He.
    exfalso. apply Hn. rewrite <- He. now apply in_map.
Qed.

(** C7. In every session the state machine can reach, the draft has a
    price exactly when it has a service (as keys, and as non-empty
    values), and the price is the one the catalog gives for that service:
    for each of the nine services of the table the label of the price
    in its entry, that is $100, $50, $150, $200, $30, Free, $500, $120 and
    $80, and Free for a service the table does not list; a label is "$"
    and the amount for a positive price and "Free" for a price of zero. *)
Theorem C7_price_follows_service (d : Dict.t) (a : bool) :
  reachable d a ->
  priced d /\
  Dict.filled "pricing" d = Dict.filled "booking_type" d /\
  (forall p, (0 < p)%Z ->
     BookingFlow.price_label p = "$" ++ Py.str_of_Z p) /\
  BookingFlow.price_label 0 = "Free" /\
  map (fun e => BookingFlow.price_label (BookingFlow.price (snd e)))
      BookingFlow.service_pricing
  = ["$100"; "$50"; "$150"; "$200"; "$30"; "Free"; "$500"; "$120"; "$80"] /\
  (forall booking_type info,
     Dict.get "booking_type" d = Some booking_type ->
     In (booking_type, info) BookingFlow.service_pricing ->
     Dict.get "pricing" d
     = Some (BookingFlow.price_label (BookingFlow.price info))) /\
  (forall booking_type label,
     Dict.get "booking_type" d = Some booking_type ->
     In (booking_type, label)
        [("Doctor Appointment", "$100"); ("Salon Service", "$50");
         ("Hotel Reservation", "$150"); ("Event Booking", "$200");
         ("Fitness Class", "$30"); ("Restaurant Reservation", "Free");
         ("Travel Booking", "$500"); ("Spa Treatment", "$120");
         ("Consultation", "$80")] ->
     Dict.get "pricing" d = Some label) /\
  (forall booking_type,
     Dict.get "booking_type" d = Some booking_type ->
     ~ In booking_type (map fst BookingFlow.service_pricing) ->
     Dict.get "pricing" d = Some "Free").
Proof.
  intros Hr.
  assert (Hp : priced d).
  { induction Hr as [|S St notifier llm now u d a w Hr IH Hclock out].
    - split; [reflexivity | discriminate].
    - subst out. now apply turn_priced. }
  split; [exact Hp|]. split; [now apply priced_filled|].
  split; [|split; [|split; [|split; [|split]]]].
  - intros p Hpos. unfold BookingFlow.price_label.
    apply Z.ltb_lt in Hpos. now rewrite Hpos.
  - reflexivity.
  - reflexivity.
  - intros bt info G Hin. destruct Hp as [_ Hval].
    destruct (Hval bt G) as [_ ->].
    now rewrite (proj1 (price_of_table bt) info Hin).
  - intros bt label G Hin. destruct Hp as [_ Hval].
    destruct (Hval bt G) as [_ ->]. cbn [In] in Hin.
    repeat (destruct Hin as [E|Hin];
            [injection E as <- <-; reflexivity|]).
    destruct Hin.
  - intros bt G Hn. destruct Hp as [_ Hval].
    destruct (Hval bt G) as [_ ->].
    now rewrite (proj2 (price_of_table bt) Hn).
Qed.

(* ================================================================== *)
(** ** The statements at sample inputs *)
(* ================================================================== *)

Lemma C2_validation_failure_witness :
  let u := "see you on 2020-01-01 at 25:00" in
  let errors :=
    fst (BookingFlow._validate_extracted_data Samples.clock
           (BookingFlow._extract_booking_info Samples.no_llm u Dict.empty)
           Dict.empty) in
  Datetime.clock_ok Samples.clock /\
  errors = [("date", BookingFlow.msg_date_past "2020-01-01" 2498);
            ("time", BookingFlow.msg_time_hours "25:00")] /\
  BookingFlow.handle_booking_intent Samples.mail_ok Samples.no_llm
    Samples.clock u Dict.empty false Samples.fresh
  = ((BookingFlow.error_response errors, Dict.empty, false, false),
     Samples.fresh) /\
  Py.replace "_" " " (hd EmptyString (Dict.keys errors)) = "date".
Proof.
  cbv zeta. split; [exact sample_clock_ok|].
  split; [vm_compute; reflexivity|].
  split; [|vm_compute; reflexivity].
  refine (proj1 (C2_validation_failure Samples.mail_ok Samples.no_llm
                   Samples.clock "see you on 2020-01-01 at 25:00" Dict.empty
                   Samples.fresh sample_clock_ok _)).
  vm_compute. discriminate.
Defined.

Lemma C9_llm_service_accepted_witness :
  let d := [("name", "Al Bo")] in
  let d' :=
    snd (fst (fst (fst (BookingFlow.handle_booking_intent Samples.mail_ok
                          Samples.dog_llm Samples.clock "dog walking" d false
                          Samples.fresh)))) in
  BookingFlow.keyword_service (Py.strip (Py.lower "dog walking")) = None /\
  BookingFlow.clean_reply " 'Dog Walking' " = "Dog Walking" /\
  BookingFlow.service_get "Dog Walking" = None /\
  Dict.get "booking_type" d' = Some "Dog Walking" /\
  Dict.get "pricing" d' = Some "Free".
Proof.
  cbv zeta. split; [reflexivity|]. split; [reflexivity|].
  split; [reflexivity|].
  destruct (C9_llm_service_accepted Samples.mail_ok Samples.dog_llm
              Samples.clock "dog walking" [("name", "Al Bo")] Samples.fresh
              " 'Dog Walking' " sample_clock_ok eq_refl eq_refl eq_refl
              eq_refl)
    as (_ & Hb & _ & Hfree).
  - vm_compute. discriminate.
  - vm_compute. discriminate.
  - vm_compute. lia.
  - vm_compute. reflexivity.
  - split; [exact Hb | exact (Hfree eq_refl)].
Defined.

(** One turn from the empty session. *)
Lemma haircut_reachable :
  reachable [("booking_type", "Salon Service"); ("pricing", "$50")] false.
Proof.
  pose proof (reach_turn Database.t Database_store Samples.mail_ok
                Samples.no_llm Samples.clock "I want a haircut" Dict.empty
                false Samples.fresh reach_start sample_clock_ok) as R.
  vm_compute in R. exact R.
Qed.

Lemma C7_price_follows_service_witness :
  reachable [("booking_type", "Salon Service"); ("pricing", "$50")] false /\
  priced [("booking_type", "Salon Service"); ("pricing", "$50")] /\
  forall label,
    In ("Salon Service", label)
       [("Doctor Appointment", "$100"); ("Salon Service", "$50");
        ("Hotel Reservation", "$150"); ("Event Booking", "$200");
        ("Fitness Class", "$30"); ("Restaurant Reservation", "Free");
        ("Travel Booking", "$500"); ("Spa Treatment", "$120");
        ("Consultation", "$80")] ->
    Dict.get "pricing" [("booking_type", "Salon Service"); ("pricing", "$50")]
    = Some label.
Proof.
  split; [exact haircut_reachable|].
  pose proof (C7_price_follows_service _ _ haircut_reachable)
    as (P & _ & _ & _ & _ & _ & T & _).
  split; [exact P|]. intros label Hin. exact (T _ label eq_refl Hin).
Defined.

(** A whole dialogue on the sample clock: six turns fill the draft, the
    seventh confirms it and the booking is written once. *)
Example booking_dialogue :
  let turn u (st : Dict.t * bool * World Database.t) :=
    let '(d, a, w) := st in
    let '(out, w') :=
      BookingFlow.handle_booking_intent Samples.mail_ok Samples.no_llm
        Samples.clock u d a w in
    (next_session out, w') in
  let s6 :=
    turn "14:30"
      (turn "2026-12-01"
        (turn "9876543210"
          (turn "john@example.com"
            (turn "john smith"
              (turn "I want to book a massage"
                    (Dict.empty, false, Samples.fresh)))))) in
  fst s6
  = ([("booking_type", "Spa Treatment"); ("pricing", "$120");
      ("name", "John Smith"); ("email", "john@example.com");
      ("phone", "9876543210"); ("date", "2026-12-01"); ("time", "14:30")],
     true) /\
  let s7 := turn "yes" s6 in
  fst s7 = (Dict.empty, false) /\
  List.length (save_calls (snd s7)) = 1%nat /\
  map Database.b_booking_type (Database.bookings (store (snd s7)))
  = ["Spa Treatment"].
Proof. vm_compute. repeat split; reflexivity. Qed.


(* ================================================================== *)
(** ** Further properties of the booking flow *)
(* ================================================================== *)

Section TurnFacts.

Import BookingFlow Py.

Context {S : Type} `{BookingStore S}.
Variable notifier : Notifier.
Variable llm : LLM.
Variable now : Datetime.datetime.

Lemma filter_negb_nil (A : Type) (p : A -> bool) (l : list A) :
  filter (fun x => negb (p x)) l = [] <-> forallb p l = true.
Proof.
  induction l as [|x l IH]; simpl; [tauto|].
  destruct (p x); simpl; [exact IH|]. split; discriminate.
Qed.

(** The collecting turn after a clean validation, with its flag. *)
Lemma collecting_ok_flag (u : string) (d : Dict.t) (w : World S) :
  fst (_validate_extracted_data now (_extract_booking_info llm u d) d) = [] ->
  exists resp,
    handle_booking_intent notifier llm now u d false w
    = ((resp, merged llm now u d, complete (merged llm now u d), false), w).
Proof.
  intros He. unfold handle_booking_intent, merged, complete.
  destruct (_validate_extracted_data now _ d) as [errors ex'].
  cbn [fst snd] in *. subst errors. cbv zeta.
  destruct (filter _ required_fields) eqn:F; unfold ret.
  - apply filter_negb_nil in F. rewrite F. now eexists.
  - assert (N : forallb (fun f => Dict.filled f
                           (fill_pricing (Dict.update d ex')))
                        required_fields = false).
    { destruct (forallb _ required_fields) eqn:E; [|reflexivity].
      apply filter_negb_nil in E. rewrite E in F. discriminate F. }
    rewrite N. now eexists.
Qed.

(** X1. A collecting turn never writes: the store and both logs come back
    as they were and the turn is never reported as completed.  It ends in
    the confirming state exactly when validation found nothing and every
    required field of the returned draft is filled. *)
Theorem collecting_turn_is_read_only (u : string) (d : Dict.t) (w : World S) :
  let res := handle_booking_intent notifier llm now u d false w in
  let errors :=
    fst (_validate_extracted_data now (_extract_booking_info llm u d) d) in
  snd res = w /\
  snd (fst res) = false /\
  (snd (fst (fst res)) = true <->
   errors = [] /\ complete (snd (fst (fst (fst res)))) = true).
Proof.
  cbv zeta.
  destruct (fst (_validate_extracted_data now
                   (_extract_booking_info llm u d) d)) eqn:E.
  - destruct (collecting_ok_flag u d w E) as (resp & ->). cbn [fst snd].
    split; [reflexivity|]. split; [reflexivity|]. tauto.
  - pose proof (collecting_failed notifier llm now u d w) as F.
    cbv zeta in F. rewrite E in F. rewrite F by discriminate. cbn [fst snd].
    split; [reflexivity|]. split; [reflexivity|].
    split; [intros Q; discriminate Q | intros [Q _]; discriminate Q].
Qed.

Lemma fill_pricing_keeps (d : Dict.t) (k v : string) :
  Dict.get k d = Some v -> Dict.get k (fill_pricing d) = Some v.
Proof.
  intros G. unfold fill_pricing.
  destruct (Dict.get "booking_type" d); [|exact G].
  destruct (negb (Dict.mem "pricing" d)) eqn:M; [|exact G].
  apply negb_true_iff in M.
  destruct (String.eqb_spec "pricing" k) as [<-|Hne].
  - unfold Dict.mem in M. rewrite G in M. discriminate M.
  - now rewrite get_set_other.
Qed.

(** X2. A collecting turn never changes or removes a value the draft
    already holds: whatever the utterance, every key of the draft comes back
    with the value it had. *)
Theorem collecting_turn_keeps_values (u : string) (d : Dict.t) (w : World S)
    (k v : string) :
  Dict.get k d = Some v ->
  Dict.get k
    (snd (fst (fst (fst (handle_booking_intent notifier llm now u d false
                           w))))) = Some v.
Proof.
  intros G.
  destruct (fst (_validate_extracted_data now
                   (_extract_booking_info llm u d) d)) eqn:E.
  - destruct (collecting_ok_flag u d w E) as (resp & ->). cbn [fst snd].
    unfold merged. apply fill_pricing_keeps.
    destruct (validated_fresh llm now u d) as (_ & Ha & _).
    assert (M : Dict.mem k d = true) by (unfold Dict.mem; now rewrite G).
    pose proof (Ha k M) as N. unfold Dict.mem in N.
    rewrite get_update_none; [exact G|].
    destruct (Dict.get k (snd _)); [discriminate N | reflexivity].
  - pose proof (collecting_failed notifier llm now u d w) as F.
    cbv zeta in F. rewrite E in F. rewrite F by discriminate. exact G.
Qed.

End TurnFacts.

Lemma collecting_turn_keeps_values_witness :
  Dict.get "email" [("email", "old@example.org")] = Some "old@example.org" /\
  Dict.get "email"
    (snd (fst (fst (fst (BookingFlow.handle_booking_intent Samples.mail_ok
                           Samples.no_llm Samples.clock
                           "write to new@example.com at 9:30"
                           [("email", "old@example.org")] false
                           Samples.fresh)))))
  = Some "old@example.org".
Proof.
  split; [reflexivity|].
  apply (collecting_turn_keeps_values Samples.mail_ok Samples.no_llm
           Samples.clock "write to new@example.com at 9:30"
           [("email", "old@example.org")] Samples.fresh "email"
           "old@example.org" eq_refl).
Defined.

Section PersistenceFacts.

Import BookingFlow Py.

Context {S : Type} `{BookingStore S}.
Variable notifier : Notifier.
Variable llm : LLM.
Variable now : Datetime.datetime.

(** A draft that passes the three guards reaches the store. *)
Lemma save_booking_persistable (d : Dict.t) (w : World S) :
  persistable d ->
  _save_booking d w
  = (fst (store_call d (store w)),
     mk_world (snd (store_call d (store w)))
              (save_calls w ++ [d])%list (mail_calls w)).
Proof.
  intros (Hall & He & Hd).
  unfold _save_booking, bind, note_save, ret, db_create_booking, store_call.
  cbv beta iota zeta.
  change ["name"; "email"; "phone"; "booking_type"; "date"; "time"]
    with required_fields.
  destruct (find _ required_fields) as [f0|] eqn:F.
  - apply find_some in F as [Hin Hf]. rewrite (Hall f0 Hin) in Hf.
    discriminate Hf.
  - rewrite He. cbn [negb].
    destruct (Datetime.strptime_Ymd _); [|contradiction].
    cbn [store save_calls mail_calls].
    now destruct (create_booking _ _ _ _ _ _ _).
Qed.

(** X3. [_save_booking] reaches the store exactly for a draft with the six
    fields filled, a well-shaped email and a readable date, and then its
    answer is the store's.  For any other draft it answers with an error
    text and leaves the store as it was; when a field is missing or empty
    the text names the first such field in the order name, email, phone,
    booking_type, date, time. *)
Theorem save_booking_guards (d : Dict.t) (w : World S) :
  (persistable d ->
   _save_booking d w
   = (fst (store_call d (store w)),
      mk_world (snd (store_call d (store w)))
               (save_calls w ++ [d])%list (mail_calls w))) /\
  (~ persistable d ->
   exists text,
     _save_booking d w
     = (inl text,
        mk_world (store w) (save_calls w ++ [d])%list (mail_calls w))) /\
  (forall f,
     find (fun field => negb (Dict.filled field d)) required_fields = Some f ->
     fst (_save_booking d w) = inl ("Missing: " ++ f)).
Proof.
  unfold _save_booking, bind, note_save, ret, db_create_booking, store_call.
  cbv beta iota zeta.
  change ["name"; "email"; "phone"; "booking_type"; "date"; "time"]
    with required_fields.
  destruct (find _ required_fields) as [f0|] eqn:F.
  - split; [|split].
    + intros (Hall & _). apply find_some in F as [Hin Hf].
      rewrite (Hall f0 Hin) in Hf. discriminate Hf.
    + intros _. now eexists.
    + intros f E. injection E as <-. reflexivity.
  - split; [|split]; [| |discriminate].
    + intros (_ & He & Hd). rewrite He. cbn [negb].
      destruct (Datetime.strptime_Ymd _); [|contradiction].
      cbn [store save_calls mail_calls].
      now destruct (create_booking _ _ _ _ _ _ _).
    + intros Hn.
      destruct (Re.matches email_re_anchored (item "email" d)) eqn:He;
        cbn [negb]; [|now eexists].
      destruct (Datetime.strptime_Ymd (item "date" d)) eqn:Hd;
        [|now eexists].
      exfalso. apply Hn. split; [|split].
      * intros f Hin. pose proof (find_none _ _ F f Hin) as Q.
        now apply negb_false_iff in Q.
      * exact He.
      * rewrite Hd. discriminate.
Qed.

Lemma verdict_none_email (ex : Dict.t) (e : string) :
  email_verdict ex = None -> Dict.get "email" ex = Some e ->
  Re.matches email_re_anchored e = true.
Proof.
  unfold email_verdict, check_email. intros V G. rewrite G in V.
  destruct (Re.matches email_re_anchored e); [reflexivity|].
  discriminate V.
Qed.

Lemma verdict_none_date (ex : Dict.t) (s : string) :
  date_verdict now ex = None -> Dict.get "date" ex = Some s ->
  Datetime.strptime_Ymd s <> None.
Proof.
  intros V G. rewrite (date_verdict_spec now ex s G) in V.
  destruct (Datetime.strptime_Ymd s); [discriminate | discriminate V].
Qed.

Lemma no_errors_verdicts (ex known : Dict.t) :
  fst (_validate_extracted_data now ex known) = [] ->
  email_verdict ex = None /\ phone_verdict ex = None /\
  date_verdict now ex = None /\ time_verdict now known ex = None /\
  name_verdict ex = None.
Proof.
  rewrite validate_collects_all.
  destruct (email_verdict ex), (phone_verdict ex), (date_verdict now ex),
    (time_verdict now known ex), (name_verdict ex); intros E;
    try discriminate E.
  repeat split.
Qed.

Lemma get_update_cases (k v : string) (e d : Dict.t) :
  Dict.wf e -> Dict.get k (Dict.update d e) = Some v ->
  Dict.get k e = Some v \/ Dict.get k d = Some v.
Proof.
  intros Hw G. destruct (Dict.get k e) as [v'|] eqn:E.
  - rewrite (get_update_some k v' e d Hw E) in G. now left.
  - rewrite (get_update_none k e d E) in G. now right.
Qed.

Lemma fill_pricing_other (d : Dict.t) (k : string) :
  k <> "pricing" -> Dict.get k (fill_pricing d) = Dict.get k d.
Proof.
  intros Hk. unfold fill_pricing.
  destruct (Dict.get "booking_type" d); [|reflexivity].
  destruct (negb _); [|reflexivity].
  apply get_set_other. congruence.
Qed.

Lemma merged_validated (u : string) (d : Dict.t) :
  fst (_validate_extracted_data now (_extract_booking_info llm u d) d) = [] ->
  validated d -> validated (merged llm now u d).
Proof.
  intros He [Vemail Vdate].
  destruct (no_errors_verdicts _ _ He) as (Ve & _ & Vd & _).
  destruct (validated_fresh llm now u d) as (Hw & _).
  unfold merged.
  set (ex := _extract_booking_info llm u d) in *.
  set (ex' := snd (_validate_extracted_data now ex d)) in *.
  assert (Fr : forall k, k <> "time" -> Dict.get k ex' = Dict.get k ex)
    by (intros k Hk; subst ex'; rewrite validate_snd;
        now apply check_time_frame).
  split.
  - intros e G. rewrite fill_pricing_other in G by discriminate.
    apply (get_update_cases _ _ _ _ Hw) in G as [G|G]; [|now apply Vemail].
    rewrite Fr in G by discriminate. now apply (verdict_none_email ex).
  - intros s G. rewrite fill_pricing_other in G by discriminate.
    apply (get_update_cases _ _ _ _ Hw) in G as [G|G]; [|now apply Vdate].
    rewrite Fr in G by discriminate. now apply (verdict_none_date ex).
Qed.

(** A confirming turn ends with the empty session or with the session it
    started from. *)
Lemma confirming_next (u : string) (d : Dict.t) (w : World S) :
  let st := next_session
              (fst (handle_booking_intent notifier llm now u d true w)) in
  st = (Dict.empty, false) \/ st = (d, true).
Proof.
  cbv zeta.
  change (handle_booking_intent notifier llm now u d true w)
    with (_handle_confirmation notifier u d w).
  unfold _handle_confirmation. cbv zeta.
  destruct (contains_any affirmative _).
  - unfold bind at 1. destruct (_save_booking d w) as [r w1].
    destruct r; left; reflexivity.
  - destruct (contains_any negative _); [left | right]; reflexivity.
Qed.

(** One turn keeps the draft validated, and a turn that ends in the
    confirming state ends with a complete draft. *)
Lemma turn_validated (u : string) (d : Dict.t) (a : bool) (w : World S) :
  validated d /\ (a = true -> complete d = true) ->
  let st := next_session
              (fst (handle_booking_intent notifier llm now u d a w)) in
  validated (fst st) /\ (snd st = true -> complete (fst st) = true).
Proof.
  intros [Hv Hc]. cbv zeta.
  assert (Hempty : validated Dict.empty) by (split; discriminate).
  destruct a.
  - destruct (confirming_next u d w) as [-> | ->]; cbn [fst snd].
    + split; [exact Hempty | intros Q; discriminate Q].
    + split; [exact Hv | intros _; now apply Hc].
  - destruct (fst (_validate_extracted_data now
                     (_extract_booking_info llm u d) d)) eqn:E.
    + destruct (collecting_ok_flag notifier llm now u d w E) as (resp & ->).
      cbn [fst snd next_session].
      split; [now apply merged_validated | tauto].
    + pose proof (collecting_failed notifier llm now u d w) as F.
      cbv zeta in F. rewrite E in F. rewrite F by discriminate.
      cbn [fst snd next_session].
      split; [exact Hv | intros Q; discriminate Q].
Qed.

(** X4. Whether the confirmation email goes out changes nothing but the
    text of the answer: with any two notifiers a turn leaves the same
    store, the same logs, the same draft and the same two flags. *)
Theorem notifier_only_changes_text (other : Notifier) (u : string)
    (d : Dict.t) (a : bool) (w : World S) :
  let r1 := handle_booking_intent notifier llm now u d a w in
  let r2 := handle_booking_intent other llm now u d a w in
  snd r1 = snd r2 /\
  snd (fst (fst (fst r1))) = snd (fst (fst (fst r2))) /\
  snd (fst (fst r1)) = snd (fst (fst r2)) /\
  snd (fst r1) = snd (fst r2).
Proof.
  cbv zeta. destruct a; [|repeat split; reflexivity].
  change (handle_booking_intent notifier llm now u d true w)
    with (_handle_confirmation notifier u d w).
  change (handle_booking_intent other llm now u d true w)
    with (_handle_confirmation other u d w).
  destruct (contains_any affirmative (strip (lower u))) eqn:Ha.
  - rewrite (affirmative_branch notifier u d w Ha),
      (affirmative_branch other u d w Ha).
    destruct (_save_booking d w) as [r w1].
    destruct r; repeat split; reflexivity.
  - unfold _handle_confirmation. cbv zeta. rewrite Ha.
    destruct (contains_any negative _); repeat split; reflexivity.
Qed.

End PersistenceFacts.

Lemma validated_complete_persistable (d : Dict.t) :
  validated d -> complete d = true -> persistable d.
Proof.
  intros [Ve Vd] Hc. unfold complete in Hc. rewrite forallb_forall in Hc.
  split; [exact Hc|].
  assert (P : forall k, In k BookingFlow.required_fields ->
                exists v, Dict.get k d = Some v /\ BookingFlow.item k d = v).
  { intros k Hin. pose proof (Hc k Hin) as Q.
    unfold Dict.filled in Q. unfold BookingFlow.item.
    destruct (Dict.get k d) as [v|]; [now exists v | discriminate Q]. }
  split.
  - destruct (P "email" ltac:(simpl; tauto)) as (v & G & ->). now apply Ve.
  - destruct (P "date" ltac:(simpl; tauto)) as (v & G & ->). now apply Vd.
Qed.

(** What holds of every reachable session. *)
Lemma reachable_invariant (d : Dict.t) (a : bool) :
  reachable d a ->
  validated d /\ (a = true -> complete d = true).
Proof.
  intros Hr.
  induction Hr as [|S St notifier llm now u d a w Hr IH Hclock out].
  - split; [split; discriminate | intros Q; discriminate Q].
  - subst out. now apply turn_validated.
Qed.

(** X5. Every draft the state machine can reach passed the email and date
    checks when its values came in, and a session that is waiting for the
    confirmation holds a draft [_save_booking] will hand to the store: the
    re-validation before the write never turns away a draft that reached
    the confirmation step. *)
Theorem confirming_draft_is_persistable (d : Dict.t) (a : bool) :
  reachable d a ->
  validated d /\ (a = true -> persistable d).
Proof.
  intros Hr. destruct (reachable_invariant d a Hr) as [Hv Hc].
  split; [exact Hv|].
  intros Ha. apply validated_complete_persistable; auto.
Qed.

(** An affirmative reply in a reachable confirming session goes through
    to the store. *)
Lemma confirmed_outcome {S : Type} `{BookingStore S} (notifier : Notifier)
    (llm : LLM) (now : Datetime.datetime) (u : string) (d : Dict.t)
    (w : World S) :
  reachable d true ->
  Py.contains_any BookingFlow.affirmative (Py.strip (Py.lower u)) = true ->
  BookingFlow.handle_booking_intent notifier llm now u d true w
  = after_save notifier d (fst (store_call d (store w)))
      (mk_world (snd (store_call d (store w))) (save_calls w ++ [d])%list
                (mail_calls w)).
Proof.
  intros Hr Hu.
  destruct (reachable_invariant d true Hr) as [Hv Hc].
  pose proof (validated_complete_persistable d Hv (Hc eq_refl)) as Hp.
  assert (E : BookingFlow.handle_booking_intent notifier llm now u d true w
              = after_save notifier d
                  (fst (BookingFlow._save_booking d w))
                  (snd (BookingFlow._save_booking d w)))
    by (simpl; now apply affirmative_branch).
  now rewrite (save_booking_persistable d w Hp) in E.
Qed.

(** X6. On the SQLite store, an affirmative reply in a session waiting for
    the confirmation books the draft: the answer is the confirmation text
    with the new id, the session starts afresh, the notifier is asked once,
    and the bookings table gains exactly one row, with the next id, the
    service, date and time of the draft and the status confirmed, linked to
    a customer carrying the draft's name, email and phone. *)
Theorem confirmed_draft_is_booked (notifier : Notifier) (llm : LLM)
    (now : Datetime.datetime) (u : string) (d : Dict.t)
    (w : World Database.t) :
  reachable d true ->
  Py.contains_any BookingFlow.affirmative (Py.strip (Py.lower u)) = true ->
  let res := BookingFlow.handle_booking_intent notifier llm now u d true w in
  let booking_id := Database.next_booking (store w) in
  fst res
  = (BookingFlow.confirmed_message d booking_id (notifier d booking_id),
     Dict.empty, false, true) /\
  save_calls (snd res) = (save_calls w ++ [d])%list /\
  mail_calls (snd res) = (mail_calls w ++ [(d, booking_id)])%list /\
  exists cid,
    Database.bookings (store (snd res))
    = (Database.bookings (store w)
       ++ [Database.mk_booking booking_id cid
             (BookingFlow.item "booking_type" d) (BookingFlow.item "date" d)
             (BookingFlow.item "time" d) "confirmed"])%list /\
    In (Database.mk_customer cid (BookingFlow.item "name" d)
          (BookingFlow.item "email" d) (BookingFlow.item "phone" d))
       (Database.customers (store (snd res))).
Proof.
  intros Hr Hu res booking_id.
  pose proof (confirmed_outcome notifier llm now u d w Hr Hu) as E.
  fold res in E. unfold store_call in E.
  cbn [create_booking Database_store fst snd] in E.
  unfold Database.create_booking in E.
  destruct (Database.find_customer (BookingFlow.item "email" d) (store w))
    as [c|] eqn:Fc; cbn [fst snd after_save store save_calls mail_calls
                         Database.bookings Database.customers
                         Database.next_booking Database.update_customer] in E;
    rewrite E; cbn [fst snd store save_calls mail_calls Database.bookings
                    Database.customers];
    (split; [reflexivity|]); (split; [reflexivity|]);
    (split; [reflexivity|]).
  - exists (Database.customer_id c). split; [reflexivity|].
    unfold Database.find_customer in Fc. apply find_some in Fc as [Hin He].
    apply String.eqb_eq in He. apply in_map_iff. exists c.
    split; [|exact Hin]. rewrite Z.eqb_refl. now rewrite He.
  - exists (Database.next_customer (store w)). split; [reflexivity|].
    apply in_or_app. right. now left.
Qed.

(* ================================================================== *)
(** ** The store *)
(* ================================================================== *)

Section DatabaseFacts.

Import Database.
Open Scope Z_scope.

Lemma NoDup_map_eq (A B : Type) (f : A -> B) (l : list A) (x y : A) :
  NoDup (map f l) -> In x l -> In y l -> f x = f y -> x = y.
Proof.
  induction l as [|a l IH]; simpl; [tauto|].
  intros Hnd Hx Hy E. inversion Hnd as [|? ? Hnotin Hnd']; subst.
  destruct Hx as [->|Hx], Hy as [->|Hy]; auto.
  - exfalso. apply Hnotin. rewrite E. now apply in_map.
  - exfalso. apply Hnotin. rewrite <- E. now apply in_map.
Qed.

Lemma hd_filter_unique (A : Type) (p : A -> bool) (l : list A) (r : A) :
  In r l -> p r = true ->
  (forall x, In x l -> p x = true -> x = r) ->
  hd_error (filter p l) = Some r.
Proof.
  induction l as [|a l IH]; simpl; [tauto|].
  intros Hin Hr Hu. destruct (p a) eqn:Pa.
  - simpl. f_equal. apply Hu; auto.
  - destruct Hin as [->|Hin]; [congruence|].
    apply IH; auto.
Qed.

Lemma hd_filter_none (A : Type) (p : A -> bool) (l : list A) :
  (forall x, In x l -> p x = false) -> hd_error (filter p l) = None.
Proof.
  induction l as [|a l IH]; simpl; [reflexivity|].
  intros Hn. rewrite (Hn a) by auto. apply IH. auto.
Qed.

Lemma in_joined (db : t) (r : row) :
  In r (joined db) <->
  exists b c, In b (bookings db) /\ In c (customers db) /\
              customer_id c = b_customer_id b /\ r = row_of b c.
Proof.
  unfold joined. rewrite in_flat_map. split.
  - intros (b & Hb & Hr). apply in_map_iff in Hr as (c & <- & Hc).
    apply filter_In in Hc as [Hc E]. apply Z.eqb_eq in E.
    now exists b, c.
  - intros (b & c & Hb & Hc & E & ->). exists b. split; [exact Hb|].
    apply in_map_iff. exists c. split; [reflexivity|].
    apply filter_In. split; [exact Hc|]. now apply Z.eqb_eq.
Qed.

Lemma get_booking_found (db : t) (b : booking) (c : customer) :
  db_consistent db -> In b (bookings db) -> In c (customers db) ->
  customer_id c = b_customer_id b ->
  get_booking_by_id (id b) db = Some (row_of b c).
Proof.
  intros (Hc & _ & Hb & _) Inb Inc E. unfold get_booking_by_id.
  apply hd_filter_unique.
  - apply in_joined. now exists b, c.
  - apply Z.eqb_refl.
  - intros x Hx Px. apply in_joined in Hx as (b' & c' & Inb' & Inc' & E' & ->).
    cbn in Px. apply Z.eqb_eq in Px.
    assert (b' = b) by (apply (NoDup_map_eq _ _ id (bookings db)); auto).
    subst b'.
    assert (c' = c)
      by (apply (NoDup_map_eq _ _ customer_id (customers db)); auto;
          congruence).
    now subst c'.
Qed.

Lemma get_booking_absent (db : t) (i : Z) :
  (forall b, In b (bookings db) -> id b <> i) ->
  get_booking_by_id i db = None.
Proof.
  intros Hn. unfold get_booking_by_id. apply hd_filter_none.
  intros x Hx. apply in_joined in Hx as (b & c & Inb & _ & _ & ->).
  cbn. apply Z.eqb_neq. now apply Hn.
Qed.

Lemma find_customer_spec (db : t) (email : string) :
  match find_customer email db with
  | Some c => In c (customers db) /\ c_email c = email
  | None => forall c, In c (customers db) -> c_email c <> email
  end.
Proof.
  unfold find_customer. destruct (find _ _) as [c|] eqn:F.
  - apply find_some in F as [Hin E]. now apply String.eqb_eq in E.
  - intros c Hin E. pose proof (find_none _ _ F c Hin) as Q. cbn in Q.
    rewrite E, String.eqb_refl in Q. discriminate Q.
Qed.

Lemma update_customer_ids (cid : Z) (name phone : string) (l : list customer) :
  map customer_id
    (map (fun c => if customer_id c =? cid
                   then mk_customer cid name (c_email c) phone else c) l)
  = map customer_id l /\
  map c_email
    (map (fun c => if customer_id c =? cid
                   then mk_customer cid name (c_email c) phone else c) l)
  = map c_email l.
Proof.
  induction l as [|c l [IH1 IH2]]; simpl; [split; reflexivity|].
  rewrite IH1, IH2.
  destruct (Z.eqb_spec (customer_id c) cid) as [E|E]; cbn;
    [rewrite E|]; split; reflexivity.
Qed.

Lemma create_booking_consistent (db : t)
    (name email phone booking_type date time : string) :
  db_consistent db ->
  db_consistent (snd (create_booking db name email phone booking_type date
                        time)).
Proof.
  intros (Hc & He & Hb & Lc & Lb & Fk). unfold create_booking.
  pose proof (find_customer_spec db email) as Fs.
  destruct (find_customer email db) as [c0|]; unfold db_consistent;
    cbn [fst snd customers bookings next_customer next_booking
         update_customer].
  - destruct Fs as [In0 E0].
    destruct (update_customer_ids (customer_id c0) name phone (customers db))
      as [M1 M2].
    repeat split.
    + now rewrite M1.
    + now rewrite M2.
    + rewrite map_app. cbn. apply NoDup_app; [exact Hb | repeat constructor;
        simpl; tauto |].
      intros x Hx [E|[]]. apply in_map_iff in Hx as (b & Eb & Inb).
      pose proof (Lb b Inb). lia.
    + intros c Hin. apply in_map_iff in Hin as (c' & <- & Hin).
      destruct (Z.eqb_spec (customer_id c') (customer_id c0)); cbn;
        [apply (Lc c0 In0) | apply (Lc c' Hin)].
    + intros b Hin. apply in_app_or in Hin as [Hin|[<-|[]]]; cbn;
        [pose proof (Lb b Hin) |]; lia.
    + intros b Hin. apply in_app_or in Hin as [Hin|[<-|[]]]; cbn.
      * destruct (Fk b Hin) as (c & Hc' & Ec).
        exists (if customer_id c =? customer_id c0
                then mk_customer (customer_id c0) name (c_email c) phone
                else c).
        split; [apply in_map_iff; now exists c|].
        destruct (Z.eqb_spec (customer_id c) (customer_id c0)); cbn;
          congruence.
      * exists (mk_customer (customer_id c0) name (c_email c0) phone).
        split; [|reflexivity]. apply in_map_iff. exists c0.
        split; [now rewrite Z.eqb_refl | exact In0].
  - repeat split.
    + rewrite map_app. cbn. apply NoDup_app; [exact Hc | repeat constructor;
        simpl; tauto |].
      intros x Hx [E|[]]. apply in_map_iff in Hx as (c & Ec & Inc).
      pose proof (Lc c Inc). lia.
    + rewrite map_app. cbn. apply NoDup_app; [exact He | repeat constructor;
        simpl; tauto |].
      intros x Hx [E|[]]. apply in_map_iff in Hx as (c & Ec & Inc).
      apply (Fs c Inc). congruence.
    + rewrite map_app. cbn. apply NoDup_app; [exact Hb | repeat constructor;
        simpl; tauto |].
      intros x Hx [E|[]]. apply in_map_iff in Hx as (b & Eb & Inb).
      pose proof (Lb b Inb). lia.
    + intros c Hin. apply in_app_or in Hin as [Hin|[<-|[]]]; cbn;
        [pose proof (Lc c Hin) |]; lia.
    + intros b Hin. apply in_app_or in Hin as [Hin|[<-|[]]]; cbn;
        [pose proof (Lb b Hin) |]; lia.
    + intros b Hin. apply in_app_or in Hin as [Hin|[<-|[]]]; cbn.
      * destruct (Fk b Hin) as (c & Hc' & Ec). exists c.
        split; [apply in_or_app; now left | exact Ec].
      * exists (mk_customer (next_customer db) name email phone).
        split; [apply in_or_app; right; now left | reflexivity].
Qed.

Lemma status_ids (i : Z) (status : string) (l : list booking) :
  map id (map (fun b => if id b =? i
                        then mk_booking (id b) (b_customer_id b)
                               (b_booking_type b) (b_date b) (b_time b) status
                        else b) l)
  = map id l.
Proof.
  induction l as [|b l IH]; simpl; [reflexivity|]. rewrite IH.
  now destruct (id b =? i).
Qed.

Lemma update_status_consistent (db : t) (i : Z) (status : string) :
  db_consistent db -> db_consistent (snd (update_booking_status i status db)).
Proof.
  intros (Hc & He & Hb & Lc & Lb & Fk). unfold update_booking_status.
  cbn [snd]. repeat split; cbn [customers bookings next_customer next_booking];
    try assumption.
  - now rewrite status_ids.
  - intros b Hin. apply in_map_iff in Hin as (b' & <- & Hin).
    destruct (id b' =? i); cbn; now apply Lb.
  - intros b Hin. apply in_map_iff in Hin as (b' & <- & Hin).
    destruct (Fk b' Hin) as (c & Inc & E). exists c.
    split; [exact Inc|]. now destruct (id b' =? i).
Qed.

(** Deleting rows keeps a key of the table unique. *)
Lemma NoDup_map_filter (Row Key : Type) (key : Row -> Key)
    (keep : Row -> bool) (rows : list Row) :
  NoDup (map key rows) -> NoDup (map key (filter keep rows)).
Proof.
  induction rows as [|a rows IH]; simpl; [auto|].
  intros Hnd. inversion Hnd as [|? ? Hnotin Hnd']; subst.
  destruct (keep a); simpl; [|now apply IH].
  constructor; [|now apply IH].
  intros Hin. apply Hnotin. apply in_map_iff in Hin as (x & E & Hx).
  apply filter_In in Hx as [Hx _]. apply in_map_iff. now exists x.
Qed.

Lemma delete_consistent (db : t) (i : Z) :
  db_consistent db -> db_consistent (snd (delete_booking i db)).
Proof.
  intros (Hc & He & Hb & Lc & Lb & Fk). unfold delete_booking.
  cbn [snd]. repeat split; cbn [customers bookings next_customer next_booking];
    try assumption.
  - now apply NoDup_map_filter.
  - intros b Hin. apply filter_In in Hin as [Hin _]. now apply Lb.
  - intros b Hin. apply filter_In in Hin as [Hin _]. now apply Fk.
Qed.

Lemma empty_consistent : db_consistent empty.
Proof.
  repeat split; cbn; try constructor; intros ? [].
Qed.

Lemma step_consistent (db : t) (op : db_op) :
  db_consistent db -> db_consistent (db_step db op).
Proof.
  destruct op; cbn [db_step];
    [apply create_booking_consistent | apply update_status_consistent
     | apply delete_consistent].
Qed.

Lemma run_consistent (ops : list db_op) (db : t) :
  db_consistent db -> db_consistent (db_run ops db).
Proof.
  unfold db_run. revert db.
  induction ops as [|op ops IH]; intros db Hdb; [exact Hdb|].
  cbn [fold_left]. apply IH. now apply step_consistent.
Qed.

Lemma step_sequence_grows (db : t) (op : db_op) :
  next_booking db <= next_booking (db_step db op).
Proof.
  destruct op; cbn [db_step]; [|cbn; lia | cbn; lia].
  unfold create_booking. destruct (find_customer _ _); cbn; lia.
Qed.

Lemma run_sequence_grows (ops : list db_op) (db : t) :
  next_booking db <= next_booking (db_run ops db).
Proof.
  unfold db_run. revert db.
  induction ops as [|op ops IH]; intros db; [cbn; lia|].
  cbn [fold_left]. pose proof (step_sequence_grows db op).
  pose proof (IH (db_step db op)). lia.
Qed.

Lemma create_booking_id (db : t)
    (name email phone booking_type date time : string) :
  fst (create_booking db name email phone booking_type date time)
  = inr (next_booking db).
Proof.
  unfold create_booking. now destruct (find_customer _ _).
Qed.

(** X7. The tables stay consistent under everything the code does to
    them: starting from the empty database, after any sequence of bookings
    created, statuses changed and bookings deleted, customer ids, customer
    emails and booking ids are unique, and every booking is linked to a
    customer that exists. *)
Theorem store_stays_consistent (ops : list db_op) :
  db_consistent (db_run ops empty).
Proof. apply run_consistent, empty_consistent. Qed.

(** X8. Booking ids are never issued twice: the id a new booking gets is
    larger than every id the bookings table held at any earlier point,
    whatever was created, changed or deleted in between, so the id of a
    deleted booking does not come back. *)
Theorem booking_ids_never_reused (db : t) (b : booking) (ops : list db_op)
    (name email phone booking_type date time : string) :
  db_consistent db -> In b (bookings db) ->
  exists new_id,
    fst (create_booking (db_run ops db) name email phone booking_type date
           time) = inr new_id /\
    id b < new_id.
Proof.
  intros (_ & _ & _ & _ & Lb & _) Hin. exists (next_booking (db_run ops db)).
  split; [apply create_booking_id|].
  pose proof (Lb b Hin). pose proof (run_sequence_grows ops db). lia.
Qed.

End DatabaseFacts.

Section DatabaseReads.

Import Database.
Open Scope Z_scope.

Lemma hd_filter_in (A : Type) (p : A -> bool) (l : list A) (r : A) :
  hd_error (filter p l) = Some r -> In r l /\ p r = true.
Proof.
  intros E. assert (Hin : In r (filter p l)).
  { destruct (filter p l); [discriminate E|]. injection E as ->. now left. }
  now apply filter_In in Hin.
Qed.

(** Writing a booking and reading it. *)
Lemma create_then_get (db : t)
    (name email phone booking_type date time : string) :
  db_consistent db ->
  get_booking_by_id (next_booking db)
    (snd (create_booking db name email phone booking_type date time))
  = Some (mk_row (next_booking db) name email phone booking_type date time
                 "confirmed").
Proof.
  intros Hdb.
  pose proof (create_booking_consistent db name email phone booking_type
                date time Hdb) as Hdb'.
  unfold create_booking in *.
  pose proof (find_customer_spec db email) as Fs.
  destruct (find_customer email db) as [c0|];
    cbn [fst snd next_booking update_customer bookings customers] in *.
  - destruct Fs as [In0 E0].
    set (newb := mk_booking (next_booking db) (customer_id c0) booking_type
                            date time "confirmed").
    set (c' := mk_customer (customer_id c0) name (c_email c0) phone).
    transitivity (Some (row_of newb c'));
      [apply (get_booking_found _ newb c' Hdb'); cbn [bookings customers]|].
    4: { unfold row_of, newb, c'. cbn. now rewrite E0. }
    + apply in_or_app. right. now left.
    + apply in_map_iff. exists c0. split; [now rewrite Z.eqb_refl | exact In0].
    + reflexivity.
  - set (newb := mk_booking (next_booking db) (next_customer db) booking_type
                            date time "confirmed").
    set (c' := mk_customer (next_customer db) name email phone).
    transitivity (Some (row_of newb c'));
      [apply (get_booking_found _ newb c' Hdb'); cbn [bookings customers]|].
    4: reflexivity.
    + apply in_or_app. right. now left.
    + apply in_or_app. right. now left.
    + reflexivity.
Qed.

(** X9. A booking can be read back as it was written: on consistent tables
    [create_booking] answers with an id under which [get_booking_by_id]
    finds exactly the name, email, phone, service, date and time given, with
    the status confirmed. *)
Theorem created_booking_reads_back (db : t)
    (name email phone booking_type date time : string) :
  db_consistent db ->
  let res := create_booking db name email phone booking_type date time in
  fst res = inr (next_booking db) /\
  get_booking_by_id (next_booking db) (snd res)
  = Some (mk_row (next_booking db) name email phone booking_type date time
                 "confirmed").
Proof.
  intros Hdb res. subst res. split.
  - apply create_booking_id.
  - now apply create_then_get.
Qed.

(** X10. A customer is one row per email: when a booking is made under
    an email that already has bookings, the name and phone given now replace
    the earlier ones, so every earlier booking of that email reads back with
    the new name and phone; bookings of other emails read back unchanged. *)
Theorem rebooking_renames_customer (db : t) (i : Z) (r : row)
    (name email phone booking_type date time : string) :
  db_consistent db ->
  get_booking_by_id i db = Some r ->
  get_booking_by_id i
    (snd (create_booking db name email phone booking_type date time))
  = Some (if String.eqb (r_email r) email
          then mk_row (r_id r) name (r_email r) phone (r_booking_type r)
                      (r_date r) (r_time r) (r_status r)
          else r).
Proof.
  intros Hdb G.
  pose proof (create_booking_consistent db name email phone booking_type
                date time Hdb) as Hdb'.
  unfold get_booking_by_id in G. apply hd_filter_in in G as [Hin Hi].
  apply Z.eqb_eq in Hi.
  apply in_joined in Hin as (b & c & Inb & Inc & Ec & ->).
  cbn [row_of r_id r_email r_name r_phone r_booking_type r_date r_time
       r_status] in *. subst i.
  destruct Hdb as (Hc & He & _).
  unfold create_booking in *.
  pose proof (find_customer_spec db email) as Fs.
  destruct (find_customer email db) as [c0|];
    cbn [fst snd next_booking update_customer bookings customers] in *.
  - destruct Fs as [In0 E0].
    set (c' := if customer_id c =? customer_id c0
               then mk_customer (customer_id c0) name (c_email c) phone
               else c).
    match goal with
    | |- get_booking_by_id _ ?d = _ =>
        pose proof (get_booking_found d b c' Hdb') as G
    end.
    cbn [bookings customers] in G. rewrite G.
    + f_equal. unfold row_of, c'.
      destruct (String.eqb_spec (c_email c) email) as [E|E].
      * assert (c = c0)
          by (apply (NoDup_map_eq _ _ c_email (customers db)); auto;
              congruence).
        subst c0. now rewrite Z.eqb_refl.
      * destruct (Z.eqb_spec (customer_id c) (customer_id c0)) as [Ei|Ei];
          [|reflexivity].
        assert (c = c0)
          by (apply (NoDup_map_eq _ _ customer_id (customers db)); auto).
        subst c0. contradiction.
    + apply in_or_app. now left.
    + apply in_map_iff. now exists c.
    + unfold c'. destruct (customer_id c =? customer_id c0) eqn:Q;
        [apply Z.eqb_eq in Q; cbn; congruence | exact Ec].
  - match goal with
    | |- get_booking_by_id _ ?d = _ =>
        pose proof (get_booking_found d b c Hdb') as G
    end.
    cbn [bookings customers] in G. rewrite G.
    + f_equal. unfold row_of.
      destruct (String.eqb_spec (c_email c) email) as [E|E];
        [|reflexivity].
      exfalso. now apply (Fs c Inc).
    + apply in_or_app. now left.
    + apply in_or_app. now left.
    + exact Ec.
Qed.

Lemma joined_status (db : t) (i : Z) (status : string) :
  joined (snd (update_booking_status i status db))
  = map (with_status i status) (joined db).
Proof.
  unfold joined, update_booking_status. cbn [snd bookings customers].
  induction (bookings db) as [|b l IH]; [reflexivity|].
  cbn [map flat_map]. rewrite map_app, IH. f_equal.
  rewrite map_map. unfold with_status.
  destruct (id b =? i) eqn:E; cbn [b_customer_id id b_booking_type b_date
                                   b_time b_status r_id];
    rewrite ?E; reflexivity.
Qed.

Lemma joined_delete (db : t) (i : Z) :
  joined (snd (delete_booking i db))
  = filter (fun r => negb (r_id r =? i)) (joined db).
Proof.
  unfold joined, delete_booking. cbn [snd bookings customers].
  induction (bookings db) as [|b l IH]; [reflexivity|].
  cbn [filter flat_map]. rewrite filter_app, <- IH.
  destruct (id b =? i) eqn:E; cbn [negb flat_map].
  - rewrite <- app_nil_l at 1. f_equal. symmetry.
    induction (filter _ (customers db)) as [|c l' IH']; [reflexivity|].
    cbn. now rewrite E.
  - f_equal. symmetry.
    induction (filter _ (customers db)) as [|c l' IH']; [reflexivity|].
    cbn. rewrite E. cbn. now rewrite IH'.
Qed.

Lemma filter_map_comm (A : Type) (p : A -> bool) (f : A -> A) (l : list A) :
  (forall x, p (f x) = p x) ->
  filter p (map f l) = map f (filter p l).
Proof.
  intros Hp. induction l as [|a l IH]; simpl; [reflexivity|].
  rewrite Hp, IH. now destruct (p a).
Qed.

Lemma hd_error_map (A B : Type) (f : A -> B) (l : list A) :
  hd_error (map f l) = option_map f (hd_error l).
Proof. now destruct l. Qed.

(** X11. Changing a status and deleting act on one booking only.
    [update_booking_status] and [delete_booking] answer true exactly when
    a booking with the id exists.  After the status change that booking
    reads back with the new status and everything else as before; after
    the deletion it can no longer be read; in both cases every other
    booking reads back as it did, and no customer is touched. *)
Theorem status_and_delete_are_local (db : t) (i j : Z) (status : string) :
  let upd := update_booking_status i status db in
  let del := delete_booking i db in
  (fst upd = true <-> exists b, In b (bookings db) /\ id b = i) /\
  fst del = fst upd /\
  get_booking_by_id j (snd upd)
  = option_map (with_status i status) (get_booking_by_id j db) /\
  get_booking_by_id j (snd del)
  = (if j =? i then None else get_booking_by_id j db) /\
  customers (snd upd) = customers db /\
  customers (snd del) = customers db.
Proof.
  cbv zeta. split; [|split; [reflexivity|split; [|split; [|split]]]].
  - unfold update_booking_status. cbn [fst]. rewrite existsb_exists.
    split; intros (b & Hb & E); exists b; (split; [exact Hb|]);
      now apply Z.eqb_eq.
  - unfold get_booking_by_id. rewrite joined_status.
    rewrite filter_map_comm, hd_error_map; [reflexivity|].
    intros x. unfold with_status. now destruct (r_id x =? i).
  - unfold get_booking_by_id. rewrite joined_delete.
    induction (joined db) as [|r l IH]; cbn [filter].
    + now destruct (j =? i).
    + destruct (Z.eqb_spec (r_id r) i) as [Ei|Ei]; cbn [negb filter].
      * destruct (Z.eqb_spec j i) as [Ej|Ej].
        -- rewrite IH. reflexivity.
        -- rewrite IH. destruct (Z.eqb_spec (r_id r) j); [lia|reflexivity].
      * destruct (Z.eqb_spec (r_id r) j) as [Er|Er].
        -- destruct (Z.eqb_spec j i); [lia | reflexivity].
        -- exact IH.
  - reflexivity.
  - reflexivity.
Qed.

End DatabaseReads.

Lemma rebooking_renames_customer_witness :
  let db := snd (Database.create_booking Database.empty "Ann Lee"
                   "ann@example.com" "1234567890" "Consultation"
                   "2026-12-01" "09:00") in
  db_consistent db /\
  Database.get_booking_by_id 1 db
  = Some (Database.mk_row 1 "Ann Lee" "ann@example.com" "1234567890"
            "Consultation" "2026-12-01" "09:00" "confirmed") /\
  Database.get_booking_by_id 1
    (snd (Database.create_booking db "Ann Smith" "ann@example.com"
            "5550001111" "Spa Treatment" "2026-12-05" "10:00"))
  = Some (Database.mk_row 1 "Ann Smith" "ann@example.com" "5550001111"
            "Consultation" "2026-12-01" "09:00" "confirmed").
Proof.
  cbv zeta.
  assert (Hdb : db_consistent
                  (snd (Database.create_booking Database.empty "Ann Lee"
                          "ann@example.com" "1234567890" "Consultation"
                          "2026-12-01" "09:00")))
    by apply create_booking_consistent, empty_consistent.
  split; [exact Hdb|]. split; [reflexivity|].
  rewrite (rebooking_renames_customer _ 1 _ "Ann Smith" "ann@example.com"
             "5550001111" "Spa Treatment" "2026-12-05" "10:00" Hdb eq_refl).
  reflexivity.
Defined.

Lemma created_booking_reads_back_witness :
  db_consistent Database.empty /\
  Database.get_booking_by_id 1
    (snd (Database.create_booking Database.empty "Ann Lee" "ann@example.com"
            "1234567890" "Consultation" "2026-12-01" "09:00"))
  = Some (Database.mk_row 1 "Ann Lee" "ann@example.com" "1234567890"
            "Consultation" "2026-12-01" "09:00" "confirmed").
Proof.
  split; [exact empty_consistent|].
  exact (proj2 (created_booking_reads_back Database.empty "Ann Lee"
                  "ann@example.com" "1234567890" "Consultation" "2026-12-01"
                  "09:00" empty_consistent)).
Defined.

Lemma booking_ids_never_reused_witness :
  let db := snd (Database.create_booking Database.empty "Ann Lee"
                   "ann@example.com" "1234567890" "Consultation"
                   "2026-12-01" "09:00") in
  let b := Database.mk_booking 1 1 "Consultation" "2026-12-01" "09:00"
             "confirmed" in
  db_consistent db /\ In b (Database.bookings db) /\
  exists new_id,
    fst (Database.create_booking (db_run [op_delete 1] db) "Bo Ray"
           "bo@example.com" "1234567890" "Salon Service" "2026-12-02"
           "10:00") = inr new_id /\
    (1 < new_id)%Z.
Proof.
  cbv zeta.
  assert (Hdb : db_consistent
                  (snd (Database.create_booking Database.empty "Ann Lee"
                          "ann@example.com" "1234567890" "Consultation"
                          "2026-12-01" "09:00")))
    by apply create_booking_consistent, empty_consistent.
  split; [exact Hdb|]. split; [now left|].
  exact (booking_ids_never_reused _
           (Database.mk_booking 1 1 "Consultation" "2026-12-01" "09:00"
              "confirmed")
           [op_delete 1] "Bo Ray" "bo@example.com" "1234567890"
           "Salon Service" "2026-12-02" "10:00" Hdb (or_introl eq_refl)).
Defined.

(* ================================================================== *)
(** ** Facts about the pattern matcher *)
(* ================================================================== *)

Section RegexFacts.

Import Re Py.

Lemma backtrack_sound (f : nat -> option nat) (lo k m : nat) :
  backtrack f lo k = Some m ->
  exists j, (lo <= j <= k)%nat /\ f j = Some m.
Proof.
  induction k as [|k IH]; cbn [backtrack].
  - destruct (Nat.ltb_spec 0 lo); [discriminate|].
    destruct (f 0%nat) eqn:F; [|discriminate].
    intros E. injection E as <-. exists 0%nat. split; [lia | exact F].
  - destruct (Nat.ltb_spec (S k) lo); [discriminate|].
    destruct (f (S k)) eqn:F.
    + intros E. injection E as <-. exists (S k). split; [lia | exact F].
    + intros E. destruct (IH E) as (j & Hj & Fj). exists j.
      split; [lia | exact Fj].
Qed.

Lemma backtrack_complete (f : nat -> option nat) (lo k j : nat) :
  (lo <= j <= k)%nat -> f j <> None -> backtrack f lo k <> None.
Proof.
  intros Hj Fj. induction k as [|k IH]; cbn [backtrack].
  - assert (j = 0)%nat by lia. subst j.
    destruct (Nat.ltb_spec 0 lo); [lia|].
    destruct (f 0%nat); [discriminate | contradiction].
  - destruct (Nat.ltb_spec (S k) lo); [lia|].
    destruct (f (S k)) eqn:F; [discriminate|].
    apply IH. destruct (Nat.eq_dec j (S k)) as [->|]; [contradiction | lia].
Qed.

Lemma match_at_sound (its : list item) :
  forall prev s n, match_at its prev s = Some n -> denotes its prev s n.
Proof.
  induction its as [|i r IH]; intros prev s n; cbn [match_at denotes].
  - intros E. now injection E.
  - destruct i as [cls lo hi| | |].
    + intros E. apply backtrack_sound in E as (j & Hj & Fj).
      destruct (match_at r (before j prev s) (drop j s)) as [m|] eqn:M;
        [|discriminate Fj].
      cbn in Fj. injection Fj as <-. exists j, m.
      repeat split; try lia. now apply IH.
    + destruct (xorb _ _); [|discriminate]. intros E. split; auto.
    + destruct prev; [discriminate|]. intros E. split; auto.
    + destruct (at_end s); [|discriminate]. intros E. split; auto.
Qed.

Lemma match_at_complete (its : list item) :
  forall prev s n, denotes its prev s n -> match_at its prev s <> None.
Proof.
  induction its as [|i r IH]; intros prev s n; cbn [match_at denotes].
  - discriminate.
  - destruct i as [cls lo hi| | |].
    + intros (k & m & -> & Hlo & Hk & D).
      apply (backtrack_complete _ lo _ k); [lia|].
      pose proof (IH _ _ _ D) as Q.
      destruct (match_at r (before k prev s) (drop k s));
        [discriminate | contradiction].
    + intros [-> D]. now apply IH in D.
    + intros [-> D]. now apply IH in D.
    + intros [-> D]. now apply IH in D.
Qed.

Lemma findall_from_matches (its : list item) (x : string) :
  forall s prev skip,
    In x (findall_from its prev skip s) ->
    exists prev' s' n, match_at its prev' s' = Some n /\ x = take n s'.
Proof.
  induction s as [|c r IH]; intros prev skip; cbn [findall_from];
    [intros []|].
  destruct skip as [|k]; [|apply IH].
  destruct (match_at its prev (String c r)) as [n|] eqn:M; [|apply IH].
  intros [<-|Hin]; [|now apply IH in Hin].
  now exists prev, (String c r), n.
Qed.

Lemma findall_head (its : list item) (u x : string) (rest : list string) :
  findall its u = x :: rest ->
  exists prev s n, denotes its prev s n /\ x = take n s.
Proof.
  intros E.
  destruct (findall_from_matches its x u None 0%nat) as (p & s & n & M & ->).
  { unfold findall in E. rewrite E. now left. }
  exists p, s, n. split; [now apply match_at_sound | reflexivity].
Qed.

Lemma before_empty (k : nat) (prev : option ascii) :
  before k prev EmptyString = prev.
Proof. now destruct k. Qed.

Lemma drop_empty (k : nat) : drop k EmptyString = EmptyString.
Proof. now destruct k. Qed.

Lemma take_empty (k : nat) : take k EmptyString = EmptyString.
Proof. now destruct k. Qed.

Lemma before_add (j k : nat) :
  forall prev s,
    before (j + k) prev s = before k (before j prev s) (drop j s).
Proof.
  induction j as [|j IH]; intros prev s; [reflexivity|].
  destruct s as [|c r]; cbn [Nat.add before drop].
  - now rewrite before_empty.
  - apply IH.
Qed.

Lemma drop_add (j k : nat) :
  forall s, drop (j + k) s = drop k (drop j s).
Proof.
  induction j as [|j IH]; intros s; [reflexivity|].
  destruct s as [|c r]; cbn [Nat.add drop].
  - now rewrite drop_empty.
  - apply IH.
Qed.

Lemma drop_take (k m : nat) :
  forall s, drop k (take (k + m) s) = take m (drop k s).
Proof.
  induction k as [|k IH]; intros s; [reflexivity|].
  destruct s as [|c r]; cbn [Nat.add drop take].
  - now rewrite take_empty.
  - apply IH.
Qed.


(** A run of [S k] characters starts with one character of the class. *)
Lemma run_S (cls : ascii -> bool) (hi : option nat) (s : string) (k : nat) :
  (S k <= run cls hi s)%nat ->
  exists c r, s = String c r /\ cls c = true /\
              (k <= run cls (option_map Nat.pred hi) r)%nat.
Proof.
  destruct s as [|c r]; cbn [run]; [lia|].
  destruct hi as [[|h]|]; [lia| |];
    (destruct (cls c) eqn:E; [|lia]); intros Hk; exists c, r;
    (split; [reflexivity|]); (split; [exact E|]); cbn; lia.
Qed.

Lemma run_bound (cls : ascii -> bool) (h : nat) :
  forall s, (run cls (Some h) s <= h)%nat.
Proof.
  induction h as [|h IH]; intros [|c r]; cbn [run]; try lia.
  destruct (cls c); [|lia]. specialize (IH r). lia.
Qed.

Lemma run_take (cls : ascii -> bool) (k : nat) :
  forall hi s,
    (k <= run cls hi s)%nat ->
    sall cls (take k s) = true /\ String.length (take k s) = k.
Proof.
  induction k as [|k IH]; intros hi s Hk; [now split|].
  apply run_S in Hk as (c & r & -> & Hc & Hk). cbn [take sall String.length].
  destruct (IH _ _ Hk) as [A L]. now rewrite Hc, A, L.
Qed.

Lemma run_in_take (cls : ascii -> bool) (k : nat) :
  forall hi s n,
    (k <= run cls hi s)%nat -> (k <= n)%nat ->
    (k <= run cls hi (take n s))%nat.
Proof.
  induction k as [|k IH]; intros hi s n Hk Hn; [lia|].
  pose proof Hk as Hk0.
  apply run_S in Hk as (c & r & -> & Hc & Hk).
  destruct n as [|n]; [lia|]. cbn [take run].
  destruct hi as [[|h]|]; cbn [option_map Nat.pred] in Hk.
  - cbn [run] in Hk0. lia.
  - rewrite Hc. specialize (IH (Some h) r n Hk). lia.
  - rewrite Hc. specialize (IH None r n Hk). lia.
Qed.

(** A match of repetitions is a matter of the matched characters alone. *)
Lemma denotes_reps_take (its : list item) :
  reps_only its = true ->
  forall prev prev' s n,
    denotes its prev s n -> denotes its prev' (take n s) n.
Proof.
  induction its as [|i r IH]; intros Hr prev prev' s n;
    cbn [denotes]; [auto|].
  destruct i as [cls lo hi| | |]; try discriminate Hr.
  intros (k & m & -> & Hlo & Hk & D). exists k, m.
  repeat split; try lia.
  - apply run_in_take; [exact Hk | lia].
  - rewrite drop_take. now apply (IH Hr _ _ _ _ D).
Qed.

Lemma denotes_app (a b : list item) :
  forall prev s n,
    denotes (a ++ b) prev s n <->
    exists k m, n = (k + m)%nat /\ denotes a prev s k /\
                denotes b (before k prev s) (drop k s) m.
Proof.
  induction a as [|i r IH]; intros prev s n; cbn [app denotes].
  - split.
    + intros D. now exists 0%nat, n.
    + intros (k & m & -> & -> & D). exact D.
  - destruct i as [cls lo hi| | |].
    + split.
      * intros (k & m & -> & Hlo & Hk & D).
        apply IH in D as (k' & m' & -> & Dr & Db).
        exists (k + k')%nat, m'. split; [lia|]. split.
        -- now exists k, k'.
        -- now rewrite before_add, drop_add.
      * intros (k0 & m0 & -> & (k & k' & -> & Hlo & Hk & Dr) & Db).
        exists k, (k' + m0)%nat. repeat split; try lia.
        apply IH. exists k', m0. split; [reflexivity|]. split; [exact Dr|].
        now rewrite <- before_add, <- drop_add.
    + rewrite IH. split.
      * intros (X & k & m & -> & Dr & Db). now exists k, m.
      * intros (k & m & -> & (X & Dr) & Db). split; [exact X|].
        now exists k, m.
    + rewrite IH. split.
      * intros (X & k & m & -> & Dr & Db). now exists k, m.
      * intros (k & m & -> & (X & Dr) & Db). split; [exact X|].
        now exists k, m.
    + rewrite IH. split.
      * intros (X & k & m & -> & Dr & Db). now exists k, m.
      * intros (k & m & -> & (X & Dr) & Db). split; [exact X|].
        now exists k, m.
Qed.

End RegexFacts.

(* ================================================================== *)
(** ** What extraction hands to validation *)
(* ================================================================== *)

Section ExtractedValues.

Import BookingFlow Py.

Lemma get_take_email (u : string) (known e : Dict.t) (k : string) :
  k <> "email" -> Dict.get k (take_email u known e) = Dict.get k e.
Proof.
  intros Hk. unfold take_email. destruct (Re.findall _ _); [reflexivity|].
  destruct (negb _); [|reflexivity]. apply get_set_other. congruence.
Qed.

Lemma get_take_phone (u : string) (known e : Dict.t) (k : string) :
  k <> "phone" -> Dict.get k (take_phone u known e) = Dict.get k e.
Proof.
  intros Hk. unfold take_phone. destruct (Re.findall _ _); [reflexivity|].
  destruct (negb _); [|reflexivity]. apply get_set_other. congruence.
Qed.

Lemma get_take_date (u : string) (known e : Dict.t) (k : string) :
  k <> "date" -> Dict.get k (take_date u known e) = Dict.get k e.
Proof.
  intros Hk. unfold take_date. destruct (Re.findall _ _); [reflexivity|].
  destruct (negb _); [|reflexivity]. apply get_set_other. congruence.
Qed.

Lemma get_take_time (u : string) (known e : Dict.t) (k : string) :
  k <> "time" -> Dict.get k (take_time u known e) = Dict.get k e.
Proof.
  intros Hk. unfold take_time. destruct (Re.findall _ _); [reflexivity|].
  destruct (negb _); [|reflexivity]. apply get_set_other. congruence.
Qed.

Lemma get_take_name (u : string) (known e : Dict.t) (k : string) :
  k <> "name" -> Dict.get k (take_name u known e) = Dict.get k e.
Proof.
  intros Hk. unfold take_name. destruct (negb _); [|reflexivity].
  destruct (name_candidate u); [|reflexivity].
  apply get_set_other. congruence.
Qed.

Lemma get_take_booking_type (llm : LLM) (u : string) (known e : Dict.t)
    (k : string) :
  k <> "booking_type" ->
  Dict.get k (take_booking_type llm u known e) = Dict.get k e.
Proof.
  intros Hk. unfold take_booking_type. destruct (negb _); [|reflexivity].
  destruct (_extract_booking_type llm u); [|reflexivity].
  destruct (is_empty _); [reflexivity|].
  apply get_set_other. congruence.
Qed.

(** Where each extracted value comes from. *)
Lemma extracted_email (llm : LLM) (u : string) (known : Dict.t) (v : string) :
  Dict.get "email" (_extract_booking_info llm u known) = Some v ->
  exists rest, Re.findall email_pattern u = v :: rest.
Proof.
  unfold _extract_booking_info.
  rewrite get_take_booking_type, get_take_name, get_take_time,
    get_take_date, get_take_phone by discriminate.
  unfold take_email. destruct (Re.findall _ _) as [|x rest]; [discriminate|].
  destruct (negb _); [|discriminate]. rewrite get_set_same.
  intros E. injection E as ->. now exists rest.
Qed.

Lemma extracted_phone (llm : LLM) (u : string) (known : Dict.t) (v : string) :
  Dict.get "phone" (_extract_booking_info llm u known) = Some v ->
  exists rest, Re.findall phone_pattern u = v :: rest.
Proof.
  unfold _extract_booking_info.
  rewrite get_take_booking_type, get_take_name, get_take_time,
    get_take_date by discriminate.
  unfold take_phone. destruct (Re.findall _ _) as [|x rest].
  - rewrite get_take_email by discriminate. discriminate.
  - destruct (negb _).
    + rewrite get_set_same. intros E. injection E as ->. now exists rest.
    + rewrite get_take_email by discriminate. discriminate.
Qed.



Lemma drop_take_all (k : nat) : forall s, Re.drop k (Re.take k s) = EmptyString.
Proof.
  induction k as [|k IH]; intros [|c r]; cbn [Re.take Re.drop]; auto.
Qed.

(** The text of a match of the email pattern passes the anchored pattern
    of the email check. *)
Lemma email_match_valid (u e : string) (rest : list string) :
  Re.findall email_pattern u = e :: rest ->
  Re.matches email_re_anchored e = true.
Proof.
  intros F. apply findall_head in F as (prev & s & n & D & ->).
  set (R := [Re.Plus email_local; Re.Lit "@"; Re.Plus email_domain;
             Re.Lit "."; Re.Rep email_tld 2 None]).
  change email_pattern with (Re.Bnd :: R ++ [Re.Bnd]) in D.
  cbn [denotes] in D. destruct D as [_ D].
  apply (denotes_app R [Re.Bnd]) in D as (k & m & -> & DR & (_ & ->)).
  rewrite Nat.add_0_r.
  assert (Q : denotes email_re_anchored None (Re.take k s) k).
  { change email_re_anchored with (Re.Bol :: R ++ [Re.Eol]).
    cbn [denotes]. split; [reflexivity|].
    apply (denotes_app R [Re.Eol]). exists k, 0%nat.
    split; [lia|]. split.
    - now apply (denotes_reps_take R eq_refl prev).
    - cbn [denotes]. now rewrite drop_take_all. }
  apply match_at_complete in Q. unfold Re.matches.
  now destruct (Re.match_at _ _ _).
Qed.

(** The text of a match of the phone pattern is 10 to 15 digits. *)
Lemma phone_match_shape (u p : string) (rest : list string) :
  Re.findall phone_pattern u = p :: rest ->
  sall is_digit p = true /\ (10 <= String.length p <= 15)%nat.
Proof.
  intros F. apply findall_head in F as (prev & s & n & D & ->).
  cbn [phone_pattern denotes] in D.
  destruct D as (_ & k & m & -> & Hlo & Hk & _ & ->).
  rewrite Nat.add_0_r. destruct (run_take _ _ _ _ Hk) as [A L].
  pose proof (run_bound is_digit 15 s) as B.
  split; [exact A | lia].
Qed.

Lemma digit_not_noise (c : ascii) :
  is_digit c = true -> phone_noise c = false.
Proof.
  destruct c as [[] [] [] [] [] [] [] []]; vm_compute; congruence.
Qed.

Lemma remove_nothing (cls : ascii -> bool) (s : string) :
  sall (fun c => negb (cls c)) s = true -> Re.remove cls s = s.
Proof.
  induction s as [|c s IH]; cbn [sall Re.remove]; [reflexivity|].
  intros Q. apply andb_true_iff in Q as [Hc Hs].
  apply negb_true_iff in Hc. now rewrite Hc, IH.
Qed.

Lemma sall_impl (p q : ascii -> bool) (s : string) :
  (forall c, p c = true -> q c = true) ->
  sall p s = true -> sall q s = true.
Proof.
  intros Hpq. induction s as [|c s IH]; cbn [sall]; [reflexivity|].
  intros Q. apply andb_true_iff in Q as [Hc Hs].
  now rewrite (Hpq c Hc), IH.
Qed.

(** X12. Contact details that the assistant itself picks out of a
    message never fail validation: whatever the message, the draft, the
    completion service and the clock, the errors of a collecting turn have
    no entry for the email and none for the phone. *)
Theorem extracted_contacts_pass (llm : LLM) (now : Datetime.datetime)
    (u : string) (known : Dict.t) :
  let errors :=
    fst (_validate_extracted_data now (_extract_booking_info llm u known)
           known) in
  Dict.get "email" errors = None /\ Dict.get "phone" errors = None.
Proof.
  cbv zeta.
  destruct (validate_get now (_extract_booking_info llm u known) known)
    as (-> & -> & _).
  split.
  - unfold email_verdict, check_email.
    destruct (Dict.get "email" (_extract_booking_info llm u known))
      as [e|] eqn:G; [|reflexivity].
    apply extracted_email in G as [rest F].
    now rewrite (email_match_valid _ _ _ F).
  - unfold phone_verdict, check_phone.
    destruct (Dict.get "phone" (_extract_booking_info llm u known))
      as [p|] eqn:G; [|reflexivity].
    apply extracted_phone in G as [rest F].
    apply phone_match_shape in F as [A L]. cbv zeta.
    rewrite (remove_nothing phone_noise p).
    + unfold isdigit. rewrite A.
      destruct p as [|c p]; [cbn in L; lia|]. cbn [is_empty negb andb orb].
      destruct (Nat.ltb_spec (String.length (String c p)) 10); [lia|].
      destruct (Nat.ltb_spec 15 (String.length (String c p))); [lia|].
      reflexivity.
    + apply (sall_impl is_digit); [|exact A].
      intros c Hc. now rewrite (digit_not_noise c Hc).
Qed.

End ExtractedValues.

Section ExtractedTimes.

Import BookingFlow Py.
Open Scope Z_scope.







Lemma length_append (a b : string) :
  String.length (a ++ b) = (String.length a + String.length b)%nat.
Proof. induction a as [|c a IH]; cbn; [reflexivity | now rewrite IH]. Qed.










End ExtractedTimes.

(* ================================================================== *)
(** ** The conversation history *)
(* ================================================================== *)

Section HistoryFacts.

Import ChatLogic Py.

Lemma last3_app (pre h : list turn) :
  (3 <= List.length h)%nat -> last3 (pre ++ h) = last3 h.
Proof.
  intros Hh. unfold last3. rewrite length_app, skipn_app.
  rewrite skipn_all2 by lia. cbn [app]. f_equal. lia.
Qed.

Lemma last3_nil (h : list turn) : last3 h = [] <-> h = [].
Proof.
  split; [|now intros ->].
  intros E. apply (f_equal (@List.length turn)) in E.
  unfold last3 in E. rewrite length_skipn in E.
  destruct h; [reflexivity | cbn [List.length] in E; lia].
Qed.

(** The classification reads the history through its last three entries
    and through whether it is empty. *)
Lemma detect_intent_ext (u : string) (h h' : list turn) :
  last3 h = last3 h' -> detect_intent u h = detect_intent u h'.
Proof.
  intros E.
  assert (N : h = [] <-> h' = [])
    by (rewrite <- (last3_nil h), <- (last3_nil h'), E; tauto).
  unfold detect_intent, recent_assistant_msg. rewrite E.
  destruct h, h'; try reflexivity; exfalso; destruct N as [N1 N2];
    first [discriminate (N1 eq_refl) | discriminate (N2 eq_refl)].
Qed.

Lemma last3_manage_memory (h : list turn) :
  last3 (manage_memory h) = last3 h.
Proof.
  unfold manage_memory, last_n, MAX_MEMORY_MESSAGES.
  destruct (Nat.ltb_spec 25 (List.length h)) as [Hl|]; [|reflexivity].
  set (k := (List.length h - 25)%nat).
  transitivity (last3 (firstn k h ++ skipn k h));
    [|now rewrite firstn_skipn].
  symmetry. apply last3_app. rewrite length_skipn. lia.
Qed.

(** X14. Only the last three entries of the history count for the
    classification of a message: whatever came before them changes
    nothing. *)
Theorem intent_ignores_older_turns (u : string) (older recent : list turn) :
  (3 <= List.length recent)%nat ->
  detect_intent u (older ++ recent) = detect_intent u recent.
Proof.
  intros Hr. apply detect_intent_ext. now apply last3_app.
Qed.

(** X15. Trimming the history is safe.  [manage_memory] keeps at most
    25 messages, they are the latest ones in their order, a history of up
    to 25 messages is kept whole, and the message that follows is
    classified as it would have been on the full history. *)
Theorem memory_trim_is_safe (u : string) (messages : list turn) :
  let kept := manage_memory messages in
  (List.length kept <= 25)%nat /\
  (exists dropped, messages = (dropped ++ kept)%list) /\
  ((List.length messages <= 25)%nat -> kept = messages) /\
  manage_memory kept = kept /\
  detect_intent u kept = detect_intent u messages.
Proof.
  cbv zeta. split; [|split; [|split; [|split]]].
  - unfold manage_memory, last_n, MAX_MEMORY_MESSAGES.
    destruct (Nat.ltb_spec 25 (List.length messages)); [|lia].
    rewrite length_skipn. lia.
  - unfold manage_memory, last_n, MAX_MEMORY_MESSAGES.
    destruct (Nat.ltb_spec 25 (List.length messages)).
    + exists (firstn (List.length messages - 25) messages).
      now rewrite firstn_skipn.
    + now exists [].
  - intros Hl. unfold manage_memory, MAX_MEMORY_MESSAGES.
    destruct (Nat.ltb_spec 25 (List.length messages)); [lia | reflexivity].
  - unfold manage_memory at 1. unfold MAX_MEMORY_MESSAGES.
    destruct (Nat.ltb_spec 25 (List.length (manage_memory messages)))
      as [Hl|]; [|reflexivity].
    exfalso. revert Hl. unfold manage_memory, last_n, MAX_MEMORY_MESSAGES.
    destruct (Nat.ltb_spec 25 (List.length messages)); [|lia].
    rewrite length_skipn. lia.
  - apply detect_intent_ext, last3_manage_memory.
Qed.

Lemma take_length (k : nat) :
  forall s, (String.length (Re.take k s) <= k)%nat.
Proof.
  induction k as [|k IH]; intros [|c r]; cbn [Re.take String.length];
    try lia.
  specialize (IH r). lia.
Qed.

Lemma join_length (sep : string) (n : nat) (l : list string) :
  (forall x, In x l -> (String.length x <= n)%nat) ->
  l <> [] ->
  (String.length (join sep l) + String.length sep
   <= List.length l * (n + String.length sep))%nat.
Proof.
  intros Hn. induction l as [|x r IH]; [contradiction|]. intros _.
  pose proof (Hn x (or_introl eq_refl)) as Hx.
  destruct r as [|y r'].
  - cbn [join List.length]. lia.
  - change (join sep (x :: y :: r')) with (x ++ sep ++ join sep (y :: r')).
    rewrite !length_append.
    assert (IH' : (String.length (join sep (y :: r')) + String.length sep
                   <= List.length (y :: r') * (n + String.length sep))%nat)
      by (apply IH; [intros z Hz; apply Hn; now right | discriminate]).
    change (List.length (x :: y :: r')) with (S (List.length (y :: r'))).
    lia.
Qed.

(** X16. The history handed to the completion service is bounded: it
    is built from at most the last 25 messages with at most 200 characters
    of each, so it is never longer than 5299 characters, however long the
    conversation and its messages are. *)
Theorem memory_context_is_bounded (conversation_history : list turn) :
  (Z.of_nat (String.length (_build_memory_context conversation_history))
   <= 5299)%Z.
Proof.
  unfold _build_memory_context.
  destruct conversation_history as [|m h]; [cbn; lia|].
  set (hist := m :: h).
  set (parts := map _ (last_n MAX_MEMORY_MESSAGES hist)).
  assert (Hlen : (1 <= List.length parts <= 25)%nat).
  { subst parts. rewrite length_map. unfold last_n, MAX_MEMORY_MESSAGES.
    rewrite length_skipn. subst hist. cbn [List.length]. lia. }
  assert (Hpart : forall x, In x parts -> (String.length x <= 211)%nat).
  { intros x Hx. subst parts. apply in_map_iff in Hx as (t & <- & _).
    rewrite !length_append. unfold first_200.
    pose proof (take_length 200 (content t)).
    destruct (String.eqb (role t) "user"); cbn [String.length]; lia. }
  pose proof (join_length nl 211 parts Hpart) as J.
  assert (parts <> []) by (destruct parts; [cbn in Hlen; lia | discriminate]).
  specialize (J H). change (String.length nl) with 1%nat in J. nia.
Qed.

End HistoryFacts.

Lemma intent_ignores_older_turns_witness :
  (3 <= List.length
          [ChatLogic.mk_turn "user" "hello";
           ChatLogic.mk_turn "assistant" "What's your name?";
           ChatLogic.mk_turn "user" "thanks"])%nat /\
  ChatLogic.detect_intent "help"
    ([ChatLogic.mk_turn "assistant" "Please confirm your booking"]
     ++ [ChatLogic.mk_turn "user" "hello";
         ChatLogic.mk_turn "assistant" "What's your name?";
         ChatLogic.mk_turn "user" "thanks"])
  = ChatLogic.detect_intent "help"
      [ChatLogic.mk_turn "user" "hello";
       ChatLogic.mk_turn "assistant" "What's your name?";
       ChatLogic.mk_turn "user" "thanks"].
Proof.
  split; [simpl; lia|].
  apply (intent_ignores_older_turns "help"
           [ChatLogic.mk_turn "assistant" "Please confirm your booking"]).
  simpl; lia.
Defined.

(* ================================================================== *)
(** ** The service named in a message *)
(* ================================================================== *)

Section ServiceFacts.

Import BookingFlow Py.

Lemma lower_char_idem (c : ascii) : lower_char (lower_char c) = lower_char c.
Proof.
  destruct c as [[] [] [] [] [] [] [] []]; reflexivity.
Qed.

Lemma lower_idem (s : string) : lower (lower s) = lower s.
Proof.
  unfold lower. induction s as [|c s IH]; cbn [smap]; [reflexivity|].
  now rewrite lower_char_idem, IH.
Qed.

Lemma contains_lowered (w u : string) :
  plain w = true -> contains w (lower u) = true ->
  contains w (strip (lower u)) = true.
Proof.
  intros Hw Hc. rewrite <- lower_idem. now apply contains_normalised.
Qed.

(** X17. A service found by the keywords is one of the catalog: it has
    an entry in the price table, whatever the message. *)
Theorem keyword_service_is_catalogued (text_lower service : string) :
  keyword_service text_lower = Some service ->
  In service (map fst service_pricing) /\
  exists info, service_get service = Some info /\
               price_of service = price info.
Proof.
  unfold keyword_service.
  destruct (find _ service_keywords) as [e|] eqn:F; [|discriminate].
  intros E. injection E as <-. apply find_some in F as [Hin _].
  assert (C : forallb
                (fun e => existsb (String.eqb (fst e))
                            (map fst service_pricing)
                          && match service_get (fst e) with
                             | Some _ => true
                             | None => false
                             end) service_keywords = true)
    by (vm_compute; reflexivity).
  rewrite forallb_forall in C. specialize (C e Hin).
  apply andb_true_iff in C as [C1 C2]. split.
  - apply existsb_exists in C1 as (x & Hx & Ex).
    apply String.eqb_eq in Ex. now subst.
  - unfold price_of. destruct (service_get (fst e)) as [info|];
      [|discriminate C2]. now exists info.
Qed.

(** X18. The first row of the keyword table wins.  A message that
    mentions an appointment or a consultation, in any letter case, is read
    as a doctor appointment, whatever else it mentions and whatever the
    completion service would have said. *)
Theorem appointment_means_doctor (llm : LLM) (text : string) :
  contains "appointment" (lower text) = true \/
  contains "consultation" (lower text) = true ->
  _extract_booking_type llm text = Some "Doctor Appointment".
Proof.
  intros Hc. unfold _extract_booking_type. cbv zeta.
  assert (K : keyword_service (strip (lower text))
              = Some "Doctor Appointment").
  { unfold keyword_service, service_keywords. cbn [find snd].
    replace (contains_any _ (strip (lower text))) with true; [reflexivity|].
    symmetry. unfold contains_any. apply existsb_exists.
    destruct Hc as [Hc|Hc].
    - exists "appointment". split; [cbn; tauto|].
      now apply contains_lowered.
    - exists "consultation". split; [cbn; tauto|].
      now apply contains_lowered. }
  now rewrite K.
Qed.

End ServiceFacts.

Lemma keyword_service_is_catalogued_witness :
  BookingFlow.keyword_service "a haircut please" = Some "Salon Service" /\
  In "Salon Service" (map fst BookingFlow.service_pricing).
Proof.
  split; [reflexivity|].
  exact (proj1 (keyword_service_is_catalogued "a haircut please"
                  "Salon Service" eq_refl)).
Defined.

Lemma appointment_means_doctor_witness :
  Py.contains "appointment" (Py.lower "A salon APPOINTMENT for a haircut")
  = true /\
  BookingFlow._extract_booking_type Samples.dog_llm
    "A salon APPOINTMENT for a haircut" = Some "Doctor Appointment".
Proof.
  split; [reflexivity|].
  apply appointment_means_doctor. left. reflexivity.
Defined.

(* ================================================================== *)
(** ** The validators of [tools.py] beside the checks of the flow *)
(* ================================================================== *)

Section ToolsFacts.

Import BookingFlow Py.

Lemma run_mono (cls cls' : ascii -> bool) (s : string) :
  (forall c, cls c = true -> cls' c = true) ->
  forall hi, (Re.run cls hi s <= Re.run cls' hi s)%nat.
Proof.
  intros Hc. induction s as [|c s IH]; intros hi; cbn [Re.run]; [lia|].
  destruct hi as [[|h]|]; [lia| |];
    (destruct (cls c) eqn:E; [rewrite (Hc c E)|lia]).
  - specialize (IH (Some h)). lia.
  - specialize (IH None). lia.
Qed.

(** Widening the class of one repetition keeps every match. *)
Lemma denotes_widen (pre post : list Re.item) (cls cls' : ascii -> bool)
    (lo : nat) (hi : option nat) (prev : option ascii) (s : string)
    (n : nat) :
  (forall c, cls c = true -> cls' c = true) ->
  denotes (pre ++ Re.Rep cls lo hi :: post) prev s n ->
  denotes (pre ++ Re.Rep cls' lo hi :: post) prev s n.
Proof.
  intros Hc D. apply denotes_app in D as (k & m & -> & Dpre & Drep).
  apply denotes_app. exists k, m. split; [reflexivity|].
  split; [exact Dpre|]. cbn [denotes] in *.
  destruct Drep as (k' & m' & -> & Hlo & Hk & Dpost). exists k', m'.
  repeat split; try assumption.
  pose proof (run_mono cls cls' (Re.drop k s) Hc hi). lia.
Qed.

(** X19. The stand-alone validators against the checks of the booking
    flow.  For phones the two agree on every value.  For emails the flow
    is the more lenient one: what [validate_email_format] accepts the flow
    accepts too, but the flow also lets a vertical bar into the last part
    of the domain, which [validate_email_format] refuses. *)
Theorem tools_validators_vs_flow (now : Datetime.datetime) (known : Dict.t)
    (value : string) :
  (Tools.validate_phone_format value = true <->
   Dict.get "phone"
     (fst (_validate_extracted_data now [("phone", value)] known)) = None) /\
  (Tools.validate_email_format value = true ->
   Dict.get "email"
     (fst (_validate_extracted_data now [("email", value)] known)) = None) /\
  (Tools.validate_email_format "a@b.c|" = false /\
   Dict.get "email"
     (fst (_validate_extracted_data now [("email", "a@b.c|")] known))
   = None).
Proof.
  split; [|split; [|split]].
  - destruct (validate_get now [("phone", value)] known) as (_ & -> & _).
    unfold phone_verdict, check_phone, Tools.validate_phone_format.
    cbn [Dict.get String.eqb Ascii.eqb Bool.eqb fst]. cbv zeta.
    destruct (isdigit (Re.remove phone_noise value));
      cbn [negb andb orb fst Dict.get Dict.set Dict.empty].
    + destruct (Nat.leb_spec 10 (String.length (Re.remove phone_noise value)));
        destruct (Nat.ltb_spec (String.length (Re.remove phone_noise value)) 10);
        try lia; cbn [negb andb orb fst Dict.get Dict.set Dict.empty];
        [|split; intros Q; discriminate Q].
      destruct (Nat.leb_spec (String.length (Re.remove phone_noise value)) 15);
        destruct (Nat.ltb_spec 15 (String.length (Re.remove phone_noise value)));
        try lia; cbn [negb andb orb fst Dict.get Dict.set Dict.empty];
        split; intros Q; first [reflexivity | discriminate Q].
    + split; intros Q; discriminate Q.
  - destruct (validate_get now [("email", value)] known) as (-> & _).
    unfold Tools.validate_email_format, Re.matches.
    destruct (Re.match_at Tools.email_pattern None value) as [n|] eqn:M;
      [|discriminate]. intros _.
    apply match_at_sound in M.
    apply (denotes_widen
             [Re.Bol; Re.Plus email_local; Re.Lit "@"; Re.Plus email_domain;
              Re.Lit "."] [Re.Eol] Tools.email_tld email_tld 2 None) in M.
    + apply match_at_complete in M.
      unfold email_verdict, check_email.
      cbn [Dict.get String.eqb Ascii.eqb Bool.eqb]. unfold Re.matches.
      change ([Re.Bol; Re.Plus email_local; Re.Lit "@"; Re.Plus email_domain;
               Re.Lit "."] ++ Re.Rep email_tld 2 None :: [Re.Eol])%list
        with email_re_anchored in M.
      destruct (Re.match_at email_re_anchored None value);
        [reflexivity | contradiction].
    + intros c Hc. unfold email_tld, Tools.email_tld in *. now rewrite Hc.
  - reflexivity.
  - destruct (validate_get now [("email", "a@b.c|")] known) as (-> & _).
    reflexivity.
Qed.

End ToolsFacts.

(* ================================================================== *)
(** ** From the confirmation to the tables *)
(* ================================================================== *)

(** X20. What the customer confirmed is what the dashboard reads.  On
    consistent tables, after an affirmative reply in a session waiting for
    the confirmation, [get_booking_by_id] finds under the new id exactly
    the name, email, phone, service, date and time of the draft, with the
    status confirmed, and the tables stay consistent. *)
Theorem confirmed_booking_reads_back (notifier : Notifier) (llm : LLM)
    (now : Datetime.datetime) (u : string) (d : Dict.t)
    (w : World Database.t) :
  reachable d true ->
  Py.contains_any BookingFlow.affirmative (Py.strip (Py.lower u)) = true ->
  db_consistent (store w) ->
  let res := BookingFlow.handle_booking_intent notifier llm now u d true w in
  let booking_id := Database.next_booking (store w) in
  Database.get_booking_by_id booking_id (store (snd res))
  = Some (draft_row booking_id d) /\
  db_consistent (store (snd res)).
Proof.
  intros Hr Hu Hdb res booking_id. subst res.
  rewrite (confirmed_outcome notifier llm now u d w Hr Hu).
  unfold store_call. cbn [create_booking Database_store].
  rewrite create_booking_id. cbn [after_save snd store].
  split.
  - now apply create_then_get.
  - now apply create_booking_consistent.
Qed.

(** Two turns from the empty session: a name, then everything else. *)
Lemma ready_reachable : reachable Samples.ready_draft true.
Proof.
  pose proof (reach_turn Database.t Database_store Samples.mail_ok
                Samples.no_llm Samples.clock "John Smith" Dict.empty
                false Samples.fresh reach_start sample_clock_ok) as R1.
  vm_compute in R1.
  pose proof (reach_turn Database.t Database_store Samples.mail_ok
                Samples.no_llm Samples.clock
                "haircut john@example.com 9876543210 2026-12-01 14:30"
                _ _ Samples.fresh R1 sample_clock_ok) as R2.
  vm_compute in R2. exact R2.
Qed.

Lemma confirming_draft_is_persistable_witness :
  reachable Samples.ready_draft true /\ persistable Samples.ready_draft.
Proof.
  split; [exact ready_reachable|].
  exact (proj2 (confirming_draft_is_persistable _ _ ready_reachable)
               eq_refl).
Defined.

Lemma confirmed_draft_is_booked_witness :
  reachable Samples.ready_draft true /\
  Py.contains_any BookingFlow.affirmative (Py.strip (Py.lower "Yes, please"))
  = true /\
  save_calls
    (snd (BookingFlow.handle_booking_intent Samples.mail_ok Samples.no_llm
            Samples.clock "Yes, please" Samples.ready_draft true
            Samples.fresh))
  = [Samples.ready_draft].
Proof.
  split; [exact ready_reachable|]. split; [reflexivity|].
  exact (proj1 (proj2 (confirmed_draft_is_booked Samples.mail_ok
                         Samples.no_llm Samples.clock "Yes, please"
                         Samples.ready_draft Samples.fresh ready_reachable
                         eq_refl))).
Defined.

Lemma confirmed_booking_reads_back_witness :
  reachable Samples.ready_draft true /\
  Py.contains_any BookingFlow.affirmative (Py.strip (Py.lower "Yes, please"))
  = true /\
  db_consistent (store Samples.fresh) /\
  Database.get_booking_by_id 1
    (store
       (snd (BookingFlow.handle_booking_intent Samples.mail_ok Samples.no_llm
               Samples.clock "Yes, please" Samples.ready_draft true
               Samples.fresh)))
  = Some (Database.mk_row 1 "John Smith" "john@example.com" "9876543210"
            "Salon Service" "2026-12-01" "14:30" "confirmed").
Proof.
  split; [exact ready_reachable|]. split; [reflexivity|].
  split; [exact empty_consistent|].
  exact (proj1 (confirmed_booking_reads_back Samples.mail_ok Samples.no_llm
                  Samples.clock "Yes, please" Samples.ready_draft
                  Samples.fresh ready_reachable eq_refl empty_consistent)).
Defined.

(* ================================================================== *)
(** ** What a collecting turn answers, and what the completion service
       can change *)
(* ================================================================== *)

Section QuestionFacts.

Import BookingFlow Py.

Context {S : Type} `{BookingStore S}.
Variable notifier : Notifier.
Variable llm : LLM.
Variable now : Datetime.datetime.

(** X21. The assistant asks for the fields in one fixed order.  After a
    turn in which validation found nothing, the answer is the question for
    the first of name, email, phone, booking_type, date and time that the
    draft does not hold yet, below the summary of what it holds; when it
    holds none of them the answer is the opening line, and when it holds
    them all the answer is the confirmation message. *)
Theorem next_question_is_first_missing (u : string) (d : Dict.t)
    (w : World S) :
  let res := handle_booking_intent notifier llm now u d false w in
  let draft := merged llm now u d in
  let response := fst (fst (fst (fst res))) in
  fst (_validate_extracted_data now (_extract_booking_info llm u d) d) = [] ->
  match find (fun f => negb (Dict.filled f draft)) required_fields with
  | Some field =>
      response
      = if forallb (fun f => negb (Dict.filled f draft)) required_fields
        then opening_line
        else summary_of draft ++ question_for now field
  | None => response = _generate_confirmation_message draft
  end.
Proof.
  cbv zeta. intros He. unfold handle_booking_intent, merged.
  destruct (_validate_extracted_data now _ d) as [errors ex'].
  cbn [fst snd] in *. subst errors. cbv zeta.
  set (draft := fill_pricing (Dict.update d ex')).
  unfold required_fields. cbn [filter find forallb].
  destruct (Dict.filled "name" draft), (Dict.filled "email" draft),
    (Dict.filled "phone" draft), (Dict.filled "booking_type" draft),
    (Dict.filled "date" draft), (Dict.filled "time" draft);
    cbn [negb andb fst snd ret]; reflexivity.
Qed.

End QuestionFacts.

Section CompletionFacts.

Import BookingFlow Py.

(** X22. The completion service can name the service and nothing else.
    Whatever two services answer, the extracted name, email, phone, date
    and time are the same; and when the draft already has a service, or a
    keyword of the table occurs in the message, the whole extraction is
    the same, so the service is not needed. *)
Theorem llm_only_names_the_service (llm llm' : LLM) (u : string)
    (known : Dict.t) :
  (forall k, k <> "booking_type" ->
     Dict.get k (_extract_booking_info llm u known)
     = Dict.get k (_extract_booking_info llm' u known)) /\
  (Dict.mem "booking_type" known = true \/
   keyword_service (strip (lower u)) <> None ->
   _extract_booking_info llm u known = _extract_booking_info llm' u known).
Proof.
  split.
  - intros k Hk. unfold _extract_booking_info.
    now rewrite !get_take_booking_type by exact Hk.
  - intros Hc. unfold _extract_booking_info, take_booking_type.
    destruct (Dict.mem "booking_type" known); [reflexivity|].
    destruct Hc as [Hc|Hc]; [discriminate Hc|].
    cbn [negb]. unfold _extract_booking_type. cbv zeta.
    destruct (keyword_service (strip (lower u))); [reflexivity|].
    contradiction.
Qed.

End CompletionFacts.

Lemma next_question_is_first_missing_witness :
  fst (BookingFlow._validate_extracted_data Samples.clock
         (BookingFlow._extract_booking_info Samples.no_llm "John Smith"
            Dict.empty) Dict.empty) = [] /\
  fst (fst (fst (fst (BookingFlow.handle_booking_intent Samples.mail_ok
                        Samples.no_llm Samples.clock "John Smith" Dict.empty
                        false Samples.fresh))))
  = (BookingFlow.summary_of [("name", "John Smith")]
     ++ BookingFlow.question_for Samples.clock "email")%string.
Proof.
  assert (Hy : fst (BookingFlow._validate_extracted_data Samples.clock
                      (BookingFlow._extract_booking_info Samples.no_llm
                         "John Smith" Dict.empty) Dict.empty) = [])
    by reflexivity.
  split; [exact Hy|].
  pose proof (next_question_is_first_missing Samples.mail_ok Samples.no_llm
                Samples.clock "John Smith" Dict.empty Samples.fresh Hy) as Q.
  cbv zeta in Q.
  change (merged Samples.no_llm Samples.clock "John Smith" Dict.empty)
    with [("name", "John Smith")] in Q.
  exact Q.
Defined.
